(** * Metabolic-syndrome meal planner

    A shallow embedding of the risk evaluation of
    [metabolic_counselor/data/database.py], the request normaliser of
    [metabolic_counselor/services/requests.py] and the chunked generation of
    [metabolic_counselor/cli/counselor.py], with the properties the
    specification states about them. *)

From Stdlib Require Import ZArith QArith List String Ascii Bool Lia.
From Stdlib Require Import DecimalString.
Import ListNotations.

Close Scope Q_scope.
Local Open Scope string_scope.
Local Open Scope Z_scope.

(** ** Python outcomes

    A call either returns a value or raises.  The exception classes the
    modelled code raises itself are kept apart, each with its message; an
    exception of any other class (the agent may raise what it likes) is
    [Other] with the name of its class. *)

Inductive exn : Type :=
| TypeError (msg : string)
| ValueError (msg : string)
| OverflowError (msg : string)
| Other (class_name msg : string).

Inductive result (A : Type) : Type :=
| Ok (a : A)
| Raise (e : exn).

Arguments Ok {A} a.
Arguments Raise {A} e.

Definition bind {A B : Type} (c : result A) (k : A -> result B) : result B :=
  match c with
  | Ok a => k a
  | Raise e => Raise e
  end.

Notation "x <- c ;; k" := (bind c (fun x => k))
  (at level 61, c at next level, right associativity).

Definition returns {A : Type} (c : result A) : Prop :=
  exists a, c = Ok a.

Definition is_ValueError {A : Type} (c : result A) : Prop :=
  exists msg, c = Raise (ValueError msg).

(** [str(n)] for an [int]. *)
Definition str (n : Z) : string := NilZero.string_of_int (Z.to_int n).

(** ** The patient repository and the five-factor evaluation
    ([metabolic_counselor/data/database.py]) *)

Module Database.

(** A numeric column of a fetched row.  SQLite's NULL arrives as [None]; an
    INTEGER or a REAL arrives as an [int] or a finite [float], and Python
    compares those with an [int] threshold exactly, so both are read as the
    rational number they denote. *)
Inductive cell : Type :=
| Null
| Num (q : Q).

Definition is_None (x : cell) : bool :=
  match x with
  | Null => true
  | Num _ => false
  end.

Definition Qltb (x y : Q) : bool :=
  (Qnum x * QDen y <? Qnum y * QDen x)%Z.

(** [x >= threshold] and [x < threshold]: on [None] Python raises. *)
Definition ge (x : cell) (threshold : Z) : result bool :=
  match x with
  | Num q => Ok (Qle_bool (inject_Z threshold) q)
  | Null => Raise (TypeError "'>=' not supported between instances of 'NoneType' and 'int'")
  end.

Definition lt (x : cell) (threshold : Z) : result bool :=
  match x with
  | Num q => Ok (Qltb q (inject_Z threshold))
  | Null => Raise (TypeError "'<' not supported between instances of 'NoneType' and 'int'")
  end.

(** [PatientDatabase.CRITERIA]. *)
Record BySex : Type := { male : Z; female : Z }.
Record ByPressure : Type := { systolic : Z; diastolic : Z }.
Record Criteria : Type := {
  waist : BySex;
  blood_pressure : ByPressure;
  fasting_glucose : Z;
  triglycerides : Z;
  hdl : BySex
}.

Definition CRITERIA : Criteria := {|
  waist := {| male := 90; female := 85 |};
  blood_pressure := {| systolic := 130; diastolic := 85 |};
  fasting_glucose := 100;
  triglycerides := 150;
  hdl := {| male := 40; female := 50 |}
|}.

(** Rows of the two tables ([scripts/build_health_database.py] gives the
    schema).  [sex] is TEXT that may be NULL. *)
Record Patient : Type := {
  patient_id : Z;
  name : string;
  sex : option string;
  age : option Z;
  rrn_masked : option string;
  registered_at : option string
}.

Record Exam : Type := {
  exam_id : Z;
  exam_patient_id : Z;
  exam_at : string;
  facility_name : option string;
  doc_registered_on : option string;
  height_cm : cell;
  weight_kg : cell;
  bmi : cell;
  waist_cm : cell;
  systolic_mmHg : cell;
  diastolic_mmHg : cell;
  fbg_mg_dl : cell;
  tg_mg_dl : cell;
  hdl_mg_dl : cell;
  tc_mg_dl : cell;
  ldl_mg_dl : cell
}.

Record PatientDatabase : Type := {
  patients : list Patient;
  health_exams : list Exam
}.

(** A Python [int] bound to a parameter of a statement must fit SQLite's
    INTEGER, a signed 64-bit integer; [execute] raises otherwise. *)
Definition bind_parameter (n : Z) : result Z :=
  if (- 2 ^ 63 <=? n) && (n <? 2 ^ 63) then Ok n
  else Raise (OverflowError "Python int too large to convert to SQLite INTEGER").

(** [SELECT ... FROM patients WHERE patient_id = ?], [fetchone]. *)
Definition get_patient (self : PatientDatabase) (pid : Z) : result (option Patient) :=
  pid <- bind_parameter pid ;;
  Ok (find (fun row => patient_id row =? pid) (patients self)).

(** [SELECT * FROM health_exams WHERE patient_id = ? ORDER BY exam_at DESC
    LIMIT 1].  The timestamps are texts, which SQLite orders byte by byte;
    among rows with the same [exam_at] SQLite leaves the choice open, and
    the first in table order is taken here. *)
Definition later (a b : Exam) : Exam :=
  if String.ltb (exam_at a) (exam_at b) then b else a.

Definition get_latest_exam (self : PatientDatabase) (pid : Z) : result (option Exam) :=
  pid <- bind_parameter pid ;;
  Ok match filter (fun row => exam_patient_id row =? pid) (health_exams self) with
     | [] => None
     | row :: rows => Some (fold_left later rows row)
     end.

(** [sex == "남"]. *)
Definition is_male (sex : option string) : bool :=
  match sex with
  | Some s => String.eqb s "남"
  | None => false
  end.

Definition _check_abdominal_obesity (waist_cm : cell) (sex : option string) : result bool :=
  if is_None waist_cm then Ok false
  else
    let threshold := if is_male sex then male (waist CRITERIA) else female (waist CRITERIA) in
    ge waist_cm threshold.

Definition _check_blood_pressure (systolic_mmHg diastolic_mmHg : cell) : result bool :=
  if is_None systolic_mmHg || is_None diastolic_mmHg then Ok false
  else
    high <- ge systolic_mmHg (systolic (blood_pressure CRITERIA)) ;;
    if high then Ok true
    else ge diastolic_mmHg (diastolic (blood_pressure CRITERIA)).

Definition _check_fasting_glucose (fbg_mg_dl : cell) : result bool :=
  if is_None fbg_mg_dl then Ok false
  else ge fbg_mg_dl (fasting_glucose CRITERIA).

Definition _check_triglycerides (tg_mg_dl : cell) : result bool :=
  if is_None tg_mg_dl then Ok false
  else ge tg_mg_dl (triglycerides CRITERIA).

Definition _check_hdl (hdl_mg_dl : cell) (sex : option string) : result bool :=
  if is_None hdl_mg_dl then Ok false
  else
    let threshold := if is_male sex then male (hdl CRITERIA) else female (hdl CRITERIA) in
    lt hdl_mg_dl threshold.

(** The [risk_factors] dict: five fixed keys, in insertion order. *)
Record RiskFactors : Type := {
  abdominal_obesity : bool;
  high_blood_pressure : bool;
  high_fasting_glucose : bool;
  high_triglycerides : bool;
  low_hdl : bool
}.

Definition values (f : RiskFactors) : list bool :=
  [abdominal_obesity f; high_blood_pressure f; high_fasting_glucose f;
   high_triglycerides f; low_hdl f].

(** [sum] over booleans: [True] counts 1 and [False] 0. *)
Definition sum (bs : list bool) : Z :=
  fold_left (fun acc b => acc + Z.b2z b) bs 0.

Record Measurements : Type := {
  m_waist_cm : cell;
  m_systolic_mmHg : cell;
  m_diastolic_mmHg : cell;
  m_fbg_mg_dl : cell;
  m_tg_mg_dl : cell;
  m_hdl_mg_dl : cell;
  m_bmi : cell
}.

Record Diagnosis : Type := {
  d_patient_id : Z;
  d_name : string;
  d_sex : option string;
  d_age : option Z;
  d_exam_at : string;
  criteria_met : Z;
  has_metabolic_syndrome : bool;
  risk_factors : RiskFactors;
  measurements : Measurements
}.

Definition check_metabolic_syndrome (self : PatientDatabase) (pid : Z)
  : result (option Diagnosis) :=
  patient <- get_patient self pid ;;
  match patient with
  | None => Ok None
  | Some patient =>
    exam <- get_latest_exam self pid ;;
    match exam with
    | None => Ok None
    | Some exam =>
      let sex := sex patient in
      f1 <- _check_abdominal_obesity (waist_cm exam) sex ;;
      f2 <- _check_blood_pressure (systolic_mmHg exam) (diastolic_mmHg exam) ;;
      f3 <- _check_fasting_glucose (fbg_mg_dl exam) ;;
      f4 <- _check_triglycerides (tg_mg_dl exam) ;;
      f5 <- _check_hdl (hdl_mg_dl exam) sex ;;
      let risk_factors := {|
        abdominal_obesity := f1;
        high_blood_pressure := f2;
        high_fasting_glucose := f3;
        high_triglycerides := f4;
        low_hdl := f5
      |} in
      let criteria_met := sum (values risk_factors) in
      let has_metabolic_syndrome := 3 <=? criteria_met in
      Ok (Some {|
        d_patient_id := pid;
        d_name := name patient;
        d_sex := sex;
        d_age := age patient;
        d_exam_at := exam_at exam;
        criteria_met := criteria_met;
        has_metabolic_syndrome := has_metabolic_syndrome;
        risk_factors := risk_factors;
        measurements := {|
          m_waist_cm := waist_cm exam;
          m_systolic_mmHg := systolic_mmHg exam;
          m_diastolic_mmHg := diastolic_mmHg exam;
          m_fbg_mg_dl := fbg_mg_dl exam;
          m_tg_mg_dl := tg_mg_dl exam;
          m_hdl_mg_dl := hdl_mg_dl exam;
          m_bmi := bmi exam
        |}
      |})
    end
  end.

Record RiskEvaluation : Type := {
  risk_level : string;
  risk_score : Z;
  risk_label : string;
  risk_description : string
}.

Definition evaluate_risk_level (self : PatientDatabase) (pid : Z)
  : result (option RiskEvaluation) :=
  diagnosis <- check_metabolic_syndrome self pid ;;
  match diagnosis with
  | None => Ok None
  | Some diagnosis =>
    let score := criteria_met diagnosis in
    let '(level, label, desc) :=
      if score =? 0 then
        ("low", "저위험",
         "현재 대사증후군 위험 요인이 없습니다. 건강한 생활습관을 유지하세요.")
      else if score =? 1 then
        ("low", "저위험",
         "1개의 위험 요인이 있습니다. 예방적 관리가 필요합니다.")
      else if score =? 2 then
        ("medium", "중위험",
         "2개의 위험 요인이 있어 대사증후군 전단계입니다. 적극적인 생활습관 개선이 필요합니다.")
      else if score =? 3 then
        ("high", "고위험",
         "대사증후군으로 진단됩니다. 의료진 상담 및 치료적 개입이 필요합니다.")
      else
        ("high", "고위험",
         str score ++ "개의 위험 요인이 있어 심혈관질환 위험이 매우 높습니다. "
           ++ "즉각적인 의학적 관리가 필요합니다.")
    in
    Ok (Some {|
      risk_level := level;
      risk_score := score;
      risk_label := label;
      risk_description := desc
    |})
  end.

End Database.

(** ** Text

    A Python [str] is modelled by the bytes of its UTF-8 encoding.  A
    character is a lead byte with the continuation bytes that follow it, and
    [ord] decodes it; the character classes are those of the Unicode database
    of CPython 3.11 (Unicode 14.0). *)

Module Text.

Definition code (b : ascii) : N := N_of_ascii b.

(** Truth value of a string: non-empty. *)
Definition truthy (s : string) : bool :=
  match s with
  | EmptyString => false
  | String _ _ => true
  end.

(** [sep.join(items)]. *)
Definition join (sep : string) (items : list string) : string :=
  String.concat sep items.

Definition is_continuation (b : ascii) : bool :=
  ((128 <=? code b) && (code b <? 192))%N.

(** [list(s)]: the characters of [s]. *)
Fixpoint chars (s : string) : list string :=
  match s with
  | EmptyString => []
  | String b s' =>
    match chars s' with
    | String b' ch :: rest =>
      if is_continuation b' then String b (String b' ch) :: rest
      else String b EmptyString :: String b' ch :: rest
    | rest => String b EmptyString :: rest
    end
  end.

Definition continuation (b : N) : bool := ((128 <=? b) && (b <? 192))%N.

(** [ord(ch)].  Only the encoding of a code point has one: no overlong
    form, no surrogate, nothing above U+10FFFF. *)
Definition ord (ch : string) : option N :=
  match map code (list_ascii_of_string ch) with
  | [a] => if a <? 128 then Some a else None
  | [a; b] =>
    if (194 <=? a) && (a <? 224) && continuation b
    then Some ((a - 192) * 64 + (b - 128))
    else None
  | [a; b; c] =>
    let v := (a - 224) * 4096 + (b - 128) * 64 + (c - 128) in
    if (224 <=? a) && (a <? 240) && continuation b && continuation c
       && (2048 <=? v) && negb ((55296 <=? v) && (v <? 57344))
    then Some v
    else None
  | [a; b; c; d] =>
    let v := (a - 240) * 262144 + (b - 128) * 4096 + (c - 128) * 64 + (d - 128) in
    if (240 <=? a) && (a <? 245) && continuation b && continuation c && continuation d
       && (65536 <=? v) && (v <? 1114112)
    then Some v
    else None
  | _ => None
  end%N.

Definition within (ranges : list (N * N)) (c : N) : bool :=
  existsb (fun r => (fst r <=? c) && (c <=? snd r))%N ranges.

(** The code points [str.isspace] holds of. *)
Definition WHITESPACE : list (N * N) :=
  [(0x9, 0xD); (0x1C, 0x20); (0x85, 0x85); (0xA0, 0xA0); (0x1680, 0x1680);
   (0x2000, 0x200A); (0x2028, 0x2029); (0x202F, 0x202F); (0x205F, 0x205F);
   (0x3000, 0x3000)]%N.

(** The zeros of the decimal digits: each is followed by its digits 1 to 9. *)
Definition DECIMAL_ZEROS : list N :=
  [0x30; 0x660; 0x6F0; 0x7C0; 0x966; 0x9E6; 0xA66; 0xAE6;
   0xB66; 0xBE6; 0xC66; 0xCE6; 0xD66; 0xDE6; 0xE50; 0xED0;
   0xF20; 0x1040; 0x1090; 0x17E0; 0x1810; 0x1946; 0x19D0; 0x1A80;
   0x1A90; 0x1B50; 0x1BB0; 0x1C40; 0x1C50; 0xA620; 0xA8D0; 0xA900;
   0xA9D0; 0xA9F0; 0xAA50; 0xABF0; 0xFF10; 0x104A0; 0x10D30; 0x11066;
   0x110F0; 0x11136; 0x111D0; 0x112F0; 0x11450; 0x114D0; 0x11650; 0x116C0;
   0x11730; 0x118E0; 0x11950; 0x11C50; 0x11D50; 0x11DA0; 0x16A60; 0x16AC0;
   0x16B50; 0x1D7CE; 0x1D7D8; 0x1D7E2; 0x1D7EC; 0x1D7F6; 0x1E140; 0x1E2F0;
   0x1E950; 0x1FBF0]%N.

(** The digits that are not decimal: superscripts, circled digits and the
    like. *)
Definition OTHER_DIGITS : list (N * N) :=
  [(0xB2, 0xB3); (0xB9, 0xB9); (0x1369, 0x1371); (0x19DA, 0x19DA);
   (0x2070, 0x2070); (0x2074, 0x2079); (0x2080, 0x2089); (0x2460, 0x2468);
   (0x2474, 0x247C); (0x2488, 0x2490); (0x24EA, 0x24EA); (0x24F5, 0x24FD);
   (0x24FF, 0x24FF); (0x2776, 0x277E); (0x2780, 0x2788); (0x278A, 0x2792);
   (0x10A40, 0x10A43); (0x10E60, 0x10E68); (0x11052, 0x1105A);
   (0x1F100, 0x1F10A)]%N.

(** [ch.isspace()]. *)
Definition isspace (ch : string) : bool :=
  match ord ch with
  | Some c => within WHITESPACE c
  | None => false
  end.

Fixpoint digit_value (zeros : list N) (c : N) : option Z :=
  match zeros with
  | [] => None
  | zero :: zeros' =>
    if ((zero <=? c) && (c <? zero + 10))%N then Some (Z.of_N (c - zero))
    else digit_value zeros' c
  end.

(** [unicodedata.decimal(ch)], where it is defined. *)
Definition decimal (ch : string) : option Z :=
  match ord ch with
  | Some c => digit_value DECIMAL_ZEROS c
  | None => None
  end.

(** [ch.isdecimal()], which is also the class [\d] of [re]. *)
Definition isdecimal (ch : string) : bool :=
  match decimal ch with
  | Some _ => true
  | None => false
  end.

(** [ch.isdigit()]. *)
Definition isdigit (ch : string) : bool :=
  isdecimal ch ||
  match ord ch with
  | Some c => within OTHER_DIGITS c
  | None => false
  end.

Fixpoint lskip (l : list string) : list string :=
  match l with
  | [] => []
  | ch :: l' => if isspace ch then lskip l' else l
  end.

Fixpoint rskip (l : list string) : list string :=
  match l with
  | [] => []
  | ch :: l' =>
    match rskip l' with
    | [] => if isspace ch then [] else [ch]
    | r => ch :: r
    end
  end.

(** [s.strip()]. *)
Definition strip (s : string) : string := join "" (rskip (lskip (chars s))).

(** [s.replace(old, new)] for one-character ASCII [old] and [new]. *)
Fixpoint replace (old new : ascii) (s : string) : string :=
  match s with
  | EmptyString => EmptyString
  | String c s' => String (if Ascii.eqb c old then new else c) (replace old new s')
  end.

(** [s.split(sep)] for a one-character ASCII separator: never an empty
    list. *)
Fixpoint split (sep : ascii) (s : string) : list string :=
  match s with
  | EmptyString => [EmptyString]
  | String c s' =>
    if Ascii.eqb c sep then EmptyString :: split sep s'
    else
      match split sep s' with
      | piece :: pieces => String c piece :: pieces
      | [] => [String c EmptyString]
      end
  end.

(** *** [int(s)]

    The text is first brought to ASCII: a code point below 127 stays, any
    other white space becomes a space and any other decimal digit its ASCII
    digit; anything else becomes a question mark and ends the text.  The
    literal is then white space, an optional sign, digits with single
    underscores between them, and white space; here white space is that of
    C, tab to carriage return and the space. *)

Definition c_isspace (c : N) : bool :=
  (((9 <=? c) && (c <=? 13)) || (c =? 32))%N.

Definition c_isdigit (c : N) : bool :=
  ((48 <=? c) && (c <=? 57))%N.

Fixpoint to_ascii (l : list string) : list N :=
  match l with
  | [] => []
  | ch :: l' =>
    match ord ch with
    | Some c =>
      if (c <? 127)%N then c :: to_ascii l'
      else if isspace ch then 32%N :: to_ascii l'
      else
        match decimal ch with
        | Some d => (48 + Z.to_N d)%N :: to_ascii l'
        | None => [63%N]
        end
    | None => [63%N]
    end
  end.

Fixpoint skip_space (l : list N) : list N :=
  match l with
  | [] => []
  | c :: l' => if c_isspace c then skip_space l' else l
  end.

(** The digits after the first: the value, the number of digits, and what
    follows them; [None] for an underscore that no digit follows. *)
Fixpoint scan (l : list N) (value : Z) (digits : Z) : option (Z * Z * list N) :=
  match l with
  | [] => Some (value, digits, [])
  | c :: l' =>
    if c_isdigit c then scan l' (10 * value + Z.of_N (c - 48)) (digits + 1)
    else if (c =? 95)%N then
      match l' with
      | d :: l'' =>
        if c_isdigit d then scan l'' (10 * value + Z.of_N (d - 48)) (digits + 1)
        else None
      | [] => None
      end
    else Some (value, digits, l)
  end.

Definition _PY_LONG_DEFAULT_MAX_STR_DIGITS : Z := 4300.

Definition int (s : string) : result Z :=
  let invalid := Raise (ValueError "invalid literal for int() with base 10") in
  let l := skip_space (to_ascii (chars s)) in
  let '(sign, l) :=
    match l with
    | c :: l' => if (c =? 43)%N then (1, l') else if (c =? 45)%N then (-1, l') else (1, l)
    | [] => (1, l)
    end in
  match l with
  | c :: l' =>
    if c_isdigit c then
      match scan l' (Z.of_N (c - 48)) 1 with
      | Some (value, digits, rest) =>
        if _PY_LONG_DEFAULT_MAX_STR_DIGITS <? digits then
          Raise (ValueError "Exceeds the limit (4300 digits) for integer string conversion")
        else if forallb c_isspace rest then Ok (sign * value)
        else invalid
      | None => invalid
      end
    else invalid
  | [] => invalid
  end.

(** ["%0{width}d" % n] for [n >= 0]. *)
Definition zfill (width : nat) (n : Z) : string :=
  let s := str n in
  string_of_list_ascii (repeat "0"%char (width - String.length s)) ++ s.

End Text.

(** ** Calendar dates ([datetime.date])

    A date is identified with its proleptic Gregorian ordinal
    ([date.toordinal()]): 1 is 0001-01-01 and [_MAXORDINAL] is 9999-12-31.
    Comparison of dates is comparison of ordinals, and the library itself adds
    a [timedelta] by going through the ordinal. *)

Module Calendar.
Import Text.

Definition date : Type := Z.

Definition MINYEAR : Z := 1.
Definition MAXYEAR : Z := 9999.
Definition _MAXORDINAL : Z := 3652059.

Definition _DAYS_IN_MONTH : list Z :=
  [-1; 31; 28; 31; 30; 31; 30; 31; 31; 30; 31; 30; 31].

Definition _DAYS_BEFORE_MONTH : list Z :=
  [-1; 0; 31; 59; 90; 120; 151; 181; 212; 243; 273; 304; 334].

Definition _is_leap (year : Z) : bool :=
  (year mod 4 =? 0) && (negb (year mod 100 =? 0) || (year mod 400 =? 0)).

Definition _days_before_year (year : Z) : Z :=
  let y := year - 1 in
  y * 365 + y / 4 - y / 100 + y / 400.

Definition _days_in_month (year month : Z) : Z :=
  if (month =? 2) && _is_leap year then 29
  else nth (Z.to_nat month) _DAYS_IN_MONTH 0.

Definition _days_before_month (year month : Z) : Z :=
  nth (Z.to_nat month) _DAYS_BEFORE_MONTH 0
  + Z.b2z ((2 <? month) && _is_leap year).

Definition _ymd2ord (year month day : Z) : Z :=
  _days_before_year year + _days_before_month year month + day.

Definition _DI400Y : Z := 146097.
Definition _DI100Y : Z := 36524.
Definition _DI4Y : Z := 1461.

Definition _ord2ymd (n : Z) : Z * Z * Z :=
  let n := n - 1 in
  let n400 := n / _DI400Y in
  let n := n mod _DI400Y in
  let year := n400 * 400 + 1 in
  let n100 := n / _DI100Y in
  let n := n mod _DI100Y in
  let n4 := n / _DI4Y in
  let n := n mod _DI4Y in
  let n1 := n / 365 in
  let n := n mod 365 in
  let year := year + n100 * 100 + n4 * 4 + n1 in
  if (n1 =? 4) || (n100 =? 4) then (year - 1, 12, 31)
  else
    let leapyear := (n1 =? 3) && (negb (n4 =? 24) || (n100 =? 3)) in
    let month := Z.shiftr (n + 50) 5 in
    let preceding :=
      nth (Z.to_nat month) _DAYS_BEFORE_MONTH 0 + Z.b2z ((2 <? month) && leapyear) in
    if n <? preceding then
      let month := month - 1 in
      let preceding :=
        preceding
        - (nth (Z.to_nat month) _DAYS_IN_MONTH 0 + Z.b2z ((month =? 2) && leapyear)) in
      (year, month, n - preceding + 1)
    else (year, month, n - preceding + 1).

(** [date(year, month, day)]: the constructor checks its fields. *)
Definition new_date (year month day : Z) : result date :=
  if negb ((MINYEAR <=? year) && (year <=? MAXYEAR)) then
    Raise (ValueError ("year " ++ str year ++ " is out of range"))
  else if negb ((1 <=? month) && (month <=? 12)) then
    Raise (ValueError "month must be in 1..12")
  else if negb ((1 <=? day) && (day <=? _days_in_month year month)) then
    Raise (ValueError "day is out of range for month")
  else Ok (_ymd2ord year month day).

(** [d + timedelta(days=n)]: the [timedelta] must be representable, and so
    must the sum. *)
Definition add_days (d : date) (n : Z) : result date :=
  if 999999999 <? Z.abs n then
    Raise (OverflowError "days; must have magnitude <= 999999999")
  else
    let o := d + n in
    if (0 <? o) && (o <=? _MAXORDINAL) then Ok o
    else Raise (OverflowError "date value out of range").

(** [(a - b).days]. *)
Definition days_between (a b : date) : Z := a - b.

(** [d.isoformat()]: ["%04d-%02d-%02d"]. *)
Definition isoformat (d : date) : string :=
  let '(year, month, day) := _ord2ymd d in
  zfill 4 year ++ "-" ++ zfill 2 month ++ "-" ++ zfill 2 day.

(** *** [datetime.strptime(text, "%Y-%m-%d").date()]

    The format compiles to the regular expression
    [(?P<Y>\d\d\d\d)-(?P<m>1[0-2]|0[1-9]|[1-9])-(?P<d>3[0-1]|[1-2]\d|0[1-9]|[1-9]| [1-9])],
    matched at the start of the text with alternatives tried from the left;
    text left over after the match is an error, and so is a day the month
    does not have. *)

Definition exactly (x : string) (ch : string) : bool := String.eqb ch x.

(** A range of ASCII characters, given by their codes. *)
Definition between (lo hi : N) (ch : string) : bool :=
  match ord ch with
  | Some c => ((lo <=? c) && (c <=? hi))%N
  | None => false
  end.

(** One alternative, a sequence of character classes, at the head of [l]:
    the characters it matches and what follows. *)
Fixpoint match_classes (classes : list (string -> bool)) (l : list string)
  : option (list string * list string) :=
  match classes with
  | [] => Some ([], l)
  | p :: classes' =>
    match l with
    | [] => None
    | ch :: l' =>
      if p ch then
        match match_classes classes' l' with
        | Some (text, rest) => Some (ch :: text, rest)
        | None => None
        end
      else None
    end
  end.

(** Alternation followed by the rest of the pattern [k]: the first
    alternative after which the rest matches. *)
Fixpoint match_alternatives {A : Type} (alternatives : list (list (string -> bool)))
  (l : list string) (k : list string -> list string -> option A) : option A :=
  match alternatives with
  | [] => None
  | classes :: alternatives' =>
    match match_classes classes l with
    | Some (text, rest) =>
      match k text rest with
      | Some a => Some a
      | None => match_alternatives alternatives' l k
      end
    | None => match_alternatives alternatives' l k
    end
  end.

Definition regex_Y : list (list (string -> bool)) :=
  [[isdecimal; isdecimal; isdecimal; isdecimal]].

Definition regex_m : list (list (string -> bool)) :=
  [[exactly "1"; between 48 50]; [exactly "0"; between 49 57]; [between 49 57]].

Definition regex_d : list (list (string -> bool)) :=
  [[exactly "3"; between 48 49]; [between 49 50; isdecimal];
   [exactly "0"; between 49 57]; [between 49 57]; [exactly " "; between 49 57]].

Definition regex_dash : list (list (string -> bool)) := [[exactly "-"]].

(** The groups Y, m and d of a match, and the characters after it. *)
Definition match_format (l : list string)
  : option (string * string * string * list string) :=
  match_alternatives regex_Y l (fun Y l1 =>
  match_alternatives regex_dash l1 (fun _ l2 =>
  match_alternatives regex_m l2 (fun m l3 =>
  match_alternatives regex_dash l3 (fun _ l4 =>
  match_alternatives regex_d l4 (fun d rest =>
    Some (join "" Y, join "" m, join "" d, rest)))))).

Definition strptime_date (data_string : string) : result date :=
  match match_format (chars data_string) with
  | None => Raise (ValueError "time data does not match format '%Y-%m-%d'")
  | Some (Y, m, d, rest) =>
    match rest with
    | _ :: _ => Raise (ValueError "unconverted data remains")
    | [] =>
      year <- int Y ;;
      month <- int m ;;
      day <- int d ;;
      new_date year month day
    end
  end.

End Calendar.

(** ** Counselor input ([metabolic_counselor/services/requests.py]) *)

Module Requests.
Import Text Calendar.

Inductive CounselorProfile : Type :=
| MEDICAL
| EXERCISE.

Definition _parse_date (value : string) : result date :=
  match strptime_date (strip value) with
  | Ok d => Ok d
  | Raise (ValueError _) => Raise (ValueError "날짜는 YYYY-MM-DD 형식으로 입력해주세요.")
  | Raise e => Raise e
  end.

Definition _parse_calories (value : string) : result (option Z) :=
  let value := strip value in
  if negb (truthy value) then Ok None
  else
    let digits := join "" (filter isdigit (chars value)) in
    if negb (truthy digits) then
      Raise (ValueError "칼로리 값에서 숫자를 추출할 수 없습니다.")
    else
      calories <- int digits ;;
      if negb ((800 <=? calories) && (calories <=? 4000)) then
        Raise (ValueError "칼로리는 800kcal 이상 4000kcal 이하 범위로 입력해주세요.")
      else Ok (Some calories).

(** The pieces of one token: [token.replace(";", ",").split(",")]. *)
Definition pieces (token : string) : list string :=
  split "," (replace ";" "," token).

Definition _parse_list (tokens : list string) : list string :=
  flat_map (fun token => filter truthy (map strip (pieces token))) tokens.

Record MealPlanRequest : Type := {
  counselor_profile : CounselorProfile;
  patient_id : Z;
  start_date : date;
  end_date : date;
  target_calories : option Z;
  preferred_foods : list string;
  avoided_foods : list string;
  snack_policy : string;
  special_notes : string
}.

Definition __post_init__ (self : MealPlanRequest) : result unit :=
  if end_date self <? start_date self then
    Raise (ValueError "기간의 시작일은 종료일보다 앞서야 합니다.")
  else Ok tt.

(** Construction of the frozen dataclass runs [__post_init__]. *)
Definition new_MealPlanRequest (fields : MealPlanRequest) : result MealPlanRequest :=
  _ <- __post_init__ fields ;;
  Ok fields.

(** [dataclasses.replace(request, start_date=..., end_date=...)] builds a new
    instance, so [__post_init__] runs again. *)
Definition replace_dates (request : MealPlanRequest) (start_date end_date : date)
  : result MealPlanRequest :=
  new_MealPlanRequest {|
    counselor_profile := counselor_profile request;
    patient_id := patient_id request;
    start_date := start_date;
    end_date := end_date;
    target_calories := target_calories request;
    preferred_foods := preferred_foods request;
    avoided_foods := avoided_foods request;
    snack_policy := snack_policy request;
    special_notes := special_notes request
  |}.

Definition duration_days (self : MealPlanRequest) : Z :=
  days_between (end_date self) (start_date self) + 1.

Record RevisionInstruction : Type := {
  target_dates : list date;
  meals_to_update : list string;
  change_notes : string
}.

Record RequestNormalizer : Type := {
  default_snack_policy : string
}.

Definition MEAL_LABELS : list string := ["아침"; "점심"; "저녁"; "간식"].

Definition normalize_plan_request (self : RequestNormalizer)
  (counselor_profile : CounselorProfile) (patient_id : Z)
  (start_date_str end_date_str calorie_text : string)
  (preferred_tokens avoided_tokens : list string)
  (snack_policy : option string) (notes : string) : result MealPlanRequest :=
  start <- _parse_date start_date_str ;;
  end_ <- _parse_date end_date_str ;;
  calories <- _parse_calories calorie_text ;;
  let preferred := _parse_list preferred_tokens in
  let avoided := _parse_list avoided_tokens in
  let policy :=
    match snack_policy with
    | Some text => if truthy text then strip text else default_snack_policy self
    | None => default_snack_policy self
    end in
  new_MealPlanRequest {|
    counselor_profile := counselor_profile;
    patient_id := patient_id;
    start_date := start;
    end_date := end_;
    target_calories := calories;
    preferred_foods := preferred;
    avoided_foods := avoided;
    snack_policy := if truthy policy then policy else default_snack_policy self;
    special_notes := strip notes
  |}.

(** [[_parse_date(token) for token in date_tokens if token.strip()]]: the
    first token that does not parse raises. *)
Fixpoint parse_dates (date_tokens : list string) : result (list date) :=
  match date_tokens with
  | [] => Ok []
  | token :: tokens =>
    if truthy (strip token) then
      d <- _parse_date token ;;
      ds <- parse_dates tokens ;;
      Ok (d :: ds)
    else parse_dates tokens
  end.

Definition unsupported_meal (candidate : string) : exn :=
  ValueError ("지원하지 않는 식사 구분입니다: " ++ candidate
              ++ " (허용: " ++ join ", " MEAL_LABELS ++ ")").

(** The inner loop over the pieces of one meal token. *)
Fixpoint check_labels (labels : list string) (normalized_meals : list string)
  : result (list string) :=
  match labels with
  | [] => Ok normalized_meals
  | label :: labels' =>
    let candidate := strip label in
    if negb (truthy candidate) then check_labels labels' normalized_meals
    else if negb (existsb (String.eqb candidate) MEAL_LABELS) then
      Raise (unsupported_meal candidate)
    else check_labels labels' (normalized_meals ++ [candidate])%list
  end.

(** The outer loop over the meal tokens. *)
Fixpoint normalize_meals (meal_tokens : list string) (normalized_meals : list string)
  : result (list string) :=
  match meal_tokens with
  | [] => Ok normalized_meals
  | token :: tokens =>
    normalized_meals <- check_labels (pieces token) normalized_meals ;;
    normalize_meals tokens normalized_meals
  end.

Definition normalize_revision (self : RequestNormalizer)
  (date_tokens meal_tokens : list string) (change_notes : string)
  : result RevisionInstruction :=
  if negb (truthy (strip change_notes)) then
    Raise (ValueError "수정 지시 내용을 입력해주세요.")
  else
    target_dates <- parse_dates date_tokens ;;
    match target_dates with
    | [] => Raise (ValueError "수정 대상 날짜를 최소 1개 이상 입력해주세요.")
    | _ :: _ =>
      normalized_meals <- normalize_meals meal_tokens [] ;;
      Ok {|
        target_dates := target_dates;
        meals_to_update := normalized_meals;
        change_notes := strip change_notes
      |}
    end.

End Requests.

(** ** Chunked generation ([metabolic_counselor/cli/counselor.py]) *)

Module Counselor.
Import Text Calendar Requests.

(** [MealPlanResult] of [agents/meal_plan.py]; [metadata] is a dict of
    strings, kept in insertion order. *)
Record MealPlanResult : Type := {
  markdown : string;
  result_start_date : date;
  result_end_date : date;
  result_patient_id : Z;
  mode : string;
  metadata : list (string * string)
}.

(** [metadata[key]]. *)
Fixpoint lookup (key : string) (d : list (string * string)) : option string :=
  match d with
  | [] => None
  | (k, v) :: d' => if String.eqb k key then Some v else lookup key d'
  end.

(** The arguments of one call [self.agent.generate_plan(patient_context,
    request, previous_plan=...)]. *)
Record Call : Type := {
  call_context : string;
  call_request : MealPlanRequest;
  call_previous_plan : option string
}.

Definition newline : string := String (ascii_of_nat 10) EmptyString.

Section Orchestrator.

(** [MealPlanAgent.generate_plan] prompts a chat model: what it answers is
    not decided by the program.  [World] is whatever that answer depends on;
    a call may change it and may fail.  (What the agent does with its
    arguments, such as leaving an empty previous plan out of the prompt, is
    its own business and not part of this model.) *)
Variable World : Type.
Variable generate_plan :
  string -> MealPlanRequest -> option string -> World -> result MealPlanResult * World.

(** The module constant [MAX_CHUNK_DAYS] (from the environment, 14 by default). *)
Variable MAX_CHUNK_DAYS : Z.

(** The program state: the world, and the calls made to the agent so far,
    each with its outcome (the record is kept for the proofs only). *)
Definition State : Type := World * list (Call * result MealPlanResult).

(** A computation returns or raises, in a new state; [None] stands for a
    loop that was cut off before it ended. *)
Definition M (A : Type) : Type := State -> option (result A * State).

Definition ret {A : Type} (a : A) : M A :=
  fun st => Some (Ok a, st).

Definition bindM {A B : Type} (c : M A) (k : A -> M B) : M B :=
  fun st =>
    match c st with
    | Some (Ok a, st') => k a st'
    | Some (Raise e, st') => Some (Raise e, st')
    | None => None
    end.

Definition lift {A : Type} (c : result A) : M A :=
  fun st => Some (c, st).

Definition cut_off {A : Type} : M A :=
  fun _ => None.

Notation "x <<- c ;; k" := (bindM c (fun x => k))
  (at level 61, c at next level, right associativity).

Definition agent_generate_plan (patient_context : string) (request : MealPlanRequest)
  (previous_plan : option string) : M MealPlanResult :=
  fun '(world, calls) =>
    let '(outcome, world') := generate_plan patient_context request previous_plan world in
    let call := {|
      call_context := patient_context;
      call_request := request;
      call_previous_plan := previous_plan
    |} in
    Some (outcome, (world', (calls ++ [(call, outcome)])%list)).

(** The [while current_start <= request.end_date] loop; [fuel] bounds the
    number of iterations. *)
Fixpoint while_chunks (fuel : nat) (patient_context : string) (request : MealPlanRequest)
  (max_days : Z) (current_start : date) (previous_markdown : option string)
  (segments : list (MealPlanRequest * MealPlanResult))
  : M (list (MealPlanRequest * MealPlanResult)) :=
  if current_start <=? end_date request then
    match fuel with
    | O => cut_off
    | S fuel' =>
      upper <<- lift (add_days current_start (max_days - 1)) ;;
      let current_end := Z.min upper (end_date request) in
      chunk_request <<- lift (replace_dates request current_start current_end) ;;
      chunk_result <<- agent_generate_plan patient_context chunk_request previous_markdown ;;
      current_start' <<- lift (add_days current_end 1) ;;
      while_chunks fuel' patient_context request max_days current_start'
        (Some (markdown chunk_result)) (segments ++ [(chunk_request, chunk_result)])%list
    end
  else ret segments.

Definition section_of (segment : MealPlanRequest * MealPlanResult) : string :=
  let '(chunk_request, chunk_result) := segment in
  join newline
    ["### " ++ isoformat (start_date chunk_request) ++ " ~ "
       ++ isoformat (end_date chunk_request);
     "";
     markdown chunk_result].

Definition _generate_sequence (patient_context : string) (request : MealPlanRequest)
  : M MealPlanResult :=
  let max_days := Z.max 1 MAX_CHUNK_DAYS in
  if duration_days request <=? max_days then
    agent_generate_plan patient_context request None
  else
    segments <<- while_chunks (Z.to_nat (duration_days request)) patient_context request
                   max_days (start_date request) None [] ;;
    let combined_sections := map section_of segments in
    let combined_markdown := join (newline ++ newline) combined_sections in
    let metadata :=
      [("status", "created");
       ("chunks", str (Z.of_nat (List.length segments)));
       ("chunk_span_days", str max_days)] in
    ret {|
      markdown := combined_markdown;
      result_start_date := start_date request;
      result_end_date := end_date request;
      result_patient_id := patient_id request;
      mode := "create";
      metadata := metadata
    |}.

End Orchestrator.

End Counselor.

(** ** Sample data *)

Module Sample.
Import Database.

(** A man of 52 whose latest exam meets four of the five criteria. *)
Definition patient1 : Patient := {|
  patient_id := 1; name := "김철수"; sex := Some "남"; age := Some 52;
  rrn_masked := Some "720101-1******"; registered_at := Some "2024-01-05 09:00:00"
|}.

Definition exam1_old : Exam := {|
  exam_id := 1; exam_patient_id := 1; exam_at := "2023-03-02 10:00:00";
  facility_name := Some "A"; doc_registered_on := Some "2023-03-05";
  height_cm := Num (172 # 1); weight_kg := Num (80 # 1); bmi := Num (2704 # 100);
  waist_cm := Num (88 # 1); systolic_mmHg := Num (120 # 1); diastolic_mmHg := Num (78 # 1);
  fbg_mg_dl := Num (95 # 1); tg_mg_dl := Num (130 # 1); hdl_mg_dl := Num (45 # 1);
  tc_mg_dl := Num (190 # 1); ldl_mg_dl := Num (110 # 1)
|}.

Definition exam1 : Exam := {|
  exam_id := 2; exam_patient_id := 1; exam_at := "2024-03-02 10:00:00";
  facility_name := Some "A"; doc_registered_on := Some "2024-03-05";
  height_cm := Num (172 # 1); weight_kg := Num (84 # 1); bmi := Num (2839 # 100);
  waist_cm := Num (925 # 10); systolic_mmHg := Num (135 # 1); diastolic_mmHg := Num (80 # 1);
  fbg_mg_dl := Num (110 # 1); tg_mg_dl := Num (140 # 1); hdl_mg_dl := Num (38 # 1);
  tc_mg_dl := Num (210 # 1); ldl_mg_dl := Num (130 # 1)
|}.

(** A woman whose exam lacks the waist, the diastolic pressure and the HDL
    value, and whose other values sit exactly on the thresholds. *)
Definition patient2 : Patient := {|
  patient_id := 2; name := "이영희"; sex := Some "여"; age := Some 47;
  rrn_masked := None; registered_at := None
|}.

Definition exam2 : Exam := {|
  exam_id := 3; exam_patient_id := 2; exam_at := "2024-02-11 08:30:00";
  facility_name := None; doc_registered_on := None;
  height_cm := Null; weight_kg := Null; bmi := Null;
  waist_cm := Null; systolic_mmHg := Num (150 # 1); diastolic_mmHg := Null;
  fbg_mg_dl := Num (100 # 1); tg_mg_dl := Num (150 # 1); hdl_mg_dl := Null;
  tc_mg_dl := Null; ldl_mg_dl := Null
|}.

(** A woman with every value exactly on its threshold. *)
Definition patient3 : Patient := {|
  patient_id := 3; name := "박민지"; sex := Some "여"; age := Some 61;
  rrn_masked := None; registered_at := None
|}.

Definition exam3 : Exam := {|
  exam_id := 4; exam_patient_id := 3; exam_at := "2024-04-20";
  facility_name := None; doc_registered_on := None;
  height_cm := Num (160 # 1); weight_kg := Num (60 # 1); bmi := Num (2344 # 100);
  waist_cm := Num (85 # 1); systolic_mmHg := Num (130 # 1); diastolic_mmHg := Num (85 # 1);
  fbg_mg_dl := Num (100 # 1); tg_mg_dl := Num (150 # 1); hdl_mg_dl := Num (50 # 1);
  tc_mg_dl := Null; ldl_mg_dl := Null
|}.

(** Patient 4 is registered and was never examined. *)
Definition patient4 : Patient := {|
  patient_id := 4; name := "최지훈"; sex := Some "남"; age := None;
  rrn_masked := None; registered_at := None
|}.

Definition db : PatientDatabase := {|
  patients := [patient1; patient2; patient3; patient4];
  health_exams := [exam1_old; exam1; exam2; exam3]
|}.

Definition normalizer : Requests.RequestNormalizer :=
  {| Requests.default_snack_policy := "포함" |}.

(** A request for patient 1 over the dates with ordinals [first] to [last]. *)
Definition request (first last : Z) : Requests.MealPlanRequest := {|
  Requests.counselor_profile := Requests.MEDICAL;
  Requests.patient_id := 1;
  Requests.start_date := first;
  Requests.end_date := last;
  Requests.target_calories := Some 1800;
  Requests.preferred_foods := ["생선"; "채소"];
  Requests.avoided_foods := ["튀김"];
  Requests.snack_policy := "포함";
  Requests.special_notes := ""
|}.

(** An agent that always answers; its world counts the calls, and the answer
    shows the count and the continuity context it was given. *)
Definition agent (patient_context : string) (request : Requests.MealPlanRequest)
  (previous_plan : option string) (world : nat)
  : result Counselor.MealPlanResult * nat :=
  (Ok {|
     Counselor.markdown :=
       "plan " ++ str (Z.of_nat world)
       ++ match previous_plan with
          | None => ""
          | Some previous => " after (" ++ previous ++ ")"
          end;
     Counselor.result_start_date := Requests.start_date request;
     Counselor.result_end_date := Requests.end_date request;
     Counselor.result_patient_id := Requests.patient_id request;
     Counselor.mode := "create";
     Counselor.metadata := [("status", "created")]
   |}, S world).

(** An agent whose second call fails. *)
Definition failing_agent (patient_context : string) (request : Requests.MealPlanRequest)
  (previous_plan : option string) (world : nat)
  : result Counselor.MealPlanResult * nat :=
  if (world =? 1)%nat then (Raise (Other "APIConnectionError" "Connection error."), S world)
  else agent patient_context request previous_plan world.

(** 2024-05-01 and 9999-12-31 as ordinals. *)
Definition may_1st_2024 : Z := 739007.
Definition last_day : Z := 3652059.

(** Thirty days from 2024-05-01, and thirty days up to 9999-12-31. *)
Definition thirty_days : Requests.MealPlanRequest :=
  request may_1st_2024 (may_1st_2024 + 29).

Definition last_thirty_days : Requests.MealPlanRequest :=
  request (last_day - 29) last_day.

End Sample.

(** * The vocabulary of the properties *)

(** ** Risk evaluation *)

Section RiskVocabulary.
Import Database.

(** The thresholds of the two sexes the schema admits: waist and HDL. *)
Inductive sex_thresholds : option string -> Z -> Z -> Prop :=
| thresholds_male : sex_thresholds (Some "남") 90 40
| thresholds_female : sex_thresholds (Some "여") 85 50.

(** An integer SQLite can hold: 64 bits, signed. *)
Definition sqlite_integer (n : Z) : Prop := - 2 ^ 63 <= n < 2 ^ 63.

Definition patient_absent (self : PatientDatabase) (pid : Z) : Prop :=
  forall row, In row (patients self) -> patient_id row <> pid.

Definition no_exam (self : PatientDatabase) (pid : Z) : Prop :=
  forall row, In row (health_exams self) -> exam_patient_id row <> pid.

(** [needle in text]. *)
Definition contains (text needle : string) : Prop :=
  exists before after, text = before ++ needle ++ after.

End RiskVocabulary.

(** ** Request normalisation *)

Section NormalisationVocabulary.
Import Text Calendar Requests.

(** [ch] is one character: the encoding of a code point. *)
Definition character (ch : string) : Prop := ord ch <> None.

(** [s] is a sequence of characters, each of which satisfies [P]. *)
Inductive every (P : string -> Prop) : string -> Prop :=
| every_empty : every P ""
| every_char ch s : character ch -> P ch -> every P s -> every P (ch ++ s).

(** Every character of [s] is white space. *)
Definition blank (s : string) : Prop := every (fun ch => isspace ch = true) s.

(** No character of [s] is a digit. *)
Definition digitless (s : string) : Prop := every (fun ch => isdigit ch = false) s.

(** The number a list of decimal digits writes. *)
Definition value_of (digits : list Z) : Z := fold_left (fun a v => 10 * a + v) digits 0.

(** The decimal digits among the characters of [s] have the values
    [digits], in order, and [s] has no other digit. *)
Inductive digits_of : string -> list Z -> Prop :=
| digits_none : digits_of "" []
| digits_decimal ch s v digits :
    decimal ch = Some v -> digits_of s digits -> digits_of (ch ++ s) (v :: digits)
| digits_other ch s digits :
    character ch -> isdigit ch = false -> digits_of s digits -> digits_of (ch ++ s) digits.

(** The ASCII digit of [v]. *)
Definition digit (v : Z) : string := String (ascii_of_N (48 + Z.to_N v)) "".

(** The texts the parser takes for a year, a month and a day, with the
    numbers they write: a year is four decimal digits of any script; a month
    is 1 to 12 in ASCII digits, a single digit with or without a zero before
    it; a day is 1 to 31 likewise, but a single digit may also follow a
    space, and the second digit of 10 to 29 may be of any script. *)
Inductive year_text : string -> Z -> Prop :=
| year_digits c1 c2 c3 c4 v1 v2 v3 v4 :
    decimal c1 = Some v1 -> decimal c2 = Some v2 ->
    decimal c3 = Some v3 -> decimal c4 = Some v4 ->
    year_text (c1 ++ c2 ++ c3 ++ c4) (1000 * v1 + 100 * v2 + 10 * v3 + v4).

Inductive month_text : string -> Z -> Prop :=
| month_plain m : 1 <= m <= 9 -> month_text (digit m) m
| month_padded m : 1 <= m <= 9 -> month_text ("0" ++ digit m) m
| month_late m : 10 <= m <= 12 -> month_text ("1" ++ digit (m - 10)) m.

Inductive day_text : string -> Z -> Prop :=
| day_plain d : 1 <= d <= 9 -> day_text (digit d) d
| day_padded d : 1 <= d <= 9 -> day_text ("0" ++ digit d) d
| day_spaced d : 1 <= d <= 9 -> day_text (" " ++ digit d) d
| day_tens t c v : 1 <= t <= 2 -> decimal c = Some v -> day_text (digit t ++ c) (10 * t + v)
| day_thirties v : 0 <= v <= 1 -> day_text ("3" ++ digit v) (30 + v).

(** The Gregorian calendar. *)
Definition leap_year (y : Z) : bool :=
  ((y mod 4 =? 0) && negb (y mod 100 =? 0)) || (y mod 400 =? 0).

Definition month_length (y m : Z) : Z :=
  if m =? 2 then (if leap_year y then 29 else 28)
  else if (m =? 4) || (m =? 6) || (m =? 9) || (m =? 11) then 30
  else 31.

Definition calendar_date (y m d : Z) : Prop :=
  1 <= y <= 9999 /\ 1 <= m <= 12 /\ 1 <= d <= month_length y m.

(** [a] is a day before [b], both given by year, month and day. *)
Definition earlier (a b : Z * Z * Z) : Prop :=
  let '(y, m, d) := a in
  let '(y', m', d') := b in
  y < y' \/ (y = y' /\ (m < m' \/ (m = m' /\ d < d'))).

(** [t] writes the calendar date [y]-[m]-[d] the way the parser takes it,
    white space around it allowed. *)
Definition writes (t : string) (y m d : Z) : Prop :=
  exists l Y M D r,
    t = l ++ Y ++ "-" ++ M ++ "-" ++ D ++ r /\ blank l /\ blank r /\
    year_text Y y /\ month_text M m /\ day_text D d /\ calendar_date y m d.

Definition date_text (t : string) : Prop := exists y m d, writes t y m d.

(** A date in the strict form YYYY-MM-DD: four ASCII digits, two and two,
    with hyphens between them. *)
Definition ascii_digit (c : ascii) : Prop := (48 <= N_of_ascii c <= 57)%N.

Definition strict_date_text (t : string) : Prop :=
  exists y1 y2 y3 y4 m1 m2 d1 d2,
    t = string_of_list_ascii [y1; y2; y3; y4; "-"; m1; m2; "-"; d1; d2]%char /\
    Forall ascii_digit [y1; y2; y3; y4; m1; m2; d1; d2].

Definition date_format_error : exn :=
  ValueError "날짜는 YYYY-MM-DD 형식으로 입력해주세요.".

Definition date_order_error : exn :=
  ValueError "기간의 시작일은 종료일보다 앞서야 합니다.".

Definition no_digits_error : exn :=
  ValueError "칼로리 값에서 숫자를 추출할 수 없습니다.".

(** The date tokens that are not blank, and the trimmed, non-empty pieces of
    the meal tokens, both in input order. *)
Definition date_candidates (date_tokens : list string) : list string :=
  filter (fun token => truthy (strip token)) date_tokens.

Definition meal_candidates (meal_tokens : list string) : list string :=
  filter truthy (map strip (flat_map pieces meal_tokens)).

Definition unsupported (candidate : string) : bool :=
  negb (existsb (String.eqb candidate) MEAL_LABELS).

(** The failure condition as the claim words it: blank notes, no date token
    that parses, or a meal token outside the labels. *)
Definition claimed_revision_failure (date_tokens meal_tokens : list string) (notes : string)
  : Prop :=
  blank notes \/
  (forall token, In token date_tokens -> ~ date_text token) \/
  (exists c, In c (meal_candidates meal_tokens) /\ ~ In c MEAL_LABELS).

End NormalisationVocabulary.

(** ** Text and tables *)

Section TextVocabulary.
Import Text.

(** A text that does not start in the middle of a character. *)
Definition lead (s : string) : Prop :=
  match s with
  | EmptyString => True
  | String b _ => is_continuation b = false
  end.

(** A list of white space. *)
Definition spaces (l : list string) : Prop := Forall (fun ch => isspace ch = true) l.

(** What [chars] yields: groups of a byte and continuation bytes, each but
    the first led by a byte that is not a continuation. *)
Definition group (g : string) : Prop :=
  match g with
  | EmptyString => False
  | String _ tail => forallb is_continuation (list_ascii_of_string tail) = true
  end.

Definition grouped (l : list string) : Prop :=
  match l with
  | [] => True
  | g :: l' => group g /\ Forall (fun h => group h /\ lead h) l'
  end.

(** A character class holds of a character. *)
Definition holds (p : string -> bool) (ch : string) : Prop := p ch = true.

(** The code points of a list of ranges. *)
Fixpoint Nrange (lo : N) (n : nat) : list N :=
  match n with
  | O => []
  | S n' => lo :: Nrange (N.succ lo) n'
  end.

Definition expand (ranges : list (N * N)) : list N :=
  flat_map (fun r => Nrange (fst r) (N.to_nat (snd r + 1 - fst r))) ranges.

(** The entry of digit [k] of a script is no white space, and below 127 it
    is the ASCII digit. *)
Definition digit_checked (zero k : N) : bool :=
  let c := (zero + k)%N in
  negb (within WHITESPACE c) && (if (c <? 127)%N then (c =? 48 + k)%N else true).

End TextVocabulary.

(** ** Chunked generation *)

Section ChunkingVocabulary.
Import Text Calendar Requests Counselor.

(** [request] with its dates replaced by those of [range]. *)
Definition with_dates (request : MealPlanRequest) (range : date * date) : MealPlanRequest := {|
  counselor_profile := counselor_profile request;
  patient_id := patient_id request;
  start_date := fst range;
  end_date := snd range;
  target_calories := target_calories request;
  preferred_foods := preferred_foods request;
  avoided_foods := avoided_foods request;
  snack_policy := snack_policy request;
  special_notes := special_notes request
|}.

(** The partition of the period into spans of [m] days, in closed form: the
    number of chunks, and the [k]-th sub-range counting from 0. *)
Definition chunk_count (request : MealPlanRequest) (m : Z) : nat :=
  Z.to_nat ((duration_days request + m - 1) / m).

Definition chunk_range (request : MealPlanRequest) (m : Z) (k : nat) : date * date :=
  (start_date request + Z.of_nat k * m,
   Z.min (start_date request + (Z.of_nat k + 1) * m - 1) (end_date request)).

Definition chunk_requests (request : MealPlanRequest) (m : Z) : list MealPlanRequest :=
  map (fun k => with_dates request (chunk_range request m k))
      (seq 0 (chunk_count request m)).

(** A request that can be built: its dates are calendar dates and the start
    is not after the end. *)
Definition valid_request (request : MealPlanRequest) : Prop :=
  1 <= start_date request /\ start_date request <= end_date request /\
  end_date request <= _MAXORDINAL.

(** What the claim asks of the chunk requests: they start at the request's
    start and end at its end, each begins the day after the one before it
    ends, none is empty or longer than [m] days, all but the last span
    exactly [m] days, and each is the request with other dates. *)
Record chunking (request : MealPlanRequest) (m : Z) (chunks : list MealPlanRequest)
  : Prop := {
  chunking_first :
    exists c, nth_error chunks 0 = Some c /\ start_date c = start_date request;
  chunking_last :
    exists c, nth_error chunks (List.length chunks - 1) = Some c /\
              end_date c = end_date request;
  chunking_consecutive :
    forall i a b, nth_error chunks i = Some a -> nth_error chunks (S i) = Some b ->
                  start_date b = end_date a + 1;
  chunking_span :
    forall c, In c chunks -> 1 <= duration_days c <= m;
  chunking_full :
    forall i c, nth_error chunks i = Some c -> (S i < List.length chunks)%nat ->
                duration_days c = m;
  chunking_same :
    forall c, In c chunks -> c = with_dates request (start_date c, end_date c)
}.

Definition call_of (patient_context : string) (request : MealPlanRequest)
  (previous_plan : option string) : Call := {|
  call_context := patient_context;
  call_request := request;
  call_previous_plan := previous_plan
|}.

(** A run of the chunk loop over the chunk requests [plan], as a relation
    between the calls it makes and its outcome: before each call the span is
    added to the chunk's start, the call gets the previous markdown, and
    after a call that answered a day is added to the chunk's end; the first
    exception ends the run. *)
Fixpoint trace (m : Z) (patient_context : string) (previous : option string)
  (plan : list MealPlanRequest) (segments : list (MealPlanRequest * MealPlanResult))
  (calls : list (Call * result MealPlanResult))
  (out : result (list (MealPlanRequest * MealPlanResult))) : Prop :=
  match plan with
  | [] => calls = [] /\ out = Ok segments
  | r :: plan' =>
    match add_days (start_date r) (m - 1) with
    | Raise e => calls = [] /\ out = Raise e
    | Ok _ =>
      match calls with
      | [] => False
      | (c, o) :: calls' =>
        c = call_of patient_context r previous /\
        match o with
        | Raise e => calls' = [] /\ out = Raise e
        | Ok res =>
          match add_days (end_date r) 1 with
          | Raise e => calls' = [] /\ out = Raise e
          | Ok _ =>
            trace m patient_context (Some (markdown res)) plan'
              (segments ++ [(r, res)]) calls' out
          end
        end
      end
    end
  end.

(** The first call gets [previous]; each later call gets the markdown the
    call before it returned; a call that raised is the last one. *)
Fixpoint threaded (previous : option string) (calls : list (Call * result MealPlanResult))
  : Prop :=
  match calls with
  | [] => True
  | (c, o) :: calls' =>
    call_previous_plan c = previous /\
    match o with
    | Ok res => threaded (Some (markdown res)) calls'
    | Raise _ => calls' = []
    end
  end.

Definition answered (entry : Call * result MealPlanResult) : Prop :=
  returns (snd entry).

(** The merged result of a multi-chunk run. *)
Definition merged (request : MealPlanRequest) (m : Z)
  (segments : list (MealPlanRequest * MealPlanResult)) : MealPlanResult := {|
  markdown := join (newline ++ newline) (map section_of segments);
  result_start_date := start_date request;
  result_end_date := end_date request;
  result_patient_id := patient_id request;
  mode := "create";
  metadata :=
    [("status", "created");
     ("chunks", str (Z.of_nat (List.length segments)));
     ("chunk_span_days", str m)]
|}.

(** Two line feeds: the end of a line, and an empty line. *)
Definition blank_line : string := String "010" (String "010" "").

(** The header of a chunk's section names its first and its last day. *)
Definition header (chunk : MealPlanRequest) : string :=
  "### " ++ isoformat (start_date chunk) ++ " ~ " ++ isoformat (end_date chunk).

(** The merged markdown as the claim words it: each answer under the header
    of its chunk and an empty line, and an empty line between the
    sections. *)
Fixpoint merged_markdown (sections : list (MealPlanRequest * MealPlanResult)) : string :=
  match sections with
  | [] => ""
  | (chunk, answer) :: rest =>
    header chunk ++ blank_line ++ markdown answer
    ++ match rest with
       | [] => ""
       | _ :: _ => blank_line ++ merged_markdown rest
       end
  end.

(** The claim's multi-chunk part as worded: the run makes its calls and, if
    the agent answered them all, the requests it was called with form a
    chunking of the whole period and the previous plans are threaded through
    the calls. *)
Definition serves_every_chunk (World : Type)
  (generate_plan :
     string -> MealPlanRequest -> option string -> World -> result MealPlanResult * World)
  (MAX_CHUNK_DAYS : Z) (patient_context : string) (request : MealPlanRequest)
  (world : World) : Prop :=
  exists out world' calls,
    _generate_sequence World generate_plan MAX_CHUNK_DAYS patient_context request (world, [])
    = Some (out, (world', calls)) /\
    (Forall answered calls ->
     chunking request (Z.max 1 MAX_CHUNK_DAYS)
       (map (fun entry => call_request (fst entry)) calls) /\
     threaded None calls).

End ChunkingVocabulary.

(** * Properties *)

(** ** Risk evaluation *)

Section RiskEvaluation.
Import Database.

Lemma Qltb_lt (x y : Q) : Qltb x y = true <-> (x < y)%Q.
Proof. unfold Qltb, Qlt. apply Z.ltb_lt. Qed.

Lemma _check_abdominal_obesity_returns (x : cell) (sex : option string) :
  exists b, _check_abdominal_obesity x sex = Ok b /\ (x = Null -> b = false).
Proof.
  destruct x as [|q]; cbn.
  - exists false; auto.
  - eexists; split; [reflexivity | discriminate].
Qed.

Lemma _check_blood_pressure_returns (s d : cell) :
  exists b, _check_blood_pressure s d = Ok b /\ (s = Null \/ d = Null -> b = false).
Proof.
  destruct s as [|qs], d as [|qd]; cbn; try (exists false; now auto).
  destruct (Qle_bool _ qs); eexists; (split; [reflexivity | intros [H|H]; discriminate]).
Qed.

Lemma _check_fasting_glucose_returns (x : cell) :
  exists b, _check_fasting_glucose x = Ok b /\ (x = Null -> b = false).
Proof.
  destruct x as [|q]; cbn.
  - exists false; auto.
  - eexists; split; [reflexivity | discriminate].
Qed.

Lemma _check_triglycerides_returns (x : cell) :
  exists b, _check_triglycerides x = Ok b /\ (x = Null -> b = false).
Proof.
  destruct x as [|q]; cbn.
  - exists false; auto.
  - eexists; split; [reflexivity | discriminate].
Qed.

Lemma _check_hdl_returns (x : cell) (sex : option string) :
  exists b, _check_hdl x sex = Ok b /\ (x = Null -> b = false).
Proof.
  destruct x as [|q]; cbn.
  - exists false; auto.
  - eexists; split; [reflexivity | discriminate].
Qed.

(** What [check_metabolic_syndrome] builds once both rows are found. *)
Lemma check_metabolic_syndrome_found self pid patient exam :
  get_patient self pid = Ok (Some patient) ->
  get_latest_exam self pid = Ok (Some exam) ->
  exists d,
    check_metabolic_syndrome self pid = Ok (Some d) /\
    _check_abdominal_obesity (waist_cm exam) (sex patient)
      = Ok (abdominal_obesity (risk_factors d)) /\
    _check_blood_pressure (systolic_mmHg exam) (diastolic_mmHg exam)
      = Ok (high_blood_pressure (risk_factors d)) /\
    _check_fasting_glucose (fbg_mg_dl exam)
      = Ok (high_fasting_glucose (risk_factors d)) /\
    _check_triglycerides (tg_mg_dl exam)
      = Ok (high_triglycerides (risk_factors d)) /\
    _check_hdl (hdl_mg_dl exam) (sex patient) = Ok (low_hdl (risk_factors d)) /\
    criteria_met d = sum (values (risk_factors d)) /\
    has_metabolic_syndrome d = (3 <=? criteria_met d).
Proof.
  intros Hp He. unfold check_metabolic_syndrome. rewrite Hp. cbn [bind].
  rewrite He. cbn [bind].
  destruct (_check_abdominal_obesity_returns (waist_cm exam) (sex patient)) as [f1 [E1 _]].
  destruct (_check_blood_pressure_returns (systolic_mmHg exam) (diastolic_mmHg exam))
    as [f2 [E2 _]].
  destruct (_check_fasting_glucose_returns (fbg_mg_dl exam)) as [f3 [E3 _]].
  destruct (_check_triglycerides_returns (tg_mg_dl exam)) as [f4 [E4 _]].
  destruct (_check_hdl_returns (hdl_mg_dl exam) (sex patient)) as [f5 [E5 _]].
  rewrite E1, E2, E3, E4, E5. cbn [bind].
  eexists. split; [reflexivity|]. cbn. repeat split; reflexivity.
Qed.

Lemma sum_values (f : RiskFactors) :
  sum (values f)
  = Z.b2z (abdominal_obesity f) + Z.b2z (high_blood_pressure f)
    + Z.b2z (high_fasting_glucose f) + Z.b2z (high_triglycerides f) + Z.b2z (low_hdl f).
Proof. reflexivity. Qed.

Lemma bind_parameter_Ok (n : Z) : sqlite_integer n -> bind_parameter n = Ok n.
Proof.
  unfold sqlite_integer, bind_parameter. intros [H1 H2].
  apply Z.leb_le in H1. apply Z.ltb_lt in H2. now rewrite H1, H2.
Qed.

Lemma bind_parameter_Raise (n : Z) :
  ~ sqlite_integer n ->
  bind_parameter n
  = Raise (OverflowError "Python int too large to convert to SQLite INTEGER").
Proof.
  unfold sqlite_integer, bind_parameter. intros H.
  destruct (Z.leb_spec (- 2 ^ 63) n); [|reflexivity].
  destruct (Z.ltb_spec n (2 ^ 63)); [|reflexivity]. elim H. now split.
Qed.

Lemma bind_parameter_cases (n x : Z) : bind_parameter n = Ok x -> sqlite_integer n /\ x = n.
Proof.
  unfold sqlite_integer, bind_parameter.
  destruct (Z.leb_spec (- 2 ^ 63) n); [|discriminate].
  destruct (Z.ltb_spec n (2 ^ 63)); [|discriminate].
  intros [= <-]. now split.
Qed.

Lemma get_patient_None self pid :
  sqlite_integer pid ->
  (get_patient self pid = Ok None <-> patient_absent self pid).
Proof.
  intros Hr. unfold get_patient, patient_absent.
  rewrite (bind_parameter_Ok pid Hr). cbn [bind]. split.
  - intros [= H] row Hin Heq.
    apply (find_none _ _ H) in Hin. apply Z.eqb_neq in Hin. contradiction.
  - intros H. destruct (find _ _) as [row|] eqn:E; [|reflexivity].
    apply find_some in E. destruct E as [Hin Heq].
    apply Z.eqb_eq in Heq. elim (H row Hin Heq).
Qed.

Lemma get_patient_Some self pid patient :
  get_patient self pid = Ok (Some patient) ->
  sqlite_integer pid /\ In patient (patients self) /\ patient_id patient = pid.
Proof.
  unfold get_patient. destruct (bind_parameter pid) as [x|] eqn:E; [|discriminate].
  apply bind_parameter_cases in E. destruct E as [Hr ->]. cbn [bind].
  intros [= H]. apply find_some in H. destruct H as [Hin Heq].
  apply Z.eqb_eq in Heq. auto.
Qed.

Lemma get_latest_exam_None self pid :
  sqlite_integer pid ->
  (get_latest_exam self pid = Ok None <-> no_exam self pid).
Proof.
  intros Hr. unfold get_latest_exam, no_exam.
  rewrite (bind_parameter_Ok pid Hr). cbn [bind]. split.
  - intros H row Hin Heq.
    assert (Hf : In row (filter (fun r => exam_patient_id r =? pid) (health_exams self))).
    { apply filter_In. split; [assumption | now apply Z.eqb_eq]. }
    destruct (filter _ _); [contradiction | discriminate].
  - intros H. destruct (filter _ _) as [|row rows] eqn:E; [reflexivity|].
    assert (Hf : In row (filter (fun r => exam_patient_id r =? pid) (health_exams self)))
      by (rewrite E; now left).
    apply filter_In in Hf. destruct Hf as [Hin Heq].
    apply Z.eqb_eq in Heq. elim (H row Hin Heq).
Qed.

Lemma get_latest_exam_Some self pid exam :
  get_latest_exam self pid = Ok (Some exam) ->
  exists row, In row (health_exams self) /\ exam_patient_id row = pid.
Proof.
  unfold get_latest_exam. destruct (bind_parameter pid) as [x|] eqn:E; [|discriminate].
  apply bind_parameter_cases in E. destruct E as [Hr ->]. cbn [bind].
  destruct (filter _ _) as [|row rows] eqn:Ef; [discriminate|]. intros _.
  assert (Hf : In row (filter (fun r => exam_patient_id r =? pid) (health_exams self)))
    by (rewrite Ef; now left).
  apply filter_In in Hf. destruct Hf as [Hin Heq].
  exists row. split; [exact Hin | now apply Z.eqb_eq].
Qed.

Lemma get_patient_cases self pid :
  sqlite_integer pid -> exists patient, get_patient self pid = Ok patient.
Proof.
  intros Hr. unfold get_patient. rewrite (bind_parameter_Ok pid Hr). cbn [bind].
  eexists; reflexivity.
Qed.

Lemma get_latest_exam_cases self pid :
  sqlite_integer pid -> exists exam, get_latest_exam self pid = Ok exam.
Proof.
  intros Hr. unfold get_latest_exam. rewrite (bind_parameter_Ok pid Hr). cbn [bind].
  eexists; reflexivity.
Qed.

(** C1. For a patient with a latest exam, [check_metabolic_syndrome] returns a
    diagnosis whose five factors (abdominal obesity, high blood pressure,
    high fasting glucose, high triglycerides, low HDL) are the results of the
    five checks on that exam, whose [criteria_met] is the number of those
    five that are true, so between 0 and 5, and whose
    [has_metabolic_syndrome] holds exactly when [criteria_met >= 3]. *)
Theorem check_metabolic_syndrome_three_of_five self pid patient exam :
  get_patient self pid = Ok (Some patient) ->
  get_latest_exam self pid = Ok (Some exam) ->
  exists d,
    check_metabolic_syndrome self pid = Ok (Some d) /\
    _check_abdominal_obesity (waist_cm exam) (sex patient)
      = Ok (abdominal_obesity (risk_factors d)) /\
    _check_blood_pressure (systolic_mmHg exam) (diastolic_mmHg exam)
      = Ok (high_blood_pressure (risk_factors d)) /\
    _check_fasting_glucose (fbg_mg_dl exam)
      = Ok (high_fasting_glucose (risk_factors d)) /\
    _check_triglycerides (tg_mg_dl exam)
      = Ok (high_triglycerides (risk_factors d)) /\
    _check_hdl (hdl_mg_dl exam) (sex patient) = Ok (low_hdl (risk_factors d)) /\
    criteria_met d
    = (if abdominal_obesity (risk_factors d) then 1 else 0)
      + (if high_blood_pressure (risk_factors d) then 1 else 0)
      + (if high_fasting_glucose (risk_factors d) then 1 else 0)
      + (if high_triglycerides (risk_factors d) then 1 else 0)
      + (if low_hdl (risk_factors d) then 1 else 0) /\
    0 <= criteria_met d <= 5 /\
    (has_metabolic_syndrome d = true <-> 3 <= criteria_met d).
Proof.
  intros Hp He.
  destruct (check_metabolic_syndrome_found self pid patient exam Hp He)
    as (d & Hd & H1 & H2 & H3 & H4 & H5 & Hsum & Hms).
  exists d. split; [exact Hd|].
  split; [exact H1|]. split; [exact H2|]. split; [exact H3|].
  split; [exact H4|]. split; [exact H5|].
  rewrite Hms, Hsum, sum_values.
  destruct (abdominal_obesity (risk_factors d)), (high_blood_pressure (risk_factors d)),
    (high_fasting_glucose (risk_factors d)), (high_triglycerides (risk_factors d)),
    (low_hdl (risk_factors d)); cbn [Z.b2z];
    (split; [reflexivity|]); (split; [lia|]); apply Z.leb_le.
Qed.

Lemma check_metabolic_syndrome_three_of_five_witness :
  exists d,
    check_metabolic_syndrome Sample.db 1 = Ok (Some d) /\
    criteria_met d
    = (if abdominal_obesity (risk_factors d) then 1 else 0)
      + (if high_blood_pressure (risk_factors d) then 1 else 0)
      + (if high_fasting_glucose (risk_factors d) then 1 else 0)
      + (if high_triglycerides (risk_factors d) then 1 else 0)
      + (if low_hdl (risk_factors d) then 1 else 0) /\
    0 <= criteria_met d <= 5 /\
    (has_metabolic_syndrome d = true <-> 3 <= criteria_met d).
Proof.
  destruct (check_metabolic_syndrome_three_of_five
              Sample.db 1 Sample.patient1 Sample.exam1 eq_refl eq_refl)
    as (d & Hd & _ & _ & _ & _ & _ & Hcount).
  exists d. split; [exact Hd | exact Hcount].
Defined.

(** C2. With all six measurements present, the diagnosis marks abdominal
    obesity, high blood pressure, high fasting glucose and high triglycerides
    exactly when the value reaches its threshold ([>=]) and low HDL exactly
    when the value is strictly below the sex threshold; a value on the
    threshold makes the four true and low HDL false. *)
Theorem factor_thresholds self pid patient exam (w s d g t h : Q) (wt ht : Z) :
  get_patient self pid = Ok (Some patient) ->
  get_latest_exam self pid = Ok (Some exam) ->
  sex_thresholds (sex patient) wt ht ->
  waist_cm exam = Num w ->
  systolic_mmHg exam = Num s ->
  diastolic_mmHg exam = Num d ->
  fbg_mg_dl exam = Num g ->
  tg_mg_dl exam = Num t ->
  hdl_mg_dl exam = Num h ->
  exists dx,
    check_metabolic_syndrome self pid = Ok (Some dx) /\
    (abdominal_obesity (risk_factors dx) = true <-> (inject_Z wt <= w)%Q) /\
    (high_blood_pressure (risk_factors dx) = true <-> (130 <= s)%Q \/ (85 <= d)%Q) /\
    (high_fasting_glucose (risk_factors dx) = true <-> (100 <= g)%Q) /\
    (high_triglycerides (risk_factors dx) = true <-> (150 <= t)%Q) /\
    (low_hdl (risk_factors dx) = true <-> (h < inject_Z ht)%Q) /\
    ((w == inject_Z wt)%Q -> abdominal_obesity (risk_factors dx) = true) /\
    ((s == 130)%Q \/ (d == 85)%Q -> high_blood_pressure (risk_factors dx) = true) /\
    ((g == 100)%Q -> high_fasting_glucose (risk_factors dx) = true) /\
    ((t == 150)%Q -> high_triglycerides (risk_factors dx) = true) /\
    ((h == inject_Z ht)%Q -> low_hdl (risk_factors dx) = false).
Proof.
  intros Hp He Hsex Hw Hs Hd Hg Ht Hh.
  destruct (check_metabolic_syndrome_found self pid patient exam Hp He)
    as (dx & Hdx & H1 & H2 & H3 & H4 & H5 & _).
  rewrite Hw in H1. rewrite Hs, Hd in H2. rewrite Hg in H3. rewrite Ht in H4.
  rewrite Hh in H5.
  assert (A1 : abdominal_obesity (risk_factors dx) = true <-> (inject_Z wt <= w)%Q).
  { destruct Hsex; cbn in H1; injection H1 as <-; apply Qle_bool_iff. }
  assert (A2 : high_blood_pressure (risk_factors dx) = true
               <-> (130 <= s)%Q \/ (85 <= d)%Q).
  { cbn in H2. destruct (Qle_bool (inject_Z 130) s) eqn:E130; injection H2 as <-.
    - split; [intros _; left; now apply Qle_bool_iff | reflexivity].
    - rewrite Qle_bool_iff. split; [now right | intros [H|H]; [|exact H]].
      apply Qle_bool_iff in H. unfold inject_Z in E130. congruence. }
  assert (A3 : high_fasting_glucose (risk_factors dx) = true <-> (100 <= g)%Q).
  { cbn in H3. injection H3 as <-. apply Qle_bool_iff. }
  assert (A4 : high_triglycerides (risk_factors dx) = true <-> (150 <= t)%Q).
  { cbn in H4. injection H4 as <-. apply Qle_bool_iff. }
  assert (A5 : low_hdl (risk_factors dx) = true <-> (h < inject_Z ht)%Q).
  { destruct Hsex; cbn in H5; injection H5 as <-; apply Qltb_lt. }
  exists dx. split; [exact Hdx|].
  split; [exact A1|]. split; [exact A2|]. split; [exact A3|].
  split; [exact A4|]. split; [exact A5|].
  split; [|split; [|split; [|split]]].
  - intros E. apply A1. rewrite E. apply Qle_refl.
  - intros [E|E]; apply A2; [left | right]; rewrite E; apply Qle_refl.
  - intros E. apply A3. rewrite E. apply Qle_refl.
  - intros E. apply A4. rewrite E. apply Qle_refl.
  - intros E. destruct (low_hdl (risk_factors dx)) eqn:Elow; [|reflexivity].
    exfalso. assert (Hlt : (h < inject_Z ht)%Q) by now apply A5.
    rewrite E in Hlt. exact (Qlt_irrefl _ Hlt).
Qed.

Lemma factor_thresholds_witness :
  exists dx,
    check_metabolic_syndrome Sample.db 3 = Ok (Some dx) /\
    (abdominal_obesity (risk_factors dx) = true <-> (inject_Z 85 <= 85 # 1)%Q) /\
    (high_blood_pressure (risk_factors dx) = true
     <-> (130 <= 130 # 1)%Q \/ (85 <= 85 # 1)%Q) /\
    (high_fasting_glucose (risk_factors dx) = true <-> (100 <= 100 # 1)%Q) /\
    (high_triglycerides (risk_factors dx) = true <-> (150 <= 150 # 1)%Q) /\
    (low_hdl (risk_factors dx) = true <-> (50 # 1 < inject_Z 50)%Q) /\
    ((85 # 1 == inject_Z 85)%Q -> abdominal_obesity (risk_factors dx) = true) /\
    ((130 # 1 == 130)%Q \/ (85 # 1 == 85)%Q
     -> high_blood_pressure (risk_factors dx) = true) /\
    ((100 # 1 == 100)%Q -> high_fasting_glucose (risk_factors dx) = true) /\
    ((150 # 1 == 150)%Q -> high_triglycerides (risk_factors dx) = true) /\
    ((50 # 1 == inject_Z 50)%Q -> low_hdl (risk_factors dx) = false).
Proof.
  exact (factor_thresholds Sample.db 3 Sample.patient3 Sample.exam3
           (85 # 1) (130 # 1) (85 # 1) (100 # 1) (150 # 1) (50 # 1) 85 50
           eq_refl eq_refl thresholds_female
           eq_refl eq_refl eq_refl eq_refl eq_refl eq_refl).
Defined.

(** C3. On any exam record, whichever numeric fields are NULL, each of the
    five checks returns a boolean (no exception), and a check whose
    measurement is missing returns [False]; a missing systolic or diastolic
    value alone makes the blood-pressure check return [False]. *)
Theorem missing_measurement_is_false (exam : Exam) (sex : option string) :
  (exists b, _check_abdominal_obesity (waist_cm exam) sex = Ok b /\
             (waist_cm exam = Null -> b = false)) /\
  (exists b, _check_blood_pressure (systolic_mmHg exam) (diastolic_mmHg exam) = Ok b /\
             (systolic_mmHg exam = Null \/ diastolic_mmHg exam = Null -> b = false)) /\
  (exists b, _check_fasting_glucose (fbg_mg_dl exam) = Ok b /\
             (fbg_mg_dl exam = Null -> b = false)) /\
  (exists b, _check_triglycerides (tg_mg_dl exam) = Ok b /\
             (tg_mg_dl exam = Null -> b = false)) /\
  (exists b, _check_hdl (hdl_mg_dl exam) sex = Ok b /\
             (hdl_mg_dl exam = Null -> b = false)).
Proof.
  split; [apply _check_abdominal_obesity_returns|].
  split; [apply _check_blood_pressure_returns|].
  split; [apply _check_fasting_glucose_returns|].
  split; [apply _check_triglycerides_returns|].
  apply _check_hdl_returns.
Qed.

(** C8, as worded, fails: an id that SQLite's INTEGER cannot hold is absent
    from the data store, and looking it up raises an [OverflowError]. *)
Lemma check_metabolic_syndrome_overflow :
  patient_absent Sample.db (2 ^ 63) /\
  check_metabolic_syndrome Sample.db (2 ^ 63)
  = Raise (OverflowError "Python int too large to convert to SQLite INTEGER").
Proof.
  split; [|reflexivity].
  intros row Hin. cbn in Hin.
  destruct Hin as [<-|[<-|[<-|[<-|[]]]]]; discriminate.
Qed.

(** C8, amended.  For a patient id within SQLite's signed 64-bit integers
    [check_metabolic_syndrome] never raises: it returns [None] exactly when
    the id is not in the [patients] table or no exam row carries it, and a
    diagnosis exactly when both are there.  For any other id it raises an
    [OverflowError]. *)
Theorem check_metabolic_syndrome_not_found self pid :
  (- 2 ^ 63 <= pid < 2 ^ 63 ->
   returns (check_metabolic_syndrome self pid) /\
   (check_metabolic_syndrome self pid = Ok None
    <-> patient_absent self pid \/ no_exam self pid) /\
   ((exists d, check_metabolic_syndrome self pid = Ok (Some d))
    <-> (exists row, In row (patients self) /\ patient_id row = pid) /\
        (exists row, In row (health_exams self) /\ exam_patient_id row = pid))) /\
  (~ - 2 ^ 63 <= pid < 2 ^ 63 ->
   check_metabolic_syndrome self pid
   = Raise (OverflowError "Python int too large to convert to SQLite INTEGER")).
Proof.
  split.
  2:{ intros Hr. unfold check_metabolic_syndrome, get_patient.
      now rewrite (bind_parameter_Raise pid Hr). }
  intros Hr. fold (sqlite_integer pid) in Hr.
  destruct (get_patient_cases self pid Hr) as [[patient|] Hp].
  - destruct (get_latest_exam_cases self pid Hr) as [[exam|] He].
    + destruct (check_metabolic_syndrome_found self pid patient exam Hp He)
        as (d & Hd & _).
      assert (Hrow : exists row, In row (patients self) /\ patient_id row = pid).
      { apply get_patient_Some in Hp. destruct Hp as (_ & Hin & Heq). now exists patient. }
      assert (Hex : exists row, In row (health_exams self) /\ exam_patient_id row = pid)
        by (eapply get_latest_exam_Some; exact He).
      split; [exists (Some d); exact Hd|]. split.
      * rewrite Hd. split; [discriminate|].
        intros [Habs|Hno].
        -- apply (get_patient_None self pid Hr) in Habs. congruence.
        -- apply (get_latest_exam_None self pid Hr) in Hno. congruence.
      * split; [intros _; now split | intros _; now exists d].
    + assert (Hnone : check_metabolic_syndrome self pid = Ok None).
      { unfold check_metabolic_syndrome. rewrite Hp. cbn [bind]. now rewrite He. }
      split; [exists None; exact Hnone|]. split.
      * split; [intros _; right; now apply (get_latest_exam_None self pid Hr)
               | intros _; exact Hnone].
      * rewrite Hnone. split.
        -- intros [d Hd]. discriminate.
        -- intros [_ [row [Hin Heq]]]. apply (get_latest_exam_None self pid Hr) in He.
           elim (He row Hin Heq).
  - assert (Hnone : check_metabolic_syndrome self pid = Ok None).
    { unfold check_metabolic_syndrome. now rewrite Hp. }
    split; [exists None; exact Hnone|]. split.
    + split; [intros _; left; now apply (get_patient_None self pid Hr)
             | intros _; exact Hnone].
    + rewrite Hnone. split.
      * intros [d Hd]. discriminate.
      * intros [[row [Hin Heq]] _]. apply (get_patient_None self pid Hr) in Hp.
        elim (Hp row Hin Heq).
Qed.

Lemma check_metabolic_syndrome_not_found_witness :
  check_metabolic_syndrome Sample.db 4 = Ok None /\
  check_metabolic_syndrome Sample.db 5 = Ok None /\
  (exists d, check_metabolic_syndrome Sample.db 1 = Ok (Some d)) /\
  check_metabolic_syndrome Sample.db (- 2 ^ 63 - 1)
  = Raise (OverflowError "Python int too large to convert to SQLite INTEGER").
Proof.
  split; [|split; [|split]].
  - destruct (check_metabolic_syndrome_not_found Sample.db 4) as [H _].
    destruct (H ltac:(split; [cbv; discriminate | reflexivity])) as (_ & Hn & _).
    apply Hn. right. intros row Hin. cbn in Hin.
    destruct Hin as [<-|[<-|[<-|[<-|[]]]]]; discriminate.
  - destruct (check_metabolic_syndrome_not_found Sample.db 5) as [H _].
    destruct (H ltac:(split; [cbv; discriminate | reflexivity])) as (_ & Hn & _).
    apply Hn. left. intros row Hin. cbn in Hin.
    destruct Hin as [<-|[<-|[<-|[<-|[]]]]]; discriminate.
  - destruct (check_metabolic_syndrome_not_found Sample.db 1) as [H _].
    destruct (H ltac:(split; [cbv; discriminate | reflexivity])) as (_ & _ & Hd).
    apply Hd. split.
    + exists Sample.patient1. split; [now left | reflexivity].
    + exists Sample.exam1. split; [right; now left | reflexivity].
  - destruct (check_metabolic_syndrome_not_found Sample.db (- 2 ^ 63 - 1)) as [_ H].
    apply H. intros [Hlo _]. apply Hlo. reflexivity.
Defined.

Lemma missing_measurement_is_false_witness :
  (exists b, _check_abdominal_obesity Null (Some "여") = Ok b /\
             (Null = Null -> b = false)) /\
  (exists b, _check_blood_pressure (Num (150 # 1)) Null = Ok b /\
             (Num (150 # 1) = Null \/ Null = Null -> b = false)) /\
  (exists b, _check_fasting_glucose (Num (100 # 1)) = Ok b /\
             (Num (100 # 1) = Null -> b = false)) /\
  (exists b, _check_triglycerides (Num (150 # 1)) = Ok b /\
             (Num (150 # 1) = Null -> b = false)) /\
  (exists b, _check_hdl Null (Some "여") = Ok b /\ (Null = Null -> b = false)).
Proof.
  exact (missing_measurement_is_false Sample.exam2 (Some "여")).
Defined.

(** C5. The risk tier depends on the factor count alone: 0 and 1 give "low"
    with their two descriptions, 2 gives "medium" (pre-syndrome), 3 gives
    "high" (diagnosed), and 4 or more gives "high" with a description that
    starts with the count written in decimal. *)
Theorem evaluate_risk_level_of_count self pid d :
  check_metabolic_syndrome self pid = Ok (Some d) ->
  exists r,
    evaluate_risk_level self pid = Ok (Some r) /\
    risk_score r = criteria_met d /\
    (criteria_met d = 0 ->
     risk_level r = "low" /\
     risk_description r
     = "현재 대사증후군 위험 요인이 없습니다. 건강한 생활습관을 유지하세요.") /\
    (criteria_met d = 1 ->
     risk_level r = "low" /\
     risk_description r = "1개의 위험 요인이 있습니다. 예방적 관리가 필요합니다.") /\
    (criteria_met d = 2 ->
     risk_level r = "medium" /\
     risk_description r
     = "2개의 위험 요인이 있어 대사증후군 전단계입니다. 적극적인 생활습관 개선이 필요합니다.") /\
    (criteria_met d = 3 ->
     risk_level r = "high" /\
     risk_description r
     = "대사증후군으로 진단됩니다. 의료진 상담 및 치료적 개입이 필요합니다.") /\
    (4 <= criteria_met d ->
     risk_level r = "high" /\
     contains (risk_description r) (str (criteria_met d)) /\
     risk_description r
     = str (criteria_met d)
         ++ "개의 위험 요인이 있어 심혈관질환 위험이 매우 높습니다. 즉각적인 의학적 관리가 필요합니다.") /\
    (forall self' pid' d',
        check_metabolic_syndrome self' pid' = Ok (Some d') ->
        criteria_met d' = criteria_met d ->
        evaluate_risk_level self' pid' = Ok (Some r)).
Proof.
  intros Hd.
  assert (Heval : forall self' pid' d',
             check_metabolic_syndrome self' pid' = Ok (Some d') ->
             criteria_met d' = criteria_met d ->
             evaluate_risk_level self' pid' = evaluate_risk_level self pid).
  { intros self' pid' d' Hd' Hc. unfold evaluate_risk_level.
    rewrite Hd, Hd'. cbn [bind]. rewrite Hc. reflexivity. }
  unfold evaluate_risk_level in *. rewrite Hd in *. cbn [bind] in *.
  destruct (criteria_met d =? 0) eqn:E0.
  { apply Z.eqb_eq in E0. eexists. split; [reflexivity|]. cbn.
    split; [reflexivity|]. repeat split; try (intros; lia); try reflexivity.
    intros self' pid' d' Hd' Hc. exact (Heval self' pid' d' Hd' Hc). }
  destruct (criteria_met d =? 1) eqn:E1.
  { apply Z.eqb_eq in E1. eexists. split; [reflexivity|]. cbn.
    split; [reflexivity|]. repeat split; try (intros; lia); try reflexivity.
    intros self' pid' d' Hd' Hc. exact (Heval self' pid' d' Hd' Hc). }
  destruct (criteria_met d =? 2) eqn:E2.
  { apply Z.eqb_eq in E2. eexists. split; [reflexivity|]. cbn.
    split; [reflexivity|]. repeat split; try (intros; lia); try reflexivity.
    intros self' pid' d' Hd' Hc. exact (Heval self' pid' d' Hd' Hc). }
  destruct (criteria_met d =? 3) eqn:E3.
  { apply Z.eqb_eq in E3. eexists. split; [reflexivity|]. cbn.
    split; [reflexivity|]. repeat split; try (intros; lia); try reflexivity.
    intros self' pid' d' Hd' Hc. exact (Heval self' pid' d' Hd' Hc). }
  apply Z.eqb_neq in E0, E1, E2, E3.
  eexists. split; [reflexivity|]. cbn [risk_score risk_level risk_description].
  split; [reflexivity|].
  split; [intros; lia|]. split; [intros; lia|].
  split; [intros; lia|]. split; [intros; lia|].
  split.
  - intros _. split; [reflexivity|]. split; [|reflexivity].
    exists "". eexists. cbn [append]. reflexivity.
  - intros self' pid' d' Hd' Hc. exact (Heval self' pid' d' Hd' Hc).
Qed.

Lemma evaluate_risk_level_of_count_witness :
  exists d,
    check_metabolic_syndrome Sample.db 1 = Ok (Some d) /\
    criteria_met d = 4 /\
    exists r,
      evaluate_risk_level Sample.db 1 = Ok (Some r) /\
      risk_level r = "high" /\
      risk_description r
      = "4개의 위험 요인이 있어 심혈관질환 위험이 매우 높습니다. 즉각적인 의학적 관리가 필요합니다.".
Proof.
  eexists. split; [reflexivity|]. split; [reflexivity|].
  destruct (evaluate_risk_level_of_count Sample.db 1 _ eq_refl)
    as (r & Hr & _ & _ & _ & _ & _ & H4 & _).
  exists r. split; [exact Hr|].
  destruct (H4 ltac:(cbv; discriminate)) as (Hlevel & _ & Hdesc).
  split; [exact Hlevel | exact Hdesc].
Defined.

End RiskEvaluation.

(** ** Text *)

Section TextFacts.
Import Text.

Lemma append_empty (s : string) : s ++ "" = s.
Proof. induction s as [|c s IH]; cbn; [reflexivity | now rewrite IH]. Qed.

Lemma append_assoc (a b c : string) : (a ++ b) ++ c = a ++ b ++ c.
Proof. induction a as [|x a IH]; cbn; [reflexivity | now rewrite IH]. Qed.

Lemma join_cons (ch : string) (l : list string) : join "" (ch :: l) = ch ++ join "" l.
Proof.
  unfold join. destruct l as [|x l]; cbn [String.concat]; [now rewrite append_empty|].
  reflexivity.
Qed.

Lemma join_app (l l' : list string) : join "" (l ++ l') = join "" l ++ join "" l'.
Proof.
  induction l as [|ch l IH]; [reflexivity|].
  cbn [List.app]. now rewrite !join_cons, IH, append_assoc.
Qed.

Lemma chars_head (b : ascii) (s : string) :
  exists tail rest, chars (String b s) = String b tail :: rest.
Proof.
  cbn [chars]. destruct (chars s) as [|[|b' ch] rest]; try (eexists; eexists; reflexivity).
  destruct (is_continuation b'); eexists; eexists; reflexivity.
Qed.

Lemma chars_nil (s : string) : chars s = [] -> s = "".
Proof.
  destruct s as [|b s]; [reflexivity|].
  destruct (chars_head b s) as (tail & rest & ->). discriminate.
Qed.

Lemma chars_lead (b : ascii) (s : string) :
  lead s -> chars (String b s) = String b "" :: chars s.
Proof.
  intros H. cbn [chars]. destruct s as [|b' s]; [reflexivity|].
  destruct (chars_head b' s) as (tail & rest & ->). cbn in H. now rewrite H.
Qed.

Lemma chars_app (a b : string) : lead b -> chars (a ++ b) = (chars a ++ chars b)%list.
Proof.
  intros Hb. induction a as [|x a IH]; [reflexivity|].
  cbn [append chars]. rewrite IH.
  destruct (chars a) as [|g rest] eqn:Ea.
  - apply chars_nil in Ea. subst a. cbn [List.app].
    change (match chars b with
            | String b' ch :: rest =>
              if is_continuation b' then String x (String b' ch) :: rest
              else String x "" :: String b' ch :: rest
            | rest => String x "" :: rest
            end) with (chars (String x b)).
    now apply chars_lead.
  - cbn [List.app]. destruct g as [|b' ch]; [reflexivity|].
    destruct (is_continuation b'); reflexivity.
Qed.

Lemma join_chars_String (b : ascii) (s : string) :
  join "" (chars (String b s)) = String b (join "" (chars s)).
Proof.
  cbn [chars]. destruct (chars s) as [|[|b' ch] rest]; [reflexivity | |].
  - now rewrite join_cons.
  - destruct (is_continuation b'); now rewrite !join_cons.
Qed.

Lemma join_chars (s : string) : join "" (chars s) = s.
Proof.
  induction s as [|b s IH]; [reflexivity|].
  now rewrite join_chars_String, IH.
Qed.

Lemma chars_truthy (s : string) : Forall (fun ch => ch <> "") (chars s).
Proof.
  induction s as [|b s IH]; [constructor|].
  cbn [chars]. destruct (chars s) as [|[|b' ch] rest].
  - repeat constructor. discriminate.
  - constructor; [discriminate | exact IH].
  - inversion IH; subst.
    destruct (is_continuation b'); repeat constructor; try discriminate; assumption.
Qed.

Lemma join_nil (l : list string) :
  Forall (fun ch => ch <> "") l -> join "" l = "" -> l = [].
Proof.
  intros H E. destruct l as [|ch l]; [reflexivity|].
  inversion H; subst. rewrite join_cons in E. destruct ch; [congruence | discriminate].
Qed.

Lemma continuation_code (b : ascii) : continuation (code b) = is_continuation b.
Proof. reflexivity. Qed.

(** A character is a group of its own. *)
Lemma character_chars (ch : string) :
  character ch -> chars ch = [ch] /\ lead ch /\ ch <> "".
Proof.
  unfold character, ord.
  destruct ch as [|a [|b [|c [|d [|e t]]]]]; cbn [list_ascii_of_string map];
    try congruence.
  - intros H. split; [reflexivity|]. split; [|discriminate].
    cbn. unfold is_continuation.
    destruct (N.ltb_spec (code a) 128); [|congruence].
    destruct (N.leb_spec 128 (code a)); [lia | reflexivity].
  - intros H.
    destruct (N.leb_spec 194 (code a)); cbn [andb] in H; [|congruence].
    destruct (continuation (code b)) eqn:Eb; [|rewrite andb_false_r in H; congruence].
    rewrite continuation_code in Eb.
    assert (La : is_continuation a = false).
    { unfold is_continuation. destruct (N.ltb_spec (code a) 192); [lia|].
      now rewrite andb_false_r. }
    split; [|split; [exact La | discriminate]].
    cbn [chars]. now rewrite Eb.
  - intros H.
    destruct (N.leb_spec 224 (code a)); cbn [andb] in H; [|congruence].
    destruct (N.ltb_spec (code a) 240); cbn [andb] in H; [|congruence].
    destruct (continuation (code b)) eqn:Eb; cbn [andb] in H; [|congruence].
    destruct (continuation (code c)) eqn:Ec; cbn [andb] in H; [|congruence].
    rewrite continuation_code in Eb, Ec.
    assert (La : is_continuation a = false).
    { unfold is_continuation. destruct (N.ltb_spec (code a) 192); [lia|].
      now rewrite andb_false_r. }
    split; [|split; [exact La | discriminate]].
    cbn [chars]. now rewrite Ec, Eb.
  - intros H.
    destruct (N.leb_spec 240 (code a)); cbn [andb] in H; [|congruence].
    destruct (N.ltb_spec (code a) 245); cbn [andb] in H; [|congruence].
    destruct (continuation (code b)) eqn:Eb; cbn [andb] in H; [|congruence].
    destruct (continuation (code c)) eqn:Ec; cbn [andb] in H; [|congruence].
    destruct (continuation (code d)) eqn:Ed; cbn [andb] in H; [|congruence].
    rewrite continuation_code in Eb, Ec, Ed.
    assert (La : is_continuation a = false).
    { unfold is_continuation. destruct (N.ltb_spec (code a) 192); [lia|].
      now rewrite andb_false_r. }
    split; [|split; [exact La | discriminate]].
    cbn [chars]. now rewrite Ed, Ec, Eb.
Qed.

Lemma lead_app (a b : string) : lead a -> a <> "" -> lead (a ++ b).
Proof. destruct a; [congruence | auto]. Qed.

Lemma every_lead (P : string -> Prop) (s : string) : every P s -> lead s.
Proof.
  intros [|ch s' Hc _ _]; [exact I|].
  destruct (character_chars ch Hc) as (_ & Hl & Hn). now apply lead_app.
Qed.

Lemma chars_cons (ch s : string) :
  character ch -> lead s -> chars (ch ++ s) = ch :: chars s.
Proof.
  intros Hc Hl. rewrite chars_app by exact Hl.
  now destruct (character_chars ch Hc) as (-> & _).
Qed.

Lemma every_chars (P : string -> Prop) (s : string) :
  every P s -> Forall (fun ch => character ch /\ P ch) (chars s).
Proof.
  induction 1 as [|ch s Hc Hp Hs IH]; [constructor|].
  rewrite chars_cons by (try assumption; eapply every_lead; eassumption).
  constructor; [now split | exact IH].
Qed.

Lemma every_join (P : string -> Prop) (l : list string) :
  Forall (fun ch => character ch /\ P ch) l -> every P (join "" l).
Proof.
  induction 1 as [|ch l [Hc Hp] _ IH]; [constructor|].
  rewrite join_cons. now constructor.
Qed.

Lemma every_app (P : string -> Prop) (a b : string) :
  every P a -> every P b -> every P (a ++ b).
Proof.
  induction 1 as [|ch s Hc Hp Hs IH]; intros Hb; [exact Hb|].
  rewrite append_assoc. constructor; auto.
Qed.

Lemma chars_join (l : list string) : Forall character l -> chars (join "" l) = l.
Proof.
  induction 1 as [|ch l Hc Hl IH]; [reflexivity|].
  rewrite join_cons, chars_cons, IH; [reflexivity | exact Hc |].
  destruct Hl as [|ch' l' Hc' _]; [exact I|].
  rewrite join_cons. destruct (character_chars ch' Hc') as (_ & L & N).
  now apply lead_app.
Qed.

End TextFacts.

Section StripFacts.
Import Text.

Lemma isspace_character (ch : string) : isspace ch = true -> character ch.
Proof. unfold isspace, character. destruct (ord ch); [discriminate | discriminate]. Qed.

Lemma spaces_every (l : list string) : spaces l -> blank (join "" l).
Proof.
  intros H. apply every_join. unfold spaces in H.
  induction H as [|ch l Hc _ IH]; constructor; auto.
  split; [now apply isspace_character | exact Hc].
Qed.

Lemma blank_spaces (s : string) : blank s -> spaces (chars s).
Proof.
  intros H. apply every_chars in H. unfold spaces.
  induction H as [|ch l [_ Hc] _ IH]; constructor; auto.
Qed.

Lemma lskip_split (l : list string) :
  exists L, l = (L ++ lskip l)%list /\ spaces L.
Proof.
  induction l as [|ch l (L & E & HL)]; cbn [lskip].
  - exists []. split; [reflexivity | constructor].
  - destruct (isspace ch) eqn:Ec.
    + exists (ch :: L). split; [cbn; congruence | now constructor].
    + exists []. split; [reflexivity | constructor].
Qed.

Lemma lskip_head (l : list string) :
  match lskip l with
  | [] => True
  | ch :: _ => isspace ch = false
  end.
Proof.
  induction l as [|ch l IH]; cbn [lskip]; [exact I|].
  destruct (isspace ch) eqn:Ec; [exact IH | exact Ec].
Qed.

Lemma lskip_spaces (L l : list string) : spaces L -> lskip (L ++ l) = lskip l.
Proof.
  induction 1 as [|ch L Hc _ IH]; [reflexivity|].
  cbn [List.app lskip]. now rewrite Hc.
Qed.

Lemma lskip_fixed (ch : string) (l : list string) :
  isspace ch = false -> lskip (ch :: l) = ch :: l.
Proof. intros H. cbn [lskip]. now rewrite H. Qed.

Lemma rskip_split (l : list string) :
  exists R, l = (rskip l ++ R)%list /\ spaces R.
Proof.
  induction l as [|ch l (R & E & HR)]; cbn [rskip].
  - exists []. split; [reflexivity | constructor].
  - destruct (rskip l) as [|x r] eqn:Er.
    + destruct (isspace ch) eqn:Ec.
      * exists (ch :: R). cbn in E. subst l. split; [reflexivity | now constructor].
      * exists R. cbn in *. subst l. split; [reflexivity | exact HR].
    + exists R. split; [cbn in *; congruence | exact HR].
Qed.

Lemma rskip_spaces_nil (R : list string) : spaces R -> rskip R = [].
Proof.
  induction 1 as [|ch R Hc _ IH]; [reflexivity|].
  cbn [rskip]. now rewrite IH, Hc.
Qed.

Lemma rskip_snoc (l : list string) (ch : string) :
  isspace ch = false -> rskip (l ++ [ch]) = (l ++ [ch])%list.
Proof.
  intros Hc. induction l as [|x l IH]; cbn [List.app rskip].
  - now rewrite Hc.
  - rewrite IH. destruct (l ++ [ch])%list eqn:E; [|reflexivity].
    destruct l; discriminate.
Qed.

Lemma rskip_spaces (l R : list string) :
  spaces R -> rskip l <> [] -> rskip (l ++ R) = rskip l.
Proof.
  intros HR. induction l as [|x l IH]; cbn [List.app rskip]; [congruence|].
  intros Hn. destruct (rskip l) as [|y r] eqn:Er.
  - destruct (isspace x) eqn:Ex; [congruence|].
    destruct (rskip_split l) as (R' & E & HR'). rewrite Er in E. cbn in E. subst l.
    rewrite rskip_spaces_nil; [reflexivity|].
    apply Forall_app. now split.
  - rewrite IH by discriminate. reflexivity.
Qed.

(** What [rskip] leaves ends with a character that is not white space. *)
Lemma rskip_last (l : list string) :
  rskip l = [] \/ exists init ch, rskip l = (init ++ [ch])%list /\ isspace ch = false.
Proof.
  induction l as [|x l IH]; cbn [rskip]; [now left|].
  destruct (rskip l) as [|y r] eqn:Er.
  - destruct (isspace x) eqn:Ex; [now left|].
    right. exists [], x. now split.
  - right. destruct IH as [IH|(init & ch & E & Hc)]; [discriminate|].
    exists (x :: init), ch. split; [cbn; congruence | exact Hc].
Qed.

Lemma rskip_nil (l : list string) : rskip l = [] -> spaces l.
Proof.
  intros H. destruct (rskip_split l) as (R & E & HR). rewrite H in E.
  cbn in E. now subst l.
Qed.

Lemma rskip_head (l : list string) :
  match l with
  | ch :: _ => isspace ch = false -> exists r, rskip l = ch :: r
  | [] => True
  end.
Proof.
  destruct l as [|ch l]; [exact I|]. intros Hc. cbn [rskip].
  destruct (rskip l); [rewrite Hc|]; eexists; reflexivity.
Qed.

Lemma lskip_incl (l : list string) (x : string) : In x (lskip l) -> In x l.
Proof.
  destruct (lskip_split l) as (L & E & _). intros H. rewrite E.
  apply in_or_app. now right.
Qed.

Lemma rskip_incl (l : list string) (x : string) : In x (rskip l) -> In x l.
Proof.
  destruct (rskip_split l) as (R & E & _). intros H. rewrite E.
  apply in_or_app. now left.
Qed.

(** [s.strip()] is empty exactly when [s] is blank. *)
Lemma strip_empty (s : string) : strip s = "" <-> blank s.
Proof.
  unfold strip. split.
  - intros H.
    assert (Hn : rskip (lskip (chars s)) = []).
    { apply join_nil; [|exact H].
      apply Forall_forall. intros x Hx.
      destruct (lskip_split (chars s)) as (L & E & _).
      destruct (rskip_split (lskip (chars s))) as (R & E' & _).
      pose proof (chars_truthy s) as Ht. rewrite Forall_forall in Ht. apply Ht.
      rewrite E, E'. apply in_or_app. right. apply in_or_app. now left. }
    apply rskip_nil in Hn. pose proof (lskip_head (chars s)) as Hh.
    destruct (lskip_split (chars s)) as (L & E & HL).
    destruct (lskip (chars s)) as [|ch r].
    + rewrite app_nil_r in E. rewrite <- (join_chars s), E. now apply spaces_every.
    + inversion Hn; subst. congruence.
  - intros H. apply blank_spaces in H.
    destruct (lskip_split (chars s)) as (L & E & HL).
    rewrite <- (app_nil_r (chars s)), lskip_spaces by exact H. reflexivity.
Qed.

(** [s] is [s.strip()] with white space around it. *)
Lemma strip_split (s : string) :
  exists l r, s = l ++ strip s ++ r /\ blank l /\ blank r.
Proof.
  unfold strip.
  destruct (lskip_split (chars s)) as (L & E & HL).
  destruct (rskip_split (lskip (chars s))) as (R & E' & HR).
  exists (join "" L), (join "" R). split; [|split; now apply spaces_every].
  rewrite <- !join_app, <- E', <- E. symmetry. apply join_chars.
Qed.

(** White space around a text that neither starts nor ends with white space
    is what [strip] removes. *)
Lemma strip_core (l r : string) (first last : string) (middle : list string) :
  blank l -> blank r ->
  character first -> Forall character middle -> character last ->
  isspace first = false -> isspace last = false ->
  strip (l ++ join "" (first :: middle ++ [last]) ++ r)
  = join "" (first :: middle ++ [last]).
Proof.
  intros Hl Hr Hf Hm Hla Sf Sl. unfold strip.
  assert (Hcore : Forall character (first :: middle ++ [last])).
  { constructor; [exact Hf|]. apply Forall_app. split; [exact Hm | now constructor]. }
  assert (Lr : lead r) by (eapply every_lead; exact Hr).
  assert (Lc : lead (join "" (first :: middle ++ [last]) ++ r)).
  { rewrite join_cons, append_assoc.
    destruct (character_chars first Hf) as (_ & L & N). now apply lead_app. }
  rewrite chars_app by exact Lc. rewrite chars_app by exact Lr.
  rewrite chars_join by exact Hcore.
  rewrite lskip_spaces by now apply blank_spaces.
  cbn [List.app]. rewrite lskip_fixed by exact Sf.
  change (first :: (middle ++ [last]) ++ chars r)%list
    with (((first :: middle) ++ [last]) ++ chars r)%list.
  rewrite rskip_spaces.
  - now rewrite rskip_snoc.
  - now apply blank_spaces.
  - rewrite rskip_snoc by exact Sl. destruct middle; discriminate.
Qed.

End StripFacts.

Section Groups.
Import Text.

Lemma chars_grouped (s : string) : grouped (chars s).
Proof.
  induction s as [|b s IH]; [exact I|].
  cbn [chars]. destruct (chars s) as [|[|b' ch] rest].
  - split; [reflexivity | constructor].
  - destruct IH as [[] _].
  - destruct IH as [Hg Hr]. destruct (is_continuation b') eqn:Eb.
    + split; [|exact Hr]. cbn in *. now rewrite Eb.
    + split; [reflexivity|]. constructor; [|exact Hr]. now split.
Qed.

Lemma group_chars (g : string) : group g -> chars g = [g].
Proof.
  destruct g as [|b tail]; [intros []|]. revert b.
  induction tail as [|c tail IH]; intros b H; [reflexivity|].
  cbn in H. apply andb_prop in H. destruct H as [Hc Ht].
  change (chars (String b (String c tail)))
    with (match chars (String c tail) with
          | String b' ch :: rest =>
            if is_continuation b' then String b (String b' ch) :: rest
            else String b "" :: String b' ch :: rest
          | rest => String b "" :: rest
          end).
  rewrite (IH c Ht). now rewrite Hc.
Qed.

Lemma grouped_tail (l : list string) :
  Forall (fun h => group h /\ lead h) l -> grouped l /\ lead (join "" l).
Proof.
  intros H. destruct H as [|g l [Hg Hl] Hr]; [now split|].
  split; [now split|]. rewrite join_cons. apply lead_app; [exact Hl|].
  destruct g; [destruct Hg | discriminate].
Qed.

Lemma chars_join_grouped (l : list string) : grouped l -> chars (join "" l) = l.
Proof.
  assert (Ht : forall l, Forall (fun h => group h /\ lead h) l -> chars (join "" l) = l).
  { induction 1 as [|g l' [Hg Hl] Hr IH]; [reflexivity|].
    rewrite join_cons, chars_app by (now apply grouped_tail).
    now rewrite (group_chars g Hg), IH. }
  destruct l as [|g l']; [reflexivity|]. intros [Hg Hr].
  rewrite join_cons, chars_app by (now apply grouped_tail).
  now rewrite (group_chars g Hg), Ht.
Qed.

Lemma grouped_app_r (a l : list string) : grouped (a ++ l) -> grouped l.
Proof.
  destruct a as [|g a]; [auto|]. intros [_ H].
  apply Forall_app in H. destruct H as [_ H]. now apply grouped_tail.
Qed.

Lemma grouped_app_l (l b : list string) : grouped (l ++ b) -> grouped l.
Proof.
  destruct l as [|g l]; [intros _; exact I|]. intros [Hg H].
  apply Forall_app in H. destruct H as [H _]. now split.
Qed.

Lemma strip_grouped (s : string) : grouped (rskip (lskip (chars s))).
Proof.
  destruct (lskip_split (chars s)) as (L & E & _).
  destruct (rskip_split (lskip (chars s))) as (R & E' & _).
  pose proof (chars_grouped s) as H. rewrite E in H. apply grouped_app_r in H.
  rewrite E' in H. now apply grouped_app_l in H.
Qed.

(** The characters of [s.strip()]. *)
Lemma chars_strip (s : string) : chars (strip s) = rskip (lskip (chars s)).
Proof. apply chars_join_grouped, strip_grouped. Qed.

Lemma lskip_idempotent (l : list string) : lskip (lskip l) = lskip l.
Proof.
  pose proof (lskip_head l) as H. destruct (lskip l) as [|ch r]; [reflexivity|].
  now apply lskip_fixed.
Qed.

Lemma rskip_idempotent (l : list string) : rskip (rskip l) = rskip l.
Proof.
  destruct (rskip_last l) as [->|(init & ch & -> & Hc)]; [reflexivity|].
  now apply rskip_snoc.
Qed.

Lemma lskip_rskip (l : list string) : lskip (rskip (lskip l)) = rskip (lskip l).
Proof.
  pose proof (lskip_head l) as H. destruct (lskip l) as [|ch r]; [reflexivity|].
  destruct (rskip_head (ch :: r) H) as (r' & ->). now apply lskip_fixed.
Qed.

(** [strip] is idempotent. *)
Lemma strip_idempotent (s : string) : strip (strip s) = strip s.
Proof.
  unfold strip at 1. rewrite chars_strip, lskip_rskip, rskip_idempotent. reflexivity.
Qed.

Lemma In_chars_strip (s ch : string) : In ch (chars (strip s)) -> In ch (chars s).
Proof. rewrite chars_strip. intros H. now apply lskip_incl, rskip_incl. Qed.

End Groups.

Section Tables.
Import Text.

Lemma digit_value_spec (zeros : list N) (c : N) (v : Z) :
  digit_value zeros c = Some v ->
  exists zero k, In zero zeros /\ In k [0; 1; 2; 3; 4; 5; 6; 7; 8; 9]%N /\
                 c = (zero + k)%N /\ v = Z.of_N k.
Proof.
  induction zeros as [|zero zeros IH]; cbn [digit_value]; [discriminate|].
  destruct (N.leb_spec zero c); cbn [andb].
  - destruct (N.ltb_spec c (zero + 10)).
    + intros [= <-]. exists zero, (c - zero)%N.
      split; [now left|]. split; [|split; [lia | reflexivity]].
      assert (Hk : (c - zero < 10)%N) by lia.
      remember (c - zero)%N as k. clear - Hk. cbn.
      destruct k as [|p]; [auto|]. do 9 (destruct p as [p|p|]; try lia; auto 12).
    + intros H1. destruct (IH H1) as (z & k & Hz & Hk & E). exists z, k.
      split; [now right | split; assumption].
  - intros H1. destruct (IH H1) as (z & k & Hz & Hk & E). exists z, k.
    split; [now right | split; assumption].
Qed.

Lemma decimal_table :
  forallb (fun zero => forallb (digit_checked zero) [0; 1; 2; 3; 4; 5; 6; 7; 8; 9]%N)
    DECIMAL_ZEROS = true.
Proof. vm_compute. reflexivity. Qed.

(** A decimal digit has a value from 0 to 9, is a character and no white
    space, and below 127 it is the ASCII digit of its value. *)
Lemma decimal_spec (ch : string) (v : Z) :
  decimal ch = Some v ->
  0 <= v <= 9 /\ character ch /\ isspace ch = false /\
  exists c, ord ch = Some c /\ ((c <? 127)%N = true -> c = (48 + Z.to_N v)%N).
Proof.
  unfold decimal, isspace, character. destruct (ord ch) as [c|]; [|discriminate].
  intros H. apply digit_value_spec in H. destruct H as (zero & k & Hz & Hk & -> & ->).
  pose proof decimal_table as T. rewrite forallb_forall in T.
  specialize (T zero Hz). rewrite forallb_forall in T. specialize (T k Hk).
  unfold digit_checked in T. apply andb_prop in T. destruct T as [T1 T2].
  split.
  { cbn in Hk. repeat (destruct Hk as [<-|Hk]; [lia|]). destruct Hk. }
  split; [discriminate|]. split; [now apply negb_true_iff|].
  eexists. split; [reflexivity|]. intros Hlt. rewrite Hlt in T2.
  apply N.eqb_eq in T2. rewrite T2. lia.
Qed.

Lemma to_ascii_decimal (ch : string) (v : Z) (l : list string) :
  decimal ch = Some v -> to_ascii (ch :: l) = (48 + Z.to_N v)%N :: to_ascii l.
Proof.
  intros H. destruct (decimal_spec ch v H) as (_ & _ & Hs & c & Hc & Hlt).
  cbn [to_ascii]. rewrite Hc, Hs, H.
  destruct (c <? 127)%N; [now rewrite Hlt | reflexivity].
Qed.

Lemma digit_code (v : Z) :
  0 <= v <= 9 ->
  let c := (48 + Z.to_N v)%N in
  c_isdigit c = true /\ c_isspace c = false /\ (c =? 43)%N = false /\
  (c =? 45)%N = false /\ (c =? 95)%N = false /\ Z.of_N (c - 48) = v.
Proof.
  intros H.
  assert (E : v = 0 \/ v = 1 \/ v = 2 \/ v = 3 \/ v = 4 \/ v = 5 \/ v = 6 \/ v = 7 \/
              v = 8 \/ v = 9) by lia.
  repeat (destruct E as [->|E]; [cbv; repeat split|]). subst v. cbv. repeat split.
Qed.

Lemma scan_digits (digits : list Z) (value count : Z) :
  Forall (fun v => 0 <= v <= 9) digits ->
  scan (map (fun v => (48 + Z.to_N v)%N) digits) value count
  = Some (fold_left (fun a v => 10 * a + v) digits value,
          count + Z.of_nat (List.length digits), []).
Proof.
  intros H. revert value count.
  induction H as [|v digits Hv _ IH]; intros value count.
  - cbn. now rewrite Z.add_0_r.
  - cbn [map scan fold_left List.length].
    destruct (digit_code v Hv) as (-> & _ & _ & _ & _ & ->).
    rewrite IH. rewrite Nat2Z.inj_succ.
    replace (count + 1 + Z.of_nat (List.length digits))
      with (count + Z.succ (Z.of_nat (List.length digits))) by lia.
    reflexivity.
Qed.

(** [int] of a text of decimal digits, of whatever script: the number they
    write, unless there are more of them than the limit of the conversion. *)
Lemma int_decimal (cs : list string) (digits : list Z) :
  Forall2 (fun ch v => decimal ch = Some v) cs digits ->
  cs <> [] ->
  int (join "" cs)
  = if 4300 <? Z.of_nat (List.length digits)
    then Raise (ValueError "Exceeds the limit (4300 digits) for integer string conversion")
    else Ok (value_of digits).
Proof.
  intros H Hn.
  assert (Hc : Forall character cs).
  { clear - H. induction H as [|ch v cs digits Hd _ IH]; constructor; [|exact IH].
    now destruct (decimal_spec ch v Hd) as (_ & Hc & _). }
  assert (Hr : Forall (fun v => 0 <= v <= 9) digits).
  { clear - H. induction H as [|ch v cs digits Hd _ IH]; constructor; [|exact IH].
    now destruct (decimal_spec ch v Hd) as (Hv & _). }
  assert (Ha : to_ascii cs = map (fun v => (48 + Z.to_N v)%N) digits).
  { clear - H. induction H as [|ch v cs digits Hd _ IH]; [reflexivity|].
    rewrite (to_ascii_decimal ch v cs Hd), IH. reflexivity. }
  unfold int. rewrite chars_join by exact Hc. rewrite Ha.
  destruct digits as [|v digits]; [inversion H; congruence|].
  inversion Hr as [|v' ds' Hv Hds]; subst.
  cbn [map skip_space].
  destruct (digit_code v Hv) as (D1 & D2 & D3 & D4 & _ & D6).
  rewrite D2, D3, D4, D1, D6. rewrite scan_digits by exact Hds.
  unfold _PY_LONG_DEFAULT_MAX_STR_DIGITS.
  replace (1 + Z.of_nat (List.length digits))
    with (Z.of_nat (List.length (v :: digits))) by (cbn [List.length]; lia).
  destruct (4300 <? Z.of_nat (List.length (v :: digits))); [reflexivity|].
  cbn [forallb]. unfold value_of. cbn [fold_left].
  replace (10 * 0 + v) with v by lia.
  destruct (fold_left _ digits v); reflexivity.
Qed.

Lemma int_raises (s : string) (e : exn) :
  int s = Raise e -> exists msg, e = ValueError msg.
Proof.
  unfold int.
  set (l := skip_space (to_ascii (chars s))).
  destruct (match l with
            | [] => (1, l)
            | c :: l' =>
              if (c =? 43)%N then (1, l') else if (c =? 45)%N then (-1, l') else (1, l)
            end) as [sign l0].
  destruct l0 as [|c l']; [intros [= <-]; eexists; reflexivity|].
  destruct (c_isdigit c); [|intros [= <-]; eexists; reflexivity].
  destruct (scan l' (Z.of_N (c - 48)) 1) as [[[value digits] rest]|];
    [|intros [= <-]; eexists; reflexivity].
  destruct (_ <? _); [intros [= <-]; eexists; reflexivity|].
  destruct (forallb c_isspace rest); [discriminate|].
  intros [= <-]; eexists; reflexivity.
Qed.

End Tables.

(** ** The calendar *)

(** Case analysis on a disjunction of equations. *)
Ltac cases E := repeat (destruct E as [E|E]); subst.

Section CalendarFacts.
Import Text Calendar.

Lemma _is_leap_leap_year (y : Z) : _is_leap y = leap_year y.
Proof.
  unfold _is_leap, leap_year.
  destruct (Z.eqb_spec (y mod 4) 0) as [H4|H4];
    destruct (Z.eqb_spec (y mod 100) 0) as [H100|H100];
    destruct (Z.eqb_spec (y mod 400) 0) as [H400|H400]; try reflexivity.
  all: exfalso; revert H4 H400; Z.to_euclidean_division_equations; lia.
Qed.

Lemma month_cases (m : Z) :
  1 <= m <= 12 ->
  m = 1 \/ m = 2 \/ m = 3 \/ m = 4 \/ m = 5 \/ m = 6 \/ m = 7 \/ m = 8 \/ m = 9 \/
  m = 10 \/ m = 11 \/ m = 12.
Proof. lia. Qed.

Lemma _days_in_month_length (y m : Z) :
  1 <= m <= 12 -> _days_in_month y m = month_length y m.
Proof.
  intros H. unfold _days_in_month, month_length. rewrite _is_leap_leap_year.
  pose proof (month_cases m H) as E. cases E;
    reflexivity.
Qed.

(** [date(y, m, d)] is built exactly for the calendar dates. *)
Lemma new_date_Ok (y m d : Z) (o : date) :
  new_date y m d = Ok o <-> calendar_date y m d /\ o = _ymd2ord y m d.
Proof.
  unfold new_date, calendar_date, MINYEAR, MAXYEAR.
  destruct (Z.leb_spec 1 y); cbn [andb negb];
    [|split; [discriminate | intros [Hc _]; lia]].
  destruct (Z.leb_spec y 9999); cbn [andb negb];
    [|split; [discriminate | intros [Hc _]; lia]].
  destruct (Z.leb_spec 1 m); cbn [andb negb];
    [|split; [discriminate | intros [Hc _]; lia]].
  destruct (Z.leb_spec m 12); cbn [andb negb];
    [|split; [discriminate | intros [Hc _]; lia]].
  rewrite _days_in_month_length by lia.
  destruct (Z.leb_spec 1 d); cbn [andb negb];
    [|split; [discriminate | intros [Hc _]; lia]].
  destruct (Z.leb_spec d (month_length y m)); cbn [andb negb];
    [|split; [discriminate | intros [Hc _]; lia]].
  split; [intros [= <-]; split; [lia | reflexivity] | intros [_ ->]; reflexivity].
Qed.

Lemma new_date_raises (y m d : Z) (e : exn) :
  new_date y m d = Raise e -> exists msg, e = ValueError msg.
Proof.
  unfold new_date.
  destruct (negb _); [intros [= <-]; eexists; reflexivity|].
  destruct (negb _); [intros [= <-]; eexists; reflexivity|].
  destruct (negb _); [intros [= <-]; eexists; reflexivity|].
  discriminate.
Qed.

(** The days of a year before a month, and with it. *)
Lemma _days_before_month_next (y m : Z) :
  1 <= m <= 12 ->
  0 <= _days_before_month y m /\
  _days_before_month y m + month_length y m
  = if m =? 12 then 365 + Z.b2z (leap_year y) else _days_before_month y (m + 1).
Proof.
  intros H. unfold _days_before_month, month_length. rewrite _is_leap_leap_year.
  pose proof (month_cases m H) as E. cases E;
    destruct (leap_year y); vm_compute; (split; [discriminate | reflexivity]).
Qed.

Lemma _days_before_month_mono (y m m' : Z) :
  1 <= m -> m < m' -> m' <= 12 ->
  _days_before_month y m + month_length y m <= _days_before_month y m'.
Proof.
  intros H1 H2 H3.
  assert (Hn : exists n, m' = m + 1 + Z.of_nat n) by (exists (Z.to_nat (m' - m - 1)); lia).
  destruct Hn as [n ->]. induction n as [|n IH].
  - destruct (_days_before_month_next y m) as [_ E]; [lia|]. rewrite E.
    destruct (Z.eqb_spec m 12); [lia|]. replace (m + 1 + Z.of_nat 0) with (m + 1) by lia.
    lia.
  - assert (IH' : _days_before_month y m + month_length y m
                  <= _days_before_month y (m + 1 + Z.of_nat n)) by (apply IH; lia).
    destruct (_days_before_month_next y (m + 1 + Z.of_nat n)) as [_ E]; [lia|].
    destruct (Z.eqb_spec (m + 1 + Z.of_nat n) 12); [lia|].
    replace (m + 1 + Z.of_nat (S n)) with (m + 1 + Z.of_nat n + 1) by lia.
    assert (0 <= month_length y (m + 1 + Z.of_nat n)).
    { unfold month_length. repeat destruct (_ =? _); cbn; try lia.
      destruct (leap_year y); lia. }
    lia.
Qed.

Lemma _days_before_year_next (y : Z) :
  _days_before_year (y + 1) = _days_before_year y + 365 + Z.b2z (leap_year y).
Proof.
  unfold _days_before_year, leap_year. cbv zeta.
  replace (y + 1 - 1) with y by lia.
  destruct (Z.eqb_spec (y mod 4) 0) as [H4|H4];
    destruct (Z.eqb_spec (y mod 100) 0) as [H100|H100];
    destruct (Z.eqb_spec (y mod 400) 0) as [H400|H400]; cbn [andb orb negb Z.b2z];
    revert H4 H100 H400; Z.to_euclidean_division_equations; lia.
Qed.

Lemma _days_before_year_mono (y y' : Z) :
  y <= y' -> _days_before_year y <= _days_before_year y'.
Proof.
  intros H. unfold _days_before_year. cbv zeta.
  Z.to_euclidean_division_equations. lia.
Qed.

Lemma day_of_year (y m d : Z) :
  calendar_date y m d ->
  1 <= _days_before_month y m + d <= 365 + Z.b2z (leap_year y).
Proof.
  intros (_ & Hm & Hd).
  destruct (_days_before_month_next y m Hm) as [H0 E].
  split; [lia|].
  destruct (Z.eqb_spec m 12) as [->|Hne]; [lia|].
  assert (_days_before_month y m + month_length y m <= _days_before_month y 12).
  { apply _days_before_month_mono; lia. }
  destruct (_days_before_month_next y 12) as [_ E12]; [lia|].
  change (12 =? 12) with true in E12. cbv iota in E12.
  assert (0 <= month_length y 12) by (cbn; lia).
  lia.
Qed.

(** The ordinal of a calendar date grows with the date. *)
Lemma _ymd2ord_earlier (y m d y' m' d' : Z) :
  calendar_date y m d -> calendar_date y' m' d' ->
  (earlier (y, m, d) (y', m', d') <-> _ymd2ord y m d < _ymd2ord y' m' d').
Proof.
  intros H H'.
  assert (Hlt : forall y m d y' m' d',
             calendar_date y m d -> calendar_date y' m' d' ->
             earlier (y, m, d) (y', m', d') -> _ymd2ord y m d < _ymd2ord y' m' d').
  { clear. intros y m d y' m' d' H H' He. unfold _ymd2ord.
    pose proof (day_of_year y m d H) as B. pose proof (day_of_year y' m' d' H') as B'.
    destruct He as [Hy|[<- [Hm|[<- Hd]]]].
    - pose proof (_days_before_year_next y) as N.
      pose proof (_days_before_year_mono (y + 1) y' ltac:(lia)). lia.
    - destruct H as (_ & Hm1 & Hd1). destruct H' as (_ & Hm2 & Hd2).
      pose proof (_days_before_month_mono y m m' ltac:(lia) Hm ltac:(lia)). lia.
    - lia. }
  split; [now apply Hlt|]. intros Ho.
  destruct (Z.lt_trichotomy y y') as [Hy|[<-|Hy]].
  - now left.
  - destruct (Z.lt_trichotomy m m') as [Hm|[<-|Hm]].
    + right. split; [reflexivity | now left].
    + right. split; [reflexivity|]. right. split; [reflexivity|].
      unfold _ymd2ord in Ho. lia.
    + assert (_ymd2ord y m' d' < _ymd2ord y m d).
      { apply Hlt; try assumption. right. split; [reflexivity | now left]. }
      lia.
  - assert (_ymd2ord y' m' d' < _ymd2ord y m d) by (apply Hlt; try assumption; now left).
    lia.
Qed.

End CalendarFacts.

(** ** Date texts *)

Section ParserFacts.
Import Text Calendar Requests.

Lemma digit_cases (v : Z) :
  0 <= v <= 9 ->
  v = 0 \/ v = 1 \/ v = 2 \/ v = 3 \/ v = 4 \/ v = 5 \/ v = 6 \/ v = 7 \/ v = 8 \/ v = 9.
Proof. lia. Qed.

Ltac each_digit v H :=
  let E := fresh "E" in pose proof (digit_cases v H) as E; cases E.

Lemma digit_spec (v : Z) :
  0 <= v <= 9 ->
  decimal (digit v) = Some v /\ character (digit v) /\ lead (digit v) /\
  isspace (digit v) = false.
Proof.
  intros H. each_digit v H; (split; [reflexivity|]); (split; [discriminate|]);
    split; reflexivity.
Qed.

Lemma ord_ascii (ch : string) (c : N) :
  ord ch = Some c -> (c < 128)%N -> ch = String (ascii_of_N c) "".
Proof.
  unfold ord.
  destruct ch as [|a [|b [|x [|d [|e t]]]]]; cbn [list_ascii_of_string map];
    try discriminate.
  - destruct (code a <? 128)%N; [|discriminate]. intros [= <-] _.
    unfold code. now rewrite ascii_N_embedding.
  - destruct (N.leb_spec 194 (code a)); cbn [andb]; [|discriminate].
    destruct (_ && _); [|discriminate]. intros [= <-] Hc. lia.
  - cbv zeta.
    match goal with
    | |- (if ?c && (2048 <=? ?v)%N && ?s then _ else _) = _ -> _ =>
      destruct c; cbn [andb]; [|discriminate];
      destruct (N.leb_spec 2048 v); cbn [andb]; [|discriminate];
      destruct s; [|discriminate]
    end.
    intros [= <-] Hc. lia.
  - cbv zeta.
    match goal with
    | |- (if ?c && (65536 <=? ?v)%N && ?s then _ else _) = _ -> _ =>
      destruct c; cbn [andb]; [|discriminate];
      destruct (N.leb_spec 65536 v); cbn [andb]; [|discriminate];
      destruct s; [|discriminate]
    end.
    intros [= <-] Hc. lia.
Qed.

Lemma between_digit (lo hi : N) (ch : string) :
  between lo hi ch = true -> (48 <= lo)%N -> (hi <= 57)%N ->
  exists v, ch = digit v /\ Z.of_N lo - 48 <= v <= Z.of_N hi - 48.
Proof.
  unfold between. destruct (ord ch) as [c|] eqn:E; [|discriminate].
  intros H Hlo Hhi. apply andb_prop in H. destruct H as [H1 H2].
  apply N.leb_le in H1, H2.
  exists (Z.of_N c - 48). split; [|lia].
  rewrite (ord_ascii ch c E) by lia. unfold digit. do 2 f_equal. lia.
Qed.

Lemma exactly_eq (x ch : string) : exactly x ch = true -> ch = x.
Proof. apply String.eqb_eq. Qed.

Lemma isdecimal_Some (ch : string) : isdecimal ch = true -> exists v, decimal ch = Some v.
Proof. unfold isdecimal. destruct (decimal ch) as [v|]; [now exists v | discriminate]. Qed.

Lemma match_classes_Some (classes : list (string -> bool)) (l text rest : list string) :
  match_classes classes l = Some (text, rest) ->
  l = (text ++ rest)%list /\ Forall2 holds classes text.
Proof.
  revert l text rest. induction classes as [|p classes IH]; intros l text rest;
    cbn [match_classes].
  - intros [= <- <-]. split; [reflexivity | constructor].
  - destruct l as [|ch l]; [discriminate|].
    destruct (p ch) eqn:Ep; [|discriminate].
    destruct (match_classes classes l) as [[text' rest']|] eqn:E; [|discriminate].
    intros [= <- <-]. destruct (IH l text' rest' E) as [-> H].
    split; [reflexivity | now constructor].
Qed.

Lemma match_alternatives_Some {A : Type} (alternatives : list (list (string -> bool)))
  (l : list string) (k : list string -> list string -> option A) (a : A) :
  match_alternatives alternatives l k = Some a ->
  exists classes text rest,
    In classes alternatives /\ match_classes classes l = Some (text, rest) /\
    k text rest = Some a.
Proof.
  induction alternatives as [|classes alternatives IH]; cbn [match_alternatives];
    [discriminate|].
  assert (Hnext : match_alternatives alternatives l k = Some a ->
                  exists classes0 text rest,
                    In classes0 (classes :: alternatives) /\
                    match_classes classes0 l = Some (text, rest) /\ k text rest = Some a).
  { intros H. destruct (IH H) as (c & t & r & Hin & Hm & Hk).
    exists c, t, r. split; [now right | now split]. }
  destruct (match_classes classes l) as [[text rest]|] eqn:E; [|exact Hnext].
  destruct (k text rest) as [a'|] eqn:Ek; [|exact Hnext].
  intros [= ->]. exists classes, text, rest. split; [now left | now split].
Qed.

Lemma regex_Y_sound (classes : list (string -> bool)) (text : list string) :
  In classes regex_Y -> Forall2 holds classes text -> exists y, year_text (join "" text) y.
Proof.
  intros [<-|[]] H.
  inversion H as [|p1 c1 l1 t1 H1 F1]; subst.
  inversion F1 as [|p2 c2 l2 t2 H2 F2]; subst.
  inversion F2 as [|p3 c3 l3 t3 H3 F3]; subst.
  inversion F3 as [|p4 c4 l4 t4 H4 F4]; subst. inversion F4; subst.
  destruct (isdecimal_Some c1 H1) as [v1 E1]. destruct (isdecimal_Some c2 H2) as [v2 E2].
  destruct (isdecimal_Some c3 H3) as [v3 E3]. destruct (isdecimal_Some c4 H4) as [v4 E4].
  eexists. cbn [join String.concat append]. now apply (year_digits c1 c2 c3 c4 v1 v2 v3 v4).
Qed.

Lemma regex_dash_sound (classes : list (string -> bool)) (text : list string) :
  In classes regex_dash -> Forall2 holds classes text -> text = ["-"].
Proof.
  intros [<-|[]] H.
  inversion H as [|p1 c1 l1 t1 H1 F1]; subst. inversion F1; subst.
  apply exactly_eq in H1. now subst.
Qed.

Lemma regex_m_sound (classes : list (string -> bool)) (text : list string) :
  In classes regex_m -> Forall2 holds classes text -> exists m, month_text (join "" text) m.
Proof.
  intros [<-|[<-|[<-|[]]]] H.
  - inversion H as [|p1 c1 l1 t1 H1 F1]; subst.
    inversion F1 as [|p2 c2 l2 t2 H2 F2]; subst. inversion F2; subst.
    apply exactly_eq in H1. subst c1.
    destruct (between_digit _ _ _ H2) as (v & -> & Hv); [lia | lia |].
    exists (10 + v). cbn [join String.concat].
    replace v with (10 + v - 10) at 1 by lia. apply month_late. lia.
  - inversion H as [|p1 c1 l1 t1 H1 F1]; subst.
    inversion F1 as [|p2 c2 l2 t2 H2 F2]; subst. inversion F2; subst.
    apply exactly_eq in H1. subst c1.
    destruct (between_digit _ _ _ H2) as (v & -> & Hv); [lia | lia |].
    exists v. cbn [join String.concat]. apply month_padded. lia.
  - inversion H as [|p1 c1 l1 t1 H1 F1]; subst. inversion F1; subst.
    destruct (between_digit _ _ _ H1) as (v & -> & Hv); [lia | lia |].
    exists v. cbn [join String.concat]. apply month_plain. lia.
Qed.

Lemma regex_d_sound (classes : list (string -> bool)) (text : list string) :
  In classes regex_d -> Forall2 holds classes text -> exists d, day_text (join "" text) d.
Proof.
  intros [<-|[<-|[<-|[<-|[<-|[]]]]]] H.
  - inversion H as [|p1 c1 l1 t1 H1 F1]; subst.
    inversion F1 as [|p2 c2 l2 t2 H2 F2]; subst. inversion F2; subst.
    apply exactly_eq in H1. subst c1.
    destruct (between_digit _ _ _ H2) as (v & -> & Hv); [lia | lia |].
    exists (30 + v). cbn [join String.concat]. apply day_thirties. lia.
  - inversion H as [|p1 c1 l1 t1 H1 F1]; subst.
    inversion F1 as [|p2 c2 l2 t2 H2 F2]; subst. inversion F2; subst.
    destruct (between_digit _ _ _ H1) as (t & -> & Ht); [lia | lia |].
    destruct (isdecimal_Some c2 H2) as [v E].
    exists (10 * t + v). cbn [join String.concat]. apply day_tens; [lia | exact E].
  - inversion H as [|p1 c1 l1 t1 H1 F1]; subst.
    inversion F1 as [|p2 c2 l2 t2 H2 F2]; subst. inversion F2; subst.
    apply exactly_eq in H1. subst c1.
    destruct (between_digit _ _ _ H2) as (v & -> & Hv); [lia | lia |].
    exists v. cbn [join String.concat]. apply day_padded. lia.
  - inversion H as [|p1 c1 l1 t1 H1 F1]; subst. inversion F1; subst.
    destruct (between_digit _ _ _ H1) as (v & -> & Hv); [lia | lia |].
    exists v. cbn [join String.concat]. apply day_plain. lia.
  - inversion H as [|p1 c1 l1 t1 H1 F1]; subst.
    inversion F1 as [|p2 c2 l2 t2 H2 F2]; subst. inversion F2; subst.
    apply exactly_eq in H1. subst c1.
    destruct (between_digit _ _ _ H2) as (v & -> & Hv); [lia | lia |].
    exists v. cbn [join String.concat]. apply day_spaced. lia.
Qed.

(** The numbers [int] reads from the three groups. *)
Lemma year_text_int (Y : string) (y : Z) : year_text Y y -> int Y = Ok y.
Proof.
  intros [c1 c2 c3 c4 v1 v2 v3 v4 E1 E2 E3 E4].
  change (c1 ++ c2 ++ c3 ++ c4) with (join "" [c1; c2; c3; c4]).
  rewrite (int_decimal [c1; c2; c3; c4] [v1; v2; v3; v4]).
  - change (4300 <? Z.of_nat (List.length [v1; v2; v3; v4])) with false. cbv iota.
    unfold value_of. cbn [fold_left]. f_equal; lia.
  - repeat constructor; assumption.
  - discriminate.
Qed.

Lemma month_text_int (M : string) (m : Z) : month_text M m -> int M = Ok m.
Proof.
  intros [m' H|m' H|m' H].
  - assert (H' : 0 <= m' <= 9) by lia. each_digit m' H'; try lia; reflexivity.
  - assert (H' : 0 <= m' <= 9) by lia. each_digit m' H'; try lia; reflexivity.
  - assert (E : m' = 10 \/ m' = 11 \/ m' = 12) by lia.
    destruct E as [->|[->| ->]]; reflexivity.
Qed.

Lemma day_text_int (D : string) (d : Z) : day_text D d -> int D = Ok d.
Proof.
  intros [d' H|d' H|d' H|t c v H E|v H].
  - assert (H' : 0 <= d' <= 9) by lia. each_digit d' H'; try lia; reflexivity.
  - assert (H' : 0 <= d' <= 9) by lia. each_digit d' H'; try lia; reflexivity.
  - assert (H' : 0 <= d' <= 9) by lia. each_digit d' H'; try lia; reflexivity.
  - destruct (digit_spec t ltac:(lia)) as (Et & _).
    replace (digit t ++ c) with (join "" [digit t; c]) by reflexivity.
    rewrite (int_decimal [digit t; c] [t; v]).
    + change (4300 <? Z.of_nat (List.length [t; v])) with false. cbv iota.
      unfold value_of. cbn [fold_left]. f_equal; lia.
    + repeat constructor; assumption.
    + discriminate.
  - assert (E : v = 0 \/ v = 1) by lia. destruct E as [->| ->]; reflexivity.
Qed.

(** The characters of the three groups. *)
Lemma year_text_chars (Y : string) (y : Z) :
  year_text Y y ->
  exists c1 c2 c3 c4 v1 v2 v3 v4,
    Y = join "" [c1; c2; c3; c4] /\
    decimal c1 = Some v1 /\ decimal c2 = Some v2 /\
    decimal c3 = Some v3 /\ decimal c4 = Some v4.
Proof.
  intros [c1 c2 c3 c4 v1 v2 v3 v4 E1 E2 E3 E4].
  exists c1, c2, c3, c4, v1, v2, v3, v4. repeat split; assumption.
Qed.

Lemma month_text_chars (M : string) (m : Z) :
  month_text M m -> lead M /\ M <> "" /\ Forall character (chars M).
Proof.
  intros [m' H|m' H|m' H].
  - assert (H' : 0 <= m' <= 9) by lia.
    each_digit m' H'; (split; [reflexivity|]); (split; [discriminate|]);
      repeat constructor; discriminate.
  - assert (H' : 0 <= m' <= 9) by lia.
    each_digit m' H'; (split; [reflexivity|]); (split; [discriminate|]);
      repeat constructor; discriminate.
  - assert (E : m' = 10 \/ m' = 11 \/ m' = 12) by lia.
    destruct E as [->|[->| ->]]; (split; [reflexivity|]); (split; [discriminate|]);
      repeat constructor; discriminate.
Qed.

Lemma day_text_chars (D : string) (d : Z) :
  day_text D d ->
  lead D /\
  exists init last,
    chars D = (init ++ [last])%list /\ Forall character init /\ character last /\
    isspace last = false.
Proof.
  intros [d' H|d' H|d' H|t c v H E|v H].
  - assert (H' : 0 <= d' <= 9) by lia.
    each_digit d' H'; try lia; (split; [reflexivity|]);
      (eexists [], _; split; [reflexivity|]); (split; [constructor|]);
      (split; [discriminate | reflexivity]).
  - assert (H' : 0 <= d' <= 9) by lia.
    each_digit d' H'; try lia; (split; [reflexivity|]);
      (eexists ["0"], _; split; [reflexivity|]);
      (split; [repeat constructor; discriminate|]);
      (split; [discriminate | reflexivity]).
  - assert (H' : 0 <= d' <= 9) by lia.
    each_digit d' H'; try lia; (split; [reflexivity|]);
      (eexists [" "], _; split; [reflexivity|]);
      (split; [repeat constructor; discriminate|]);
      (split; [discriminate | reflexivity]).
  - destruct (digit_spec t ltac:(lia)) as (_ & Ct & Lt & _).
    destruct (decimal_spec c v E) as (_ & Cc & Sc & _).
    split; [exact Lt|]. exists [digit t], c.
    split; [|split; [now repeat constructor | now split]].
    change (digit t ++ c) with (join "" [digit t; c]).
    apply chars_join. now repeat constructor.
  - assert (E : v = 0 \/ v = 1) by lia.
    destruct E as [->| ->]; (split; [reflexivity|]);
      (eexists ["3"], _; split; [reflexivity|]);
      (split; [repeat constructor; discriminate|]);
      (split; [discriminate | reflexivity]).
Qed.

(** The matcher on the texts of the three groups. *)
Lemma match_year {A : Type} (c1 c2 c3 c4 : string) (v1 v2 v3 v4 : Z) (rest : list string)
  (k : list string -> list string -> option A) :
  decimal c1 = Some v1 -> decimal c2 = Some v2 ->
  decimal c3 = Some v3 -> decimal c4 = Some v4 ->
  match_alternatives regex_Y (c1 :: c2 :: c3 :: c4 :: rest) k = k [c1; c2; c3; c4] rest.
Proof.
  intros E1 E2 E3 E4. cbn [regex_Y match_alternatives match_classes].
  unfold isdecimal. rewrite E1, E2, E3, E4.
  destruct (k [c1; c2; c3; c4] rest); reflexivity.
Qed.

Lemma match_dash {A : Type} (rest : list string)
  (k : list string -> list string -> option A) :
  match_alternatives regex_dash ("-" :: rest) k = k ["-"] rest.
Proof.
  cbn [regex_dash match_alternatives match_classes].
  change (exactly "-" "-") with true. cbv iota.
  destruct (k ["-"] rest); reflexivity.
Qed.

Lemma match_month {A : Type} (M : string) (m : Z) (rest : list string)
  (k : list string -> list string -> list string -> option A) :
  month_text M m ->
  match_alternatives regex_m (chars M ++ "-" :: rest)
    (fun text l => match_alternatives regex_dash l (k text))
  = k (chars M) ["-"] rest.
Proof.
  intros [m' H|m' H|m' H].
  - assert (H' : 0 <= m' <= 9) by lia.
    each_digit m' H'; try lia; cbn; destruct (k _ _ _); reflexivity.
  - assert (H' : 0 <= m' <= 9) by lia.
    each_digit m' H'; try lia; cbn; destruct (k _ _ _); reflexivity.
  - assert (E : m' = 10 \/ m' = 11 \/ m' = 12) by lia.
    destruct E as [->|[->| ->]]; cbn; destruct (k _ _ _); reflexivity.
Qed.

Lemma match_day {A : Type} (D : string) (d : Z) (f : list string -> list string -> A) :
  day_text D d ->
  match_alternatives regex_d (chars D) (fun text rest => Some (f text rest))
  = Some (f (chars D) []).
Proof.
  intros [d' H|d' H|d' H|t c v H E|v H].
  - assert (H' : 0 <= d' <= 9) by lia. each_digit d' H'; try lia; reflexivity.
  - assert (H' : 0 <= d' <= 9) by lia. each_digit d' H'; try lia; reflexivity.
  - assert (H' : 0 <= d' <= 9) by lia. each_digit d' H'; try lia; reflexivity.
  - destruct (digit_spec t ltac:(lia)) as (_ & Ct & _).
    destruct (decimal_spec c v E) as (_ & Cc & _).
    change (digit t ++ c) with (join "" [digit t; c]).
    rewrite chars_join by now repeat constructor.
    assert (Et : t = 1 \/ t = 2) by lia.
    destruct Et as [->| ->]; cbn [regex_d match_alternatives match_classes];
      unfold isdecimal; rewrite E; reflexivity.
  - assert (E : v = 0 \/ v = 1) by lia. destruct E as [->| ->]; reflexivity.
Qed.

End ParserFacts.

Section DateParsing.
Import Text Calendar Requests.

(** The characters of a date text. *)
Lemma date_chars (Y M D : string) (y m d : Z) :
  year_text Y y -> month_text M m -> day_text D d ->
  exists c1 c2 c3 c4 v1 v2 v3 v4,
    Y = join "" [c1; c2; c3; c4] /\
    decimal c1 = Some v1 /\ decimal c2 = Some v2 /\
    decimal c3 = Some v3 /\ decimal c4 = Some v4 /\
    chars (Y ++ "-" ++ M ++ "-" ++ D)
    = (c1 :: c2 :: c3 :: c4 :: "-" :: chars M ++ "-" :: chars D)%list.
Proof.
  intros HY HM HD.
  destruct (year_text_chars Y y HY) as (c1 & c2 & c3 & c4 & v1 & v2 & v3 & v4 &
                                        -> & E1 & E2 & E3 & E4).
  exists c1, c2, c3, c4, v1, v2, v3, v4.
  split; [reflexivity|]. split; [exact E1|]. split; [exact E2|].
  split; [exact E3|]. split; [exact E4|].
  destruct (decimal_spec c1 v1 E1) as (_ & C1 & _).
  destruct (decimal_spec c2 v2 E2) as (_ & C2 & _).
  destruct (decimal_spec c3 v3 E3) as (_ & C3 & _).
  destruct (decimal_spec c4 v4 E4) as (_ & C4 & _).
  destruct (month_text_chars M m HM) as (LM & NM & _).
  destruct (day_text_chars D d HD) as (LD & _).
  assert (L5 : lead ("-" ++ D)) by reflexivity.
  assert (L4 : lead (M ++ "-" ++ D)) by now apply lead_app.
  assert (L3 : lead ("-" ++ M ++ "-" ++ D)) by reflexivity.
  assert (L2 : lead (c4 ++ "-" ++ M ++ "-" ++ D)).
  { destruct (character_chars c4 C4) as (_ & L & N). now apply lead_app. }
  assert (L1 : lead (c3 ++ c4 ++ "-" ++ M ++ "-" ++ D)).
  { destruct (character_chars c3 C3) as (_ & L & N). now apply lead_app. }
  assert (L0 : lead (c2 ++ c3 ++ c4 ++ "-" ++ M ++ "-" ++ D)).
  { destruct (character_chars c2 C2) as (_ & L & N). now apply lead_app. }
  change (join "" [c1; c2; c3; c4]) with (c1 ++ c2 ++ c3 ++ c4).
  rewrite !append_assoc.
  rewrite (chars_cons c1) by assumption. rewrite (chars_cons c2) by assumption.
  rewrite (chars_cons c3) by assumption. rewrite (chars_cons c4) by assumption.
  rewrite (chars_cons "-") by (try assumption; discriminate).
  rewrite (chars_app M) by assumption.
  rewrite (chars_cons "-") by (try assumption; discriminate).
  reflexivity.
Qed.

(** [strptime] takes exactly the texts of the calendar dates. *)
Lemma strptime_date_Ok (data_string : string) (o : date) :
  strptime_date data_string = Ok o <->
  exists Y M D y m d,
    data_string = Y ++ "-" ++ M ++ "-" ++ D /\
    year_text Y y /\ month_text M m /\ day_text D d /\
    calendar_date y m d /\ o = _ymd2ord y m d.
Proof.
  unfold strptime_date. split.
  - destruct (match_format (chars data_string)) as [[[[Y M] D] rest]|] eqn:E;
      [|discriminate].
    destruct rest as [|x rest]; [|discriminate].
    unfold match_format in E.
    apply match_alternatives_Some in E. destruct E as (pY & tY & r1 & IY & MY & E).
    apply match_alternatives_Some in E. destruct E as (p1 & t1 & r2 & I1 & M1 & E).
    apply match_alternatives_Some in E. destruct E as (pm & tm & r3 & Im & Mm & E).
    apply match_alternatives_Some in E. destruct E as (p2 & t2 & r4 & I2 & M2 & E).
    apply match_alternatives_Some in E. destruct E as (pd & td & r5 & Id & Md & E).
    injection E as <- <- <- ->.
    apply match_classes_Some in MY, M1, Mm, M2, Md.
    destruct MY as [EY FY], M1 as [E1 F1], Mm as [Em Fm], M2 as [E2 F2], Md as [Ed Fd].
    apply (regex_dash_sound p1 t1 I1) in F1. apply (regex_dash_sound p2 t2 I2) in F2.
    destruct (regex_Y_sound pY tY IY FY) as [y HY].
    destruct (regex_m_sound pm tm Im Fm) as [m HM].
    destruct (regex_d_sound pd td Id Fd) as [d HD].
    rewrite (year_text_int _ _ HY), (month_text_int _ _ HM), (day_text_int _ _ HD).
    cbn [bind]. intros Hn. apply new_date_Ok in Hn. destruct Hn as [Hc ->].
    exists (join "" tY), (join "" tm), (join "" td), y, m, d.
    split; [|auto 10].
    rewrite <- (join_chars data_string), EY, E1, Em, E2, Ed, F1, F2.
    rewrite app_nil_r, !join_app. reflexivity.
  - intros (Y & M & D & y & m & d & -> & HY & HM & HD & Hc & ->).
    destruct (date_chars Y M D y m d HY HM HD)
      as (c1 & c2 & c3 & c4 & v1 & v2 & v3 & v4 & EY & E1 & E2 & E3 & E4 & ->).
    unfold match_format.
    rewrite (match_year c1 c2 c3 c4 v1 v2 v3 v4) by assumption.
    rewrite match_dash.
    rewrite (match_month M m (chars D)
               (fun text _ l4 =>
                  match_alternatives regex_d l4
                    (fun d0 rest => Some (join "" [c1; c2; c3; c4], join "" text,
                                          join "" d0, rest))) HM).
    rewrite (match_day D d
               (fun d0 rest => (join "" [c1; c2; c3; c4], join "" (chars M),
                                join "" d0, rest)) HD).
    rewrite !join_chars, <- EY.
    rewrite (year_text_int _ _ HY), (month_text_int _ _ HM), (day_text_int _ _ HD).
    cbn [bind]. apply new_date_Ok. now split.
Qed.

Lemma strptime_date_raises (s : string) (e : exn) :
  strptime_date s = Raise e -> exists msg, e = ValueError msg.
Proof.
  unfold strptime_date.
  destruct (match_format (chars s)) as [[[[Y m] d] rest]|];
    [|intros [= <-]; eexists; reflexivity].
  destruct rest; [|intros [= <-]; eexists; reflexivity].
  destruct (int Y) as [y|ey] eqn:EY; cbn [bind]; [|intros [= <-]; exact (int_raises _ _ EY)].
  destruct (int m) as [mo|em] eqn:EM; cbn [bind]; [|intros [= <-]; exact (int_raises _ _ EM)].
  destruct (int d) as [da|ed] eqn:ED; cbn [bind]; [|intros [= <-]; exact (int_raises _ _ ED)].
  apply new_date_raises.
Qed.

(** [_parse_date] returns a date or raises its one [ValueError]. *)
Lemma _parse_date_cases (value : string) :
  (exists d, _parse_date value = Ok d) \/
  _parse_date value = Raise (ValueError "날짜는 YYYY-MM-DD 형식으로 입력해주세요.").
Proof.
  unfold _parse_date. destruct (strptime_date (strip value)) as [d|e] eqn:E.
  - left. now exists d.
  - right. destruct (strptime_date_raises _ _ E) as [msg ->]. reflexivity.
Qed.

(** [_parse_date] takes exactly the texts that write a calendar date, and
    returns that date. *)
Lemma _parse_date_Ok (value : string) (o : date) :
  _parse_date value = Ok o <->
  exists y m d, writes value y m d /\ o = _ymd2ord y m d.
Proof.
  split.
  - unfold _parse_date. destruct (strptime_date (strip value)) as [o'|e] eqn:E.
    + intros [= ->]. apply strptime_date_Ok in E.
      destruct E as (Y & M & D & y & m & d & E & HY & HM & HD & Hc & ->).
      exists y, m, d. split; [|reflexivity].
      destruct (strip_split value) as (l & r & Ev & Hl & Hr).
      exists l, Y, M, D, r. split; [|auto 10].
      rewrite Ev at 1. rewrite E. now rewrite !append_assoc.
    + destruct e; discriminate.
  - intros (y & m & d & (l & Y & M & D & r & -> & Hl & Hr & HY & HM & HD & Hc) & ->).
    destruct (date_chars Y M D y m d HY HM HD)
      as (c1 & c2 & c3 & c4 & v1 & v2 & v3 & v4 & EY & E1 & E2 & E3 & E4 & Ec).
    destruct (day_text_chars D d HD) as (_ & init & last & Ed & Ci & Cl & Sl).
    destruct (month_text_chars M m HM) as (_ & _ & CM).
    destruct (decimal_spec c1 v1 E1) as (_ & C1 & S1 & _).
    destruct (decimal_spec c2 v2 E2) as (_ & C2 & _).
    destruct (decimal_spec c3 v3 E3) as (_ & C3 & _).
    destruct (decimal_spec c4 v4 E4) as (_ & C4 & _).
    set (middle := (c2 :: c3 :: c4 :: "-" :: chars M ++ "-" :: init)%list).
    assert (Ecore : Y ++ "-" ++ M ++ "-" ++ D = join "" (c1 :: middle ++ [last])).
    { rewrite <- (join_chars (Y ++ "-" ++ M ++ "-" ++ D)), Ec, Ed. subst middle.
      cbn [List.app]. now rewrite <- !app_assoc. }
    assert (Es : strip (l ++ Y ++ "-" ++ M ++ "-" ++ D ++ r) = Y ++ "-" ++ M ++ "-" ++ D).
    { replace (l ++ Y ++ "-" ++ M ++ "-" ++ D ++ r)
        with (l ++ (Y ++ "-" ++ M ++ "-" ++ D) ++ r) by now rewrite !append_assoc.
      rewrite Ecore. apply strip_core; try assumption.
      subst middle. repeat (constructor; [assumption || discriminate|]).
      apply Forall_app. split; [exact CM|]. constructor; [discriminate | exact Ci]. }
    unfold _parse_date. rewrite Es.
    assert (Hs : strptime_date (Y ++ "-" ++ M ++ "-" ++ D) = Ok (_ymd2ord y m d)).
    { apply strptime_date_Ok. exists Y, M, D, y, m, d. auto 10. }
    now rewrite Hs.
Qed.

Lemma _parse_date_refused (value : string) :
  ~ date_text value ->
  _parse_date value = Raise (ValueError "날짜는 YYYY-MM-DD 형식으로 입력해주세요.").
Proof.
  intros H. destruct (_parse_date_cases value) as [[o Ho]|Hr]; [|exact Hr].
  apply _parse_date_Ok in Ho. destruct Ho as (y & m & d & Hw & _).
  elim H. now exists y, m, d.
Qed.

End DateParsing.

(** ** Request normalisation *)

Section CaloriesFacts.
Import Text Calendar Requests.

Lemma In_Nrange (lo : N) (n : nat) (c : N) :
  (lo <= c < lo + N.of_nat n)%N -> In c (Nrange lo n).
Proof.
  revert lo. induction n as [|n IH]; intros lo H; [lia|]. cbn [Nrange].
  destruct (N.eq_dec lo c) as [->|Hne]; [now left|]. right. apply IH. lia.
Qed.

Lemma within_expand (ranges : list (N * N)) (c : N) :
  within ranges c = true -> In c (expand ranges).
Proof.
  unfold within, expand. intros H. apply existsb_exists in H.
  destruct H as ([lo hi] & Hin & Hc). apply in_flat_map. exists (lo, hi).
  split; [exact Hin|]. cbn [fst snd] in *. apply andb_prop in Hc. destruct Hc as [H1 H2].
  apply N.leb_le in H1, H2. apply In_Nrange. lia.
Qed.

Lemma whitespace_table :
  forallb (fun c => negb (within OTHER_DIGITS c)) (expand WHITESPACE) = true.
Proof. vm_compute. reflexivity. Qed.

(** No white space is a digit. *)
Lemma isspace_not_digit (ch : string) : isspace ch = true -> isdigit ch = false.
Proof.
  intros H. unfold isdigit.
  assert (Hd : isdecimal ch = false).
  { unfold isdecimal. destruct (decimal ch) as [v|] eqn:E; [|reflexivity].
    destruct (decimal_spec ch v E) as (_ & _ & Hs & _). congruence. }
  rewrite Hd. cbn [orb]. unfold isspace in H. destruct (ord ch) as [c|]; [|reflexivity].
  apply within_expand in H. pose proof whitespace_table as T.
  rewrite forallb_forall in T. apply T in H. now apply negb_true_iff.
Qed.

Lemma filter_spaces (l : list string) : spaces l -> filter isdigit l = [].
Proof.
  induction 1 as [|ch l Hc _ IH]; [reflexivity|].
  cbn [filter]. now rewrite (isspace_not_digit ch Hc).
Qed.

(** Trimming removes no digit. *)
Lemma filter_strip (s : string) :
  filter isdigit (chars (strip s)) = filter isdigit (chars s).
Proof.
  rewrite chars_strip.
  destruct (lskip_split (chars s)) as (L & E & HL).
  destruct (rskip_split (lskip (chars s))) as (R & E' & HR).
  rewrite E at 2. rewrite E' at 2.
  rewrite !filter_app, (filter_spaces L HL), (filter_spaces R HR), app_nil_r.
  reflexivity.
Qed.

Lemma digits_of_chars (s : string) (digits : list Z) :
  digits_of s digits ->
  lead s /\
  exists cs, filter isdigit (chars s) = cs /\
             Forall2 (fun ch v => decimal ch = Some v) cs digits.
Proof.
  induction 1 as [|ch s v digits Hd _ (Hl & cs & Hf & Hc)
                  |ch s digits Hch Hn _ (Hl & cs & Hf & Hc)].
  - split; [exact I|]. exists []. split; [reflexivity | constructor].
  - destruct (decimal_spec ch v Hd) as (_ & Hch & _).
    destruct (character_chars ch Hch) as (_ & L & N).
    split; [now apply lead_app|].
    assert (Hi : isdigit ch = true) by (unfold isdigit, isdecimal; now rewrite Hd).
    exists (ch :: cs). rewrite chars_cons by assumption. cbn [filter]. rewrite Hi.
    split; [now rewrite Hf | now constructor].
  - destruct (character_chars ch Hch) as (_ & L & N).
    split; [now apply lead_app|].
    exists cs. rewrite chars_cons by assumption. cbn [filter]. rewrite Hn.
    now split.
Qed.

Lemma digitless_chars (s : string) : digitless s -> filter isdigit (chars s) = [].
Proof.
  intros H. apply every_chars in H.
  induction H as [|ch l [_ Hn] _ IH]; [reflexivity|].
  cbn [filter]. now rewrite Hn.
Qed.

Lemma truthy_false (s : string) : truthy s = false <-> s = "".
Proof. destruct s; cbn; split; congruence. Qed.

Lemma truthy_join (ch : string) (l : list string) :
  character ch -> truthy (join "" (ch :: l)) = true.
Proof.
  intros H. rewrite join_cons. destruct (character_chars ch H) as (_ & _ & N).
  destruct ch; [congruence | reflexivity].
Qed.

Lemma _parse_calories_cases (value : string) :
  (exists c, _parse_calories value = Ok c) \/ is_ValueError (_parse_calories value).
Proof.
  unfold _parse_calories.
  destruct (negb (truthy (strip value))); [left; eexists; reflexivity|].
  destruct (negb (truthy (join "" (filter isdigit (chars (strip value))))));
    [right; eexists; reflexivity|].
  destruct (int (join "" (filter isdigit (chars (strip value))))) as [n|e] eqn:E;
    cbn [bind].
  - destruct (negb _); [right | left]; eexists; reflexivity.
  - right. destruct (int_raises _ _ E) as [msg ->]. eexists; reflexivity.
Qed.

(** Blank calorie text is no calorie target, and no error. *)
Lemma _parse_calories_blank (value : string) :
  blank value -> _parse_calories value = Ok None.
Proof.
  intros H. unfold _parse_calories. apply strip_empty in H. rewrite H. reflexivity.
Qed.

(** Calorie text that is not blank and has no digit is refused. *)
Lemma _parse_calories_digitless (value : string) :
  ~ blank value -> digitless value -> _parse_calories value = Raise no_digits_error.
Proof.
  intros Hb Hd. unfold _parse_calories.
  destruct (truthy (strip value)) eqn:Et; cbn [negb].
  - rewrite filter_strip, (digitless_chars value Hd). reflexivity.
  - apply truthy_false, strip_empty in Et. contradiction.
Qed.

(** Calorie text with decimal digits: the number they write is the target
    when it lies within 800 and 4000. *)
Lemma _parse_calories_digits (value : string) (digits : list Z) :
  digits_of value digits -> digits <> [] ->
  _parse_calories value
  = if 4300 <? Z.of_nat (List.length digits)
    then Raise (ValueError "Exceeds the limit (4300 digits) for integer string conversion")
    else if negb ((800 <=? value_of digits) && (value_of digits <=? 4000))
         then Raise (ValueError "칼로리는 800kcal 이상 4000kcal 이하 범위로 입력해주세요.")
         else Ok (Some (value_of digits)).
Proof.
  intros H Hn. destruct (digits_of_chars value digits H) as (_ & cs & Hf & Hc).
  assert (Hcs : exists ch cs', cs = ch :: cs' /\ character ch).
  { destruct Hc as [|ch v cs' ds Hd _]; [congruence|].
    exists ch, cs'. split; [reflexivity|]. now destruct (decimal_spec ch v Hd) as (_ & C & _). }
  destruct Hcs as (ch & cs' & Ecs & Cch).
  unfold _parse_calories.
  destruct (truthy (strip value)) eqn:Et; cbn [negb].
  - rewrite filter_strip, Hf, Ecs, (truthy_join ch cs' Cch). cbn [negb].
    rewrite <- Ecs, (int_decimal cs digits Hc) by (rewrite Ecs; discriminate).
    destruct (4300 <? Z.of_nat (List.length digits)); reflexivity.
  - apply truthy_false, strip_empty, blank_spaces, filter_spaces in Et.
    rewrite Et in Hf. congruence.
Qed.

End CaloriesFacts.

Section Normalisation.
Import Text Calendar Requests.

(** The calendar on known days: the ordinals of [date.toordinal] and the
    texts [strptime] takes and refuses. *)
Example ordinal_of_known_days :
  new_date 1 1 1 = Ok 1 /\
  new_date 1970 1 1 = Ok 719163 /\
  new_date 2024 2 29 = Ok 738945 /\
  new_date 2024 5 1 = Ok Sample.may_1st_2024 /\
  new_date 9999 12 31 = Ok _MAXORDINAL.
Proof. repeat split. Qed.

Example known_days_of_ordinal :
  _ord2ymd 1 = (1, 1, 1) /\
  _ord2ymd 719163 = (1970, 1, 1) /\
  _ord2ymd 738945 = (2024, 2, 29) /\
  _ord2ymd 730485 = (2000, 12, 31) /\
  _ord2ymd _MAXORDINAL = (9999, 12, 31).
Proof. repeat split. Qed.

Example _parse_date_accepts :
  _parse_date "2024-05-01" = Ok Sample.may_1st_2024 /\
  _parse_date "  2024-05-01 " = Ok Sample.may_1st_2024 /\
  _parse_date "2024-5-1" = Ok Sample.may_1st_2024 /\
  _parse_date "2024-05- 1" = Ok Sample.may_1st_2024 /\
  _parse_date "　2024-05-01 " = Ok Sample.may_1st_2024 /\
  _parse_date "２０２４-05-01" = Ok Sample.may_1st_2024 /\
  _parse_date "2024-02-29" = Ok 738945.
Proof. repeat split. Qed.

Example _parse_date_refuses :
  is_ValueError (_parse_date "2024/05/01") /\
  is_ValueError (_parse_date "2024-05-32") /\
  is_ValueError (_parse_date "2023-02-29") /\
  is_ValueError (_parse_date "2024-13-01") /\
  is_ValueError (_parse_date "24-05-01") /\
  is_ValueError (_parse_date "2024-05-01T00:00") /\
  is_ValueError (_parse_date "2024-０５-01") /\
  is_ValueError (_parse_date "0000-01-01") /\
  is_ValueError (_parse_date "").
Proof. vm_compute. repeat split; eexists; reflexivity. Qed.

(** Digits of other scripts count as digits; a superscript is a digit to
    [isdigit] and none to [int]. *)
Example _parse_calories_scripts :
  _parse_calories "1800kcal" = Ok (Some 1800) /\
  _parse_calories "１８００" = Ok (Some 1800) /\
  _parse_calories "　" = Ok None /\
  is_ValueError (_parse_calories "1800²") /\
  is_ValueError (_parse_calories "kcal").
Proof. vm_compute. repeat split; eexists; reflexivity. Qed.

Lemma truthy_strip (s : string) : truthy (strip s) = false <-> blank s.
Proof. rewrite truthy_false. apply strip_empty. Qed.

Lemma writes_parses (t : string) (y m d : Z) :
  writes t y m d -> _parse_date t = Ok (_ymd2ord y m d) /\ calendar_date y m d.
Proof.
  intros H. split.
  - apply _parse_date_Ok. now exists y, m, d.
  - destruct H as (l & Y & M & D & r & _ & _ & _ & _ & _ & _ & Hc). exact Hc.
Qed.

Lemma not_earlier (y m d y' m' d' : Z) :
  calendar_date y m d -> calendar_date y' m' d' ->
  (~ earlier (y', m', d') (y, m, d) <-> _ymd2ord y m d <= _ymd2ord y' m' d').
Proof.
  intros H H'. rewrite (_ymd2ord_earlier y' m' d' y m d H' H). lia.
Qed.

(** The outcome of [normalize_plan_request], stage by stage. *)
Lemma normalize_plan_request_outcome self profile pid start_s end_s cal pref avoid snack notes :
  let outcome :=
    normalize_plan_request self profile pid start_s end_s cal pref avoid snack notes in
  match _parse_date start_s with
  | Raise e => outcome = Raise e
  | Ok s =>
    match _parse_date end_s with
    | Raise e => outcome = Raise e
    | Ok e =>
      match _parse_calories cal with
      | Raise x => outcome = Raise x
      | Ok c =>
        if e <? s then outcome = Raise date_order_error
        else exists r, outcome = Ok r /\ start_date r = s /\ end_date r = e /\
                       target_calories r = c
      end
    end
  end.
Proof.
  cbv zeta. unfold normalize_plan_request.
  destruct (_parse_date start_s) as [s|]; cbn [bind]; [|reflexivity].
  destruct (_parse_date end_s) as [e|]; cbn [bind]; [|reflexivity].
  destruct (_parse_calories cal) as [c|]; cbn [bind]; [|reflexivity].
  unfold new_MealPlanRequest, __post_init__. cbn [start_date end_date].
  destruct (e <? s); cbn [bind]; [reflexivity|].
  eexists. split; [reflexivity|]. cbn. auto.
Qed.

Lemma normalize_plan_request_Ok self profile pid start_s end_s cal pref avoid snack notes r :
  normalize_plan_request self profile pid start_s end_s cal pref avoid snack notes = Ok r ->
  _parse_date start_s = Ok (start_date r) /\
  _parse_date end_s = Ok (end_date r) /\
  _parse_calories cal = Ok (target_calories r) /\
  start_date r <= end_date r.
Proof.
  intros H.
  pose proof (normalize_plan_request_outcome
                self profile pid start_s end_s cal pref avoid snack notes) as Ho.
  cbv zeta in Ho. rewrite H in Ho.
  destruct (_parse_date start_s) as [s|]; [|discriminate].
  destruct (_parse_date end_s) as [e|]; [|discriminate].
  destruct (_parse_calories cal) as [c|]; [|discriminate].
  destruct (e <? s) eqn:E; [discriminate|].
  destruct Ho as (r' & [= <-] & <- & <- & <-). apply Z.ltb_ge in E. auto.
Qed.

Lemma normalize_plan_request_Raise self profile pid start_s end_s cal pref avoid snack notes x :
  normalize_plan_request self profile pid start_s end_s cal pref avoid snack notes = Raise x ->
  x = date_format_error \/ x = date_order_error \/ _parse_calories cal = Raise x.
Proof.
  intros H.
  pose proof (normalize_plan_request_outcome
                self profile pid start_s end_s cal pref avoid snack notes) as Ho.
  cbv zeta in Ho. rewrite H in Ho. unfold date_format_error, date_order_error.
  destruct (_parse_date_cases start_s) as [[s Es]|Es]; rewrite Es in Ho;
    [|left; congruence].
  destruct (_parse_date_cases end_s) as [[e Ee]|Ee]; rewrite Ee in Ho;
    [|left; congruence].
  destruct (_parse_calories cal) as [c|y]; [|right; right; congruence].
  destruct (e <? s); [right; left; unfold date_order_error in Ho; congruence|].
  destruct Ho as (r & Hr & _). discriminate.
Qed.

(** Whatever [normalize_plan_request] raises is a [ValueError]. *)
Lemma normalize_plan_request_cases self profile pid start_s end_s cal pref avoid snack notes :
  let outcome :=
    normalize_plan_request self profile pid start_s end_s cal pref avoid snack notes in
  returns outcome \/ is_ValueError outcome.
Proof.
  cbv zeta.
  destruct (normalize_plan_request self profile pid start_s end_s cal pref avoid snack notes)
    as [r|x] eqn:E; [left; now exists r|right].
  destruct (normalize_plan_request_Raise _ _ _ _ _ _ _ _ _ _ _ E) as [->|[->|Hc]];
    try (eexists; reflexivity).
  destruct (_parse_calories_cases cal) as [[c Hc']|[msg Hm]]; [congruence|].
  exists msg. congruence.
Qed.

Lemma not_returned_is_ValueError self profile pid start_s end_s cal pref avoid snack notes :
  (forall r,
      normalize_plan_request self profile pid start_s end_s cal pref avoid snack notes
      <> Ok r) ->
  is_ValueError
    (normalize_plan_request self profile pid start_s end_s cal pref avoid snack notes).
Proof.
  intros H.
  destruct (normalize_plan_request_cases
              self profile pid start_s end_s cal pref avoid snack notes) as [[r Hr]|Hv];
    [elim (H r Hr) | exact Hv].
Qed.

(** Texts that write a period, and a calorie text the parser takes, make a
    request. *)
Lemma normalize_plan_request_accepted
  self profile pid start_s end_s cal pref avoid snack notes y m d y' m' d' c :
  writes start_s y m d -> writes end_s y' m' d' -> ~ earlier (y', m', d') (y, m, d) ->
  _parse_calories cal = Ok c ->
  exists r,
    normalize_plan_request self profile pid start_s end_s cal pref avoid snack notes = Ok r /\
    target_calories r = c /\
    start_date r = _ymd2ord y m d /\ end_date r = _ymd2ord y' m' d'.
Proof.
  intros Hs He Hn Hc.
  destruct (writes_parses _ _ _ _ Hs) as [Ps Cs].
  destruct (writes_parses _ _ _ _ He) as [Pe Ce].
  apply (not_earlier y m d y' m' d' Cs Ce) in Hn.
  pose proof (normalize_plan_request_outcome
                self profile pid start_s end_s cal pref avoid snack notes) as Ho.
  cbv zeta in Ho. rewrite Ps, Pe, Hc in Ho.
  destruct (Z.ltb_spec (_ymd2ord y' m' d') (_ymd2ord y m d)); [lia|].
  destruct Ho as (r & Hr & H1 & H2 & H3). exists r. auto.
Qed.

(** C6, as worded, fails: a month and a day of one digit, and a day after a
    space, are not of the strict form YYYY-MM-DD, and the call returns. *)
Lemma normalize_plan_request_loose_dates :
  ~ strict_date_text "2024-5-1" /\
  ~ strict_date_text "2024-05- 3" /\
  exists r,
    normalize_plan_request Sample.normalizer MEDICAL 1 "2024-5-1" "2024-05- 3" "1800kcal"
      [] [] None "" = Ok r /\
    start_date r = Sample.may_1st_2024 /\ end_date r = Sample.may_1st_2024 + 2.
Proof.
  split; [|split].
  - intros (y1 & y2 & y3 & y4 & m1 & m2 & d1 & d2 & E & _). discriminate E.
  - intros (y1 & y2 & y3 & y4 & m1 & m2 & d1 & d2 & E & F).
    injection E as <- <- <- <- <- <- <- <-.
    do 6 (apply Forall_inv_tail in F). apply Forall_inv in F.
    destruct F as [F _]. now apply F.
  - eexists. split; [reflexivity|]. split; reflexivity.
Qed.

(** C6, amended.  A date text is taken when, trimmed, it is a year of four
    decimal digits, a month and a day, each as one or two digits, with
    hyphens between them, and names a calendar date.  With such a period,
    start not after end, [normalize_plan_request] with calorie text
    "1800kcal" returns a request with [target_calories = 1800], and more
    generally with the number the decimal digits of the calorie text write,
    when that lies within 800 and 4000.  It raises a [ValueError] when the
    calorie text is not blank and has no digit, when the number its digits
    write is outside 800..4000 (so for "700kcal"), when a date text is not
    taken, and when the start date is after the end date (so for
    "2024-05-03" to "2024-05-01"). *)
Theorem normalize_plan_request_validation
  self profile pid start_s end_s cal pref avoid snack notes :
  (forall y m d y' m' d',
      writes start_s y m d -> writes end_s y' m' d' -> ~ earlier (y', m', d') (y, m, d) ->
      (exists r,
          normalize_plan_request self profile pid start_s end_s "1800kcal"
            pref avoid snack notes = Ok r /\
          target_calories r = Some 1800) /\
      (forall digits,
          digits_of cal digits -> digits <> [] -> (List.length digits <= 4300)%nat ->
          800 <= value_of digits <= 4000 ->
          exists r,
            normalize_plan_request self profile pid start_s end_s cal
              pref avoid snack notes = Ok r /\
            target_calories r = Some (value_of digits) /\
            start_date r = _ymd2ord y m d /\ end_date r = _ymd2ord y' m' d')) /\
  (~ blank cal -> digitless cal ->
   is_ValueError
     (normalize_plan_request self profile pid start_s end_s cal pref avoid snack notes)) /\
  (forall digits,
      digits_of cal digits -> digits <> [] ->
      value_of digits < 800 \/ 4000 < value_of digits ->
      is_ValueError
        (normalize_plan_request self profile pid start_s end_s cal pref avoid snack notes)) /\
  is_ValueError
    (normalize_plan_request self profile pid start_s end_s "700kcal" pref avoid snack notes) /\
  (~ date_text start_s \/ ~ date_text end_s ->
   is_ValueError
     (normalize_plan_request self profile pid start_s end_s cal pref avoid snack notes)) /\
  (forall y m d y' m' d',
      writes start_s y m d -> writes end_s y' m' d' -> earlier (y', m', d') (y, m, d) ->
      is_ValueError
        (normalize_plan_request self profile pid start_s end_s cal pref avoid snack notes)) /\
  is_ValueError
    (normalize_plan_request self profile pid "2024-05-03" "2024-05-01" cal
       pref avoid snack notes).
Proof.
  split; [|split; [|split; [|split; [|split; [|split]]]]].
  - intros y m d y' m' d' Hs He Hn. split.
    + destruct (normalize_plan_request_accepted
                  self profile pid start_s end_s "1800kcal" pref avoid snack notes
                  y m d y' m' d' (Some 1800) Hs He Hn eq_refl) as (r & Hr & Hc & _).
      now exists r.
    + intros digits Hd Hne Hlen Hv.
      apply (normalize_plan_request_accepted
               self profile pid start_s end_s cal pref avoid snack notes
               y m d y' m' d' (Some (value_of digits)) Hs He Hn).
      rewrite (_parse_calories_digits cal digits Hd Hne).
      destruct (Z.ltb_spec 4300 (Z.of_nat (List.length digits))); [lia|].
      destruct (Z.leb_spec 800 (value_of digits)); [|lia].
      destruct (Z.leb_spec (value_of digits) 4000); [|lia]. reflexivity.
  - intros Hnb Hnd. apply not_returned_is_ValueError. intros r Hr.
    apply normalize_plan_request_Ok in Hr. destruct Hr as (_ & _ & Hc & _).
    rewrite (_parse_calories_digitless cal Hnb Hnd) in Hc. discriminate.
  - intros digits Hd Hne Hout. apply not_returned_is_ValueError. intros r Hr.
    apply normalize_plan_request_Ok in Hr. destruct Hr as (_ & _ & Hc & _).
    rewrite (_parse_calories_digits cal digits Hd Hne) in Hc.
    destruct (4300 <? Z.of_nat (List.length digits)); [discriminate|].
    destruct (Z.leb_spec 800 (value_of digits)); cbn [andb negb] in Hc; [|discriminate].
    destruct (Z.leb_spec (value_of digits) 4000); cbn [andb negb] in Hc; [|discriminate].
    lia.
  - apply not_returned_is_ValueError. intros r Hr.
    apply normalize_plan_request_Ok in Hr. destruct Hr as (_ & _ & Hc & _).
    change (_parse_calories "700kcal")
      with (@Raise (option Z)
              (ValueError "칼로리는 800kcal 이상 4000kcal 이하 범위로 입력해주세요.")) in Hc.
    discriminate.
  - intros H. apply not_returned_is_ValueError. intros r Hr.
    apply normalize_plan_request_Ok in Hr. destruct Hr as (Hs & He & _).
    apply _parse_date_Ok in Hs, He.
    destruct Hs as (y & m & d & Hs & _). destruct He as (y' & m' & d' & He & _).
    destruct H as [H|H]; apply H; eexists _, _, _; eassumption.
  - intros y m d y' m' d' Hs He Hlt. apply not_returned_is_ValueError. intros r Hr.
    apply normalize_plan_request_Ok in Hr. destruct Hr as (Hs' & He' & _ & Hle).
    destruct (writes_parses _ _ _ _ Hs) as [Ps Cs].
    destruct (writes_parses _ _ _ _ He) as [Pe Ce].
    apply (_ymd2ord_earlier y' m' d' y m d Ce Cs) in Hlt.
    assert (_ymd2ord y m d = start_date r) by congruence.
    assert (_ymd2ord y' m' d' = end_date r) by congruence. lia.
  - apply not_returned_is_ValueError. intros r Hr.
    apply normalize_plan_request_Ok in Hr. destruct Hr as (Hs' & He' & _ & Hle).
    change (_parse_date "2024-05-03") with (@Ok date 739009) in Hs'.
    change (_parse_date "2024-05-01") with (@Ok date 739007) in He'.
    assert (739009 = start_date r) by congruence.
    assert (739007 = end_date r) by congruence. lia.
Qed.

Lemma writes_may_2024 (day : Z) :
  1 <= day <= 9 -> writes ("2024-05-0" ++ digit day) 2024 5 day.
Proof.
  intros H. exists "", "2024", "05", ("0" ++ digit day), "".
  split; [now rewrite append_empty|].
  split; [constructor|]. split; [constructor|].
  split; [exact (year_digits "2" "0" "2" "4" 2 0 2 4 eq_refl eq_refl eq_refl eq_refl)|].
  split; [apply (month_padded 5); lia|].
  split; [now apply day_padded|].
  unfold calendar_date. change (month_length 2024 5) with 31. lia.
Qed.

Lemma normalize_plan_request_validation_witness :
  (exists r,
      normalize_plan_request Sample.normalizer MEDICAL 1 "2024-05-01" "2024-05-03"
        "1800kcal" ["생선, 채소"] ["튀김"] (Some "포함") "운동 후 회복식 포함" = Ok r /\
      target_calories r = Some 1800) /\
  is_ValueError
    (normalize_plan_request Sample.normalizer MEDICAL 1 "2024-05-01" "2024-05-03"
       "약 칠백" ["생선, 채소"] ["튀김"] (Some "포함") "운동 후 회복식 포함") /\
  is_ValueError
    (normalize_plan_request Sample.normalizer MEDICAL 1 "2024-05-03" "2024-05-01"
       "4001" ["생선, 채소"] ["튀김"] (Some "포함") "운동 후 회복식 포함") /\
  is_ValueError
    (normalize_plan_request Sample.normalizer MEDICAL 1 "2024-05-03" "2024-05-01"
       "1800kcal" ["생선, 채소"] ["튀김"] (Some "포함") "운동 후 회복식 포함").
Proof.
  split; [|split; [|split]].
  - destruct (normalize_plan_request_validation
                Sample.normalizer MEDICAL 1 "2024-05-01" "2024-05-03" "1800kcal"
                ["생선, 채소"] ["튀김"] (Some "포함") "운동 후 회복식 포함") as (H & _).
    destruct (H 2024 5 1 2024 5 3) as [Hr _].
    + apply (writes_may_2024 1). lia.
    + apply (writes_may_2024 3). lia.
    + unfold earlier. lia.
    + exact Hr.
  - destruct (normalize_plan_request_validation
                Sample.normalizer MEDICAL 1 "2024-05-01" "2024-05-03" "약 칠백"
                ["생선, 채소"] ["튀김"] (Some "포함") "운동 후 회복식 포함")
      as (_ & H & _).
    apply H.
    + intros Hb. apply strip_empty in Hb. discriminate Hb.
    + change "약 칠백" with ("약" ++ " " ++ "칠" ++ "백" ++ "").
      repeat (constructor; [discriminate | reflexivity |]). constructor.
  - destruct (normalize_plan_request_validation
                Sample.normalizer MEDICAL 1 "2024-05-03" "2024-05-01" "4001"
                ["생선, 채소"] ["튀김"] (Some "포함") "운동 후 회복식 포함")
      as (_ & _ & H & _).
    apply (H [4; 0; 0; 1]).
    + change "4001" with ("4" ++ "0" ++ "0" ++ "1" ++ "").
      repeat (apply digits_decimal; [reflexivity|]). constructor.
    + discriminate.
    + right. unfold value_of. cbn. lia.
  - destruct (normalize_plan_request_validation
                Sample.normalizer MEDICAL 1 "2024-05-03" "2024-05-01" "1800kcal"
                ["생선, 채소"] ["튀김"] (Some "포함") "운동 후 회복식 포함")
      as (_ & _ & _ & _ & _ & H & _).
    apply (H 2024 5 3 2024 5 1).
    + apply (writes_may_2024 3). lia.
    + apply (writes_may_2024 1). lia.
    + unfold earlier. lia.
Defined.

(** C10. With blank calorie text the calorie parser returns [None] without
    raising.  So the request the call returns has no calorie target; the
    call returns whenever the two date texts write a period; and what it
    raises otherwise is one of the two date errors, never the error of a
    calorie text without digits. *)
Theorem normalize_plan_request_blank_calories
  self profile pid start_s end_s cal pref avoid snack notes :
  blank cal ->
  _parse_calories cal = Ok None /\
  (forall r,
      normalize_plan_request self profile pid start_s end_s cal pref avoid snack notes = Ok r ->
      target_calories r = None) /\
  (forall y m d y' m' d',
      writes start_s y m d -> writes end_s y' m' d' -> ~ earlier (y', m', d') (y, m, d) ->
      exists r,
        normalize_plan_request self profile pid start_s end_s cal pref avoid snack notes
        = Ok r /\
        target_calories r = None) /\
  (forall x,
      normalize_plan_request self profile pid start_s end_s cal pref avoid snack notes
      = Raise x ->
      x = ValueError "날짜는 YYYY-MM-DD 형식으로 입력해주세요." \/
      x = ValueError "기간의 시작일은 종료일보다 앞서야 합니다.") /\
  normalize_plan_request self profile pid start_s end_s cal pref avoid snack notes
  <> Raise (ValueError "칼로리 값에서 숫자를 추출할 수 없습니다.").
Proof.
  intros Hb. pose proof (_parse_calories_blank cal Hb) as Hc.
  assert (Hx : forall x,
             normalize_plan_request self profile pid start_s end_s cal pref avoid snack notes
             = Raise x ->
             x = date_format_error \/ x = date_order_error).
  { intros x Hx. apply normalize_plan_request_Raise in Hx.
    destruct Hx as [Hx|[Hx|Hx]]; [now left | now right | congruence]. }
  split; [exact Hc|]. split; [|split; [|split]].
  - intros r Hr. apply normalize_plan_request_Ok in Hr.
    destruct Hr as (_ & _ & Hc' & _). congruence.
  - intros y m d y' m' d' Hs He Hn.
    destruct (normalize_plan_request_accepted
                self profile pid start_s end_s cal pref avoid snack notes
                y m d y' m' d' None Hs He Hn Hc) as (r & Hr & Ht & _).
    now exists r.
  - exact Hx.
  - intros H. destruct (Hx _ H) as [E|E]; discriminate E.
Qed.

Lemma normalize_plan_request_blank_calories_witness :
  _parse_calories " 　" = Ok None /\
  exists r,
    normalize_plan_request Sample.normalizer MEDICAL 1 "2024-05-01" "2024-05-03" " 　"
      [] [] None "" = Ok r /\
    target_calories r = None.
Proof.
  assert (Hb : blank " 　").
  { change " 　" with (" " ++ "　" ++ "").
    repeat (constructor; [discriminate | reflexivity |]). constructor. }
  destruct (normalize_plan_request_blank_calories
              Sample.normalizer MEDICAL 1 "2024-05-01" "2024-05-03" " 　" [] [] None "" Hb)
    as (Hc & _ & Hr & _).
  split; [exact Hc|].
  apply (Hr 2024 5 1 2024 5 3).
  - apply (writes_may_2024 1). lia.
  - apply (writes_may_2024 3). lia.
  - unfold earlier. lia.
Defined.

End Normalisation.

Section Revision.
Import Text Calendar Requests.

Lemma unsupported_true (c : string) : unsupported c = true <-> ~ In c MEAL_LABELS.
Proof.
  unfold unsupported. rewrite negb_true_iff. split.
  - intros H Hin. assert (Ht : existsb (String.eqb c) MEAL_LABELS = true).
    { apply existsb_exists. exists c. split; [exact Hin | apply String.eqb_refl]. }
    congruence.
  - intros H. destruct (existsb _ _) eqn:E; [|reflexivity].
    apply existsb_exists in E. destruct E as (x & Hin & Heq).
    apply String.eqb_eq in Heq. subst x. contradiction.
Qed.

(** The date candidates are the tokens that are not blank. *)
Lemma date_candidates_In (date_tokens : list string) (token : string) :
  In token (date_candidates date_tokens) <-> In token date_tokens /\ ~ blank token.
Proof.
  unfold date_candidates. rewrite filter_In, <- truthy_strip.
  destruct (truthy (strip token)); intuition congruence.
Qed.

Lemma date_candidates_nil (date_tokens : list string) :
  date_candidates date_tokens = [] <-> (forall token, In token date_tokens -> blank token).
Proof.
  split.
  - intros H token Hin. apply truthy_strip.
    destruct (truthy (strip token)) eqn:E; [|reflexivity].
    assert (Hc : In token (date_candidates date_tokens))
      by (apply filter_In; now split).
    rewrite H in Hc. destruct Hc.
  - intros H. destruct (date_candidates date_tokens) as [|token l] eqn:E; [reflexivity|].
    assert (Hc : In token (date_candidates date_tokens)) by (rewrite E; now left).
    apply date_candidates_In in Hc. destruct Hc as [Hin Hn]. elim (Hn (H token Hin)).
Qed.

Lemma parse_dates_Ok (date_tokens : list string) (dates : list date) :
  parse_dates date_tokens = Ok dates <->
  Forall2 (fun token d => _parse_date token = Ok d) (date_candidates date_tokens) dates.
Proof.
  revert dates. unfold date_candidates.
  induction date_tokens as [|token tokens IH]; intros dates; cbn [parse_dates filter].
  - split.
    + intros [= <-]. constructor.
    + intros H. inversion H. reflexivity.
  - destruct (truthy (strip token)); [|apply IH].
    destruct (_parse_date token) as [d|e] eqn:Ed; cbn [bind].
    + destruct (parse_dates tokens) as [ds|e] eqn:Eds; cbn [bind].
      * split.
        -- intros [= <-]. constructor; [exact Ed | now apply IH].
        -- intros H. inversion H as [|t d' ts ds' Hd Hds]; subst.
           apply IH in Hds. congruence.
      * split; [discriminate|].
        intros H. inversion H as [|t d' ts ds' Hd Hds]; subst.
        apply IH in Hds. discriminate.
    + split; [discriminate|].
      intros H. inversion H as [|t d' ts ds' Hd Hds]; subst. congruence.
Qed.

Lemma parse_dates_Raise (date_tokens : list string) (e : exn) :
  parse_dates date_tokens = Raise e ->
  e = date_format_error /\
  exists token, In token (date_candidates date_tokens) /\ ~ date_text token.
Proof.
  unfold date_candidates.
  induction date_tokens as [|token tokens IH]; cbn [parse_dates filter]; [discriminate|].
  destruct (truthy (strip token)).
  - destruct (_parse_date_cases token) as [[d Ed]|Ed]; rewrite Ed; cbn [bind].
    + destruct (parse_dates tokens) as [ds|x]; cbn [bind]; [discriminate|].
      intros [= <-]. destruct (IH eq_refl) as (He & t & Hin & Hn).
      split; [exact He|]. exists t. split; [now right | exact Hn].
    + intros [= <-]. split; [reflexivity|].
      exists token. split; [now left|]. intros (y & m & d & Hw).
      destruct (writes_parses _ _ _ _ Hw) as [Hp _]. congruence.
  - exact IH.
Qed.

(** The two loops over the meal tokens stop at the first candidate outside
    the labels, and otherwise append every candidate. *)
Lemma check_labels_spec (labels acc : list string) :
  check_labels labels acc
  = match find unsupported (filter truthy (map strip labels)) with
    | Some c => Raise (unsupported_meal c)
    | None => Ok (acc ++ filter truthy (map strip labels))%list
    end.
Proof.
  revert acc. induction labels as [|label labels IH]; intros acc;
    cbn [check_labels map filter find].
  - now rewrite app_nil_r.
  - destruct (truthy (strip label)); cbn [negb find]; [|apply IH].
    fold (unsupported (strip label)).
    destruct (unsupported (strip label)); [reflexivity|].
    rewrite IH. destruct (find _ _); [reflexivity|].
    now rewrite <- app_assoc.
Qed.

Lemma Forall2_In_left {A B : Type} (P : A -> B -> Prop) (l : list A) (l' : list B) (a : A) :
  Forall2 P l l' -> In a l -> exists b, In b l' /\ P a b.
Proof.
  induction 1 as [|x y l l' Hxy _ IH]; intros Hin; [destruct Hin|].
  destruct Hin as [<-|Hin].
  - exists y. split; [now left | exact Hxy].
  - destruct (IH Hin) as (b & Hb & Hp). exists b. split; [now right | exact Hp].
Qed.

Lemma find_app {A : Type} (p : A -> bool) (l l' : list A) :
  find p (l ++ l')
  = match find p l with
    | Some a => Some a
    | None => find p l'
    end.
Proof.
  induction l as [|a l IH]; cbn [app find]; [reflexivity|].
  destruct (p a); [reflexivity | exact IH].
Qed.

(** [find] yields the first element that satisfies the test. *)
Lemma find_first {A : Type} (p : A -> bool) (before after : list A) (a : A) :
  (forall x, In x before -> p x = false) -> p a = true ->
  find p (before ++ a :: after) = Some a.
Proof.
  intros Hb Ha. induction before as [|x before IH]; cbn [app find].
  - now rewrite Ha.
  - rewrite (Hb x (or_introl eq_refl)). apply IH. intros y Hy. apply Hb. now right.
Qed.

Lemma normalize_meals_spec (meal_tokens acc : list string) :
  normalize_meals meal_tokens acc
  = match find unsupported (meal_candidates meal_tokens) with
    | Some c => Raise (unsupported_meal c)
    | None => Ok (acc ++ meal_candidates meal_tokens)%list
    end.
Proof.
  unfold meal_candidates. revert acc.
  induction meal_tokens as [|token tokens IH]; intros acc;
    cbn [normalize_meals flat_map map filter find].
  - now rewrite app_nil_r.
  - rewrite check_labels_spec, map_app, filter_app, find_app.
    destruct (find unsupported (filter truthy (map strip (pieces token))));
      cbn [bind]; [reflexivity|].
    rewrite IH. destruct (find _ _); [reflexivity|].
    now rewrite <- app_assoc.
Qed.

(** The outcome of [normalize_revision], stage by stage. *)
Lemma normalize_revision_outcome self date_tokens meal_tokens notes :
  normalize_revision self date_tokens meal_tokens notes
  = if negb (truthy (strip notes)) then Raise (ValueError "수정 지시 내용을 입력해주세요.")
    else
      match parse_dates date_tokens with
      | Raise e => Raise e
      | Ok [] => Raise (ValueError "수정 대상 날짜를 최소 1개 이상 입력해주세요.")
      | Ok (d :: ds) =>
        match find unsupported (meal_candidates meal_tokens) with
        | Some c => Raise (unsupported_meal c)
        | None => Ok {|
                    target_dates := d :: ds;
                    meals_to_update := meal_candidates meal_tokens;
                    change_notes := strip notes
                  |}
        end
      end.
Proof.
  unfold normalize_revision. destruct (negb (truthy (strip notes))); [reflexivity|].
  destruct (parse_dates date_tokens) as [[|d ds]|e]; cbn [bind]; try reflexivity.
  rewrite normalize_meals_spec.
  destruct (find unsupported (meal_candidates meal_tokens)); reflexivity.
Qed.

(** C7, as worded, fails: one date token that does not parse makes the call
    raise although another token parses, the notes are not blank and no meal
    token is given. *)
Lemma normalize_revision_counterexample :
  is_ValueError
    (normalize_revision Sample.normalizer ["2024-05-01"; "2024-05-32"] [] "저염식으로") /\
  ~ claimed_revision_failure ["2024-05-01"; "2024-05-32"] [] "저염식으로".
Proof.
  split.
  - eexists. vm_compute. reflexivity.
  - intros [Hb|[Hd|(c & Hin & _)]].
    + apply strip_empty in Hb. discriminate Hb.
    + apply (Hd "2024-05-01"); [now left|].
      exists 2024, 5, 1. apply (writes_may_2024 1). lia.
    + destruct Hin.
Qed.

(** C7, amended.  [normalize_revision] raises a [ValueError] exactly when the
    notes are blank, some date token that is not blank is not taken as a
    date, every date token is blank, or some meal candidate is outside the
    four labels, and otherwise returns.  When only the meal candidates are
    at fault the message names the first of them outside the labels, and the
    four labels.  On success the result holds the dates the non-blank date
    tokens write, the meal candidates in input order and the trimmed
    notes. *)
Theorem normalize_revision_validation self date_tokens meal_tokens notes :
  (is_ValueError (normalize_revision self date_tokens meal_tokens notes) <->
   blank notes \/
   (exists token, In token date_tokens /\ ~ blank token /\ ~ date_text token) \/
   (forall token, In token date_tokens -> blank token) \/
   (exists c, In c (meal_candidates meal_tokens) /\ ~ In c MEAL_LABELS)) /\
  (returns (normalize_revision self date_tokens meal_tokens notes) \/
   is_ValueError (normalize_revision self date_tokens meal_tokens notes)) /\
  (forall before c after,
      ~ blank notes ->
      (forall token, In token date_tokens -> blank token \/ date_text token) ->
      (exists token, In token date_tokens /\ ~ blank token) ->
      meal_candidates meal_tokens = (before ++ c :: after)%list ->
      (forall x, In x before -> In x MEAL_LABELS) ->
      ~ In c MEAL_LABELS ->
      normalize_revision self date_tokens meal_tokens notes
      = Raise (ValueError ("지원하지 않는 식사 구분입니다: " ++ c
                           ++ " (허용: 아침, 점심, 저녁, 간식)"))) /\
  (forall r,
      normalize_revision self date_tokens meal_tokens notes = Ok r ->
      Forall2 (fun token o => exists y m d, writes token y m d /\ o = _ymd2ord y m d)
        (date_candidates date_tokens) (target_dates r) /\
      (forall token,
          In token (date_candidates date_tokens) <-> In token date_tokens /\ ~ blank token) /\
      meals_to_update r = meal_candidates meal_tokens /\
      change_notes r = strip notes).
Proof.
  rewrite normalize_revision_outcome.
  destruct (truthy (strip notes)) eqn:Et; cbn [negb].
  2:{ apply truthy_strip in Et.
      split; [split; [now left | intros _; eexists; reflexivity]|].
      split; [right; eexists; reflexivity|].
      split; [intros before c after Hn; contradiction | discriminate]. }
  assert (Hnb : ~ blank notes).
  { intros Hb. apply truthy_strip in Hb. congruence. }
  destruct (parse_dates date_tokens) as [dates|e] eqn:Ed.
  2:{ destruct (parse_dates_Raise _ _ Ed) as (-> & t & Hin & Hn).
      apply date_candidates_In in Hin. destruct Hin as [Hin Hb].
      split; [split; [intros _; right; left; now exists t
                     | intros _; eexists; reflexivity]|].
      split; [right; eexists; reflexivity|].
      split; [|discriminate].
      intros before c after _ Hall. destruct (Hall t Hin); contradiction. }
  pose proof (proj1 (parse_dates_Ok _ _) Ed) as Hf.
  destruct dates as [|d ds].
  { inversion Hf as [Hnil|]. symmetry in Hnil.
    pose proof (proj1 (date_candidates_nil date_tokens) Hnil) as Hall.
    split; [split; [intros _; right; right; now left
                   | intros _; eexists; reflexivity]|].
    split; [right; eexists; reflexivity|].
    split; [|discriminate].
    intros before c after _ _ (t & Hin & Hb). elim (Hb (Hall t Hin)). }
  assert (Hparsed : forall t, In t date_tokens -> ~ blank t -> date_text t).
  { intros t Hin Hb.
    destruct (Forall2_In_left _ _ _ t Hf) as (d' & _ & Hd').
    - apply date_candidates_In. now split.
    - apply _parse_date_Ok in Hd'. destruct Hd' as (y & m & dd & Hw & _).
      now exists y, m, dd. }
  assert (Hne : ~ (forall token, In token date_tokens -> blank token)).
  { intros Hall. apply date_candidates_nil in Hall. rewrite Hall in Hf. inversion Hf. }
  destruct (find unsupported (meal_candidates meal_tokens)) as [c|] eqn:Ef.
  - pose proof (find_some _ _ Ef) as [Hin Hun]. apply unsupported_true in Hun.
    split; [split; [intros _; right; right; right; now exists c
                   | intros _; eexists; reflexivity]|].
    split; [right; eexists; reflexivity|].
    split; [|discriminate].
    intros before c' after _ _ _ Hsplit Hb Hc'.
    rewrite Hsplit, find_first in Ef.
    + injection Ef as ->. reflexivity.
    + intros x Hx. destruct (unsupported x) eqn:Ex; [|reflexivity].
      apply unsupported_true in Ex. elim (Ex (Hb x Hx)).
    + now apply unsupported_true.
  - assert (Hall : forall c, In c (meal_candidates meal_tokens) -> In c MEAL_LABELS).
    { intros c Hin. pose proof (find_none _ _ Ef c Hin) as Hc.
      destruct (in_dec string_dec c MEAL_LABELS) as [Hy|Hn]; [exact Hy|].
      apply unsupported_true in Hn. congruence. }
    split; [split|].
    + intros [msg Hm]. discriminate.
    + intros [Hb|[(t & Hin & Hb & Hn)|[Hblank|(c & Hin & Hn)]]].
      * contradiction.
      * elim (Hn (Hparsed t Hin Hb)).
      * contradiction.
      * elim (Hn (Hall c Hin)).
    + split; [left; eexists; reflexivity|].
      split.
      * intros before c after _ _ _ Hsplit _ Hc. elim Hc. apply Hall.
        rewrite Hsplit. apply in_or_app. right. now left.
      * intros r [= <-]. cbn [target_dates meals_to_update change_notes].
        split; [|split; [apply date_candidates_In | split; reflexivity]].
        clear - Hf. induction Hf as [|t o ts os Ho _ IH]; constructor; [|exact IH].
        apply _parse_date_Ok in Ho. destruct Ho as (y & m & dd & Hw & ->).
        now exists y, m, dd.
Qed.

Lemma normalize_revision_validation_witness :
  normalize_revision Sample.normalizer ["2024-05-01"; " "] ["아침; breakfast_invalid, lunch"]
    "저염식으로"
  = Raise (ValueError "지원하지 않는 식사 구분입니다: breakfast_invalid (허용: 아침, 점심, 저녁, 간식)").
Proof.
  destruct (normalize_revision_validation
              Sample.normalizer ["2024-05-01"; " "] ["아침; breakfast_invalid, lunch"]
              "저염식으로")
    as (_ & _ & H & _).
  apply (H ["아침"] "breakfast_invalid" ["lunch"]).
  - intros Hb. apply strip_empty in Hb. discriminate Hb.
  - intros t [<-|[<-|[]]].
    + right. exists 2024, 5, 1. apply (writes_may_2024 1). lia.
    + left. apply strip_empty. reflexivity.
  - exists "2024-05-01". split; [now left|].
    intros Hb. apply strip_empty in Hb. discriminate Hb.
  - reflexivity.
  - intros x [<-|[]]. now left.
  - intros [H1|[H1|[H1|[H1|[]]]]]; discriminate H1.
Defined.

End Revision.

(** ** Chunked generation *)

Section Chunking.
Import Text Calendar Requests Counselor.

(** The generation backend and the configured chunk span. *)
Variable World : Type.
Variable generate_plan :
  string -> MealPlanRequest -> option string -> World -> result MealPlanResult * World.
Variable MAX_CHUNK_DAYS : Z.

Lemma chunk_count_bounds (request : MealPlanRequest) (m : Z) :
  start_date request <= end_date request -> 1 <= m ->
  let n := Z.of_nat (chunk_count request m) in
  1 <= n /\ (n - 1) * m < duration_days request <= n * m.
Proof.
  intros Hle Hm. cbv zeta. unfold chunk_count, duration_days, days_between.
  set (D := end_date request - start_date request + 1).
  assert (HD : 1 <= D) by (unfold D; lia).
  pose proof (Z.div_mod (D + m - 1) m ltac:(lia)) as Hdm.
  pose proof (Z.mod_pos_bound (D + m - 1) m ltac:(lia)) as Hr.
  assert (Hq : 1 <= (D + m - 1) / m) by (apply Z.div_le_lower_bound; lia).
  rewrite Z2Nat.id by lia.
  set (q := (D + m - 1) / m) in *. set (r := (D + m - 1) mod m) in *.
  clearbody q r D. split; [exact Hq|]. split; lia.
Qed.

Lemma chunk_range_inner (request : MealPlanRequest) (m : Z) (k : nat) :
  start_date request <= end_date request -> 1 <= m ->
  (S k < chunk_count request m)%nat ->
  chunk_range request m k
  = (start_date request + Z.of_nat k * m, start_date request + Z.of_nat k * m + m - 1) /\
  start_date request + Z.of_nat k * m + m <= end_date request.
Proof.
  intros Hle Hm Hk. destruct (chunk_count_bounds request m Hle Hm) as (Hn & Hlo & Hhi).
  unfold duration_days, days_between in Hlo, Hhi. unfold chunk_range.
  assert (Hk' : (Z.of_nat k + 1) * m <= (Z.of_nat (chunk_count request m) - 1) * m)
    by (apply Z.mul_le_mono_nonneg_r; lia).
  split; [|lia]. rewrite Z.min_l by lia. f_equal. lia.
Qed.

Lemma chunk_range_last (request : MealPlanRequest) (m : Z) (k : nat) :
  start_date request <= end_date request -> 1 <= m ->
  S k = chunk_count request m ->
  chunk_range request m k = (start_date request + Z.of_nat k * m, end_date request) /\
  start_date request + Z.of_nat k * m <= end_date request /\
  end_date request <= start_date request + Z.of_nat k * m + m - 1.
Proof.
  intros Hle Hm Hk. destruct (chunk_count_bounds request m Hle Hm) as (Hn & Hlo & Hhi).
  unfold duration_days, days_between in Hlo, Hhi. unfold chunk_range.
  rewrite <- Hk in Hlo, Hhi. rewrite Nat2Z.inj_succ in Hlo, Hhi.
  split; [|lia]. rewrite Z.min_r by lia. reflexivity.
Qed.

Lemma nth_error_chunk_requests (request : MealPlanRequest) (m : Z) (i : nat) :
  nth_error (chunk_requests request m) i
  = if (i <? chunk_count request m)%nat
    then Some (with_dates request (chunk_range request m i))
    else None.
Proof.
  unfold chunk_requests. rewrite nth_error_map.
  destruct (Nat.ltb_spec i (chunk_count request m)) as [Hlt|Hge].
  - rewrite nth_error_seq. destruct (Nat.ltb_spec i (chunk_count request m)); [|lia].
    reflexivity.
  - rewrite (proj2 (nth_error_None _ _)); [reflexivity|]. now rewrite length_seq.
Qed.

Lemma length_chunk_requests (request : MealPlanRequest) (m : Z) :
  List.length (chunk_requests request m) = chunk_count request m.
Proof. unfold chunk_requests. now rewrite length_map, length_seq. Qed.

(** The closed-form partition is a chunking of the request. *)
Lemma chunk_requests_chunking (request : MealPlanRequest) (m : Z) :
  start_date request <= end_date request -> 1 <= m ->
  chunking request m (chunk_requests request m).
Proof.
  intros Hle Hm. destruct (chunk_count_bounds request m Hle Hm) as (Hn & _).
  assert (Hcase : forall i, (i < chunk_count request m)%nat ->
             (S i < chunk_count request m)%nat \/ S i = chunk_count request m) by lia.
  assert (Hspan : forall i, (i < chunk_count request m)%nat ->
             let c := with_dates request (chunk_range request m i) in
             1 <= duration_days c <= m).
  { intros i Hi. cbv zeta. unfold duration_days, days_between. cbn [start_date end_date with_dates].
    destruct (Hcase i Hi) as [Hin|Hl].
    - destruct (chunk_range_inner request m i Hle Hm Hin) as (-> & _). cbn [fst snd]. lia.
    - destruct (chunk_range_last request m i Hle Hm Hl) as (-> & H1 & H2). cbn [fst snd]. lia. }
  constructor.
  - exists (with_dates request (chunk_range request m 0)).
    rewrite nth_error_chunk_requests.
    destruct (Nat.ltb_spec 0 (chunk_count request m)); [|lia].
    split; [reflexivity|]. cbn. lia.
  - rewrite length_chunk_requests.
    exists (with_dates request (chunk_range request m (chunk_count request m - 1))).
    rewrite nth_error_chunk_requests.
    destruct (Nat.ltb_spec (chunk_count request m - 1) (chunk_count request m)); [|lia].
    split; [reflexivity|].
    destruct (chunk_range_last request m (chunk_count request m - 1) Hle Hm ltac:(lia))
      as (-> & _). reflexivity.
  - intros i a b Ha Hb. rewrite nth_error_chunk_requests in Ha, Hb.
    destruct (Nat.ltb_spec (S i) (chunk_count request m)) as [Hsi|]; [|discriminate].
    destruct (Nat.ltb_spec i (chunk_count request m)); [|lia].
    injection Ha as <-. injection Hb as <-. cbn [start_date end_date with_dates].
    destruct (chunk_range_inner request m i Hle Hm Hsi) as (-> & _).
    unfold chunk_range. cbn [fst snd]. lia.
  - intros c Hin. apply In_nth_error in Hin. destruct Hin as [i Hi].
    rewrite nth_error_chunk_requests in Hi.
    destruct (Nat.ltb_spec i (chunk_count request m)) as [Hlt|]; [|discriminate].
    injection Hi as <-. exact (Hspan i Hlt).
  - intros i c Hi Hsi. rewrite length_chunk_requests in Hsi.
    rewrite nth_error_chunk_requests in Hi.
    destruct (Nat.ltb_spec i (chunk_count request m)); [|discriminate].
    injection Hi as <-. unfold duration_days, days_between.
    cbn [start_date end_date with_dates].
    destruct (chunk_range_inner request m i Hle Hm Hsi) as (-> & _). cbn [fst snd]. lia.
  - intros c Hin. apply In_nth_error in Hin. destruct Hin as [i Hi].
    rewrite nth_error_chunk_requests in Hi.
    destruct (Nat.ltb_spec i (chunk_count request m)); [|discriminate].
    injection Hi as <-. reflexivity.
Qed.

Lemma add_days_Ok (d n o : Z) : add_days d n = Ok o -> o = d + n.
Proof.
  unfold add_days. destruct (999999999 <? Z.abs n); [discriminate|].
  destruct ((0 <? d + n) && (d + n <=? _MAXORDINAL)); [|discriminate].
  now intros [= <-].
Qed.

Lemma add_days_returns (d n : Z) :
  Z.abs n <= 999999999 -> 1 <= d + n <= _MAXORDINAL -> add_days d n = Ok (d + n).
Proof.
  intros Hn Hd. unfold add_days.
  destruct (Z.ltb_spec 999999999 (Z.abs n)); [lia|].
  destruct (Z.ltb_spec 0 (d + n)); [|lia].
  destruct (Z.leb_spec (d + n) _MAXORDINAL); [reflexivity | lia].
Qed.

Lemma replace_dates_Ok (request : MealPlanRequest) (first last : date) :
  first <= last ->
  replace_dates request first last = Ok (with_dates request (first, last)).
Proof.
  intros H. unfold replace_dates, new_MealPlanRequest, __post_init__.
  cbn [start_date end_date]. destruct (Z.ltb_spec last first); [lia|]. reflexivity.
Qed.

Lemma trace_requests m ctx previous plan segments calls out :
  trace m ctx previous plan segments calls out ->
  map (fun entry => call_request (fst entry)) calls = firstn (List.length calls) plan /\
  Forall (fun entry => call_context (fst entry) = ctx) calls /\
  threaded previous calls.
Proof.
  revert previous segments calls.
  induction plan as [|r plan IH]; intros previous segments calls; cbn [trace].
  - intros [-> _]. cbn. auto.
  - destruct (add_days (start_date r) (m - 1)); [|intros [-> _]; cbn; auto].
    destruct calls as [|[c o] calls]; [intros []|].
    intros [-> H]. cbn [map List.length firstn fst call_of call_request threaded
                          call_previous_plan].
    destruct o as [res|e].
    + destruct (add_days (end_date r) 1).
      * destruct (IH _ _ _ H) as (H1 & H2 & H3).
        rewrite H1. split; [reflexivity|]. split; [|now split].
        constructor; [reflexivity | exact H2].
      * destruct H as [-> _]. cbn. split; [reflexivity|].
        split; [repeat constructor | now split].
    + destruct H as [-> _]. cbn. split; [reflexivity|].
      split; [repeat constructor | now split].
Qed.

(** A run that returns made one call per chunk of the plan, every call
    answered, and it returns the chunk requests paired with the answers. *)
Lemma trace_Ok m ctx previous plan segments calls segments' :
  trace m ctx previous plan segments calls (Ok segments') ->
  exists results,
    List.length results = List.length plan /\
    map (fun entry => call_request (fst entry)) calls = plan /\
    map snd calls = map Ok results /\
    segments' = (segments ++ combine plan results)%list.
Proof.
  revert previous segments calls.
  induction plan as [|r plan IH]; intros previous segments calls; cbn [trace].
  - intros [-> [= <-]]. exists []. cbn. now rewrite app_nil_r.
  - destruct (add_days (start_date r) (m - 1)); [|intros [_ [=]]].
    destruct calls as [|[c o] calls]; [intros []|].
    intros [-> H]. destruct o as [res|e]; [|destruct H as [_ [=]]].
    destruct (add_days (end_date r) 1); [|destruct H as [_ [=]]].
    destruct (IH _ _ _ H) as (results & Hlen & Hreq & Hsnd & Hseg).
    exists (res :: results). cbn [List.length map fst snd call_of call_request combine].
    rewrite Hlen, Hreq, Hsnd, Hseg, <- app_assoc. auto.
Qed.

(** When no date computation overflows and every call answers, the run
    returns. *)
Lemma trace_returns m ctx previous plan segments calls out :
  trace m ctx previous plan segments calls out ->
  (forall r, In r plan ->
             returns (add_days (start_date r) (m - 1)) /\ returns (add_days (end_date r) 1)) ->
  Forall answered calls ->
  returns out /\ List.length calls = List.length plan.
Proof.
  revert previous segments calls.
  induction plan as [|r plan IH]; intros previous segments calls; cbn [trace].
  - intros [-> ->] _ _. split; [now eexists | reflexivity].
  - intros H Hplan Hcalls.
    destruct (Hplan r (or_introl eq_refl)) as [[u Hu] [v Hv]]. rewrite Hu, Hv in H.
    destruct calls as [|[c o] calls]; [destruct H|].
    destruct H as [-> H]. inversion Hcalls as [|x l Ho Hrest]; subst.
    destruct o as [res|e]; [|destruct Ho as [a Ha]; discriminate].
    destruct (IH _ _ _ H) as [Hout Hlen]; [intros r' Hr'; apply Hplan; now right | exact Hrest|].
    split; [exact Hout | cbn; now rewrite Hlen].
Qed.

Lemma while_chunks_trace (patient_context : string) (request : MealPlanRequest) (m : Z) :
  start_date request <= end_date request -> 1 <= m ->
  forall (j k fuel : nat) (current_start : date) (previous : option string)
         (segments : list (MealPlanRequest * MealPlanResult))
         (world : World) (calls0 : list (Call * result MealPlanResult)),
    (k + j = chunk_count request m)%nat -> (j <= fuel)%nat ->
    (j <> O -> current_start = start_date request + Z.of_nat k * m) ->
    (j = O -> end_date request < current_start) ->
    exists out world' calls,
      while_chunks World generate_plan fuel patient_context request m current_start
        previous segments (world, calls0)
      = Some (out, (world', (calls0 ++ calls)%list)) /\
      trace m patient_context previous
        (map (fun i => with_dates request (chunk_range request m i)) (seq k j))
        segments calls out.
Proof.
  intros Hle Hm. induction j as [|j IH];
    intros k fuel cs previous segments world calls0 Hk Hfuel Hcs Hend.
  - specialize (Hend eq_refl).
    exists (Ok segments), world, []. rewrite app_nil_r. split; [|now split].
    destruct fuel; cbn [while_chunks];
      destruct (Z.leb_spec cs (end_date request)); try lia; reflexivity.
  - destruct fuel as [|fuel]; [lia|]. specialize (Hcs ltac:(discriminate)). subst cs.
    assert (Hcase : (S k < chunk_count request m)%nat \/ S k = chunk_count request m) by lia.
    assert (Hstart : start_date request + Z.of_nat k * m <= end_date request).
    { destruct Hcase as [Hin|Hl].
      - destruct (chunk_range_inner request m k Hle Hm Hin) as (_ & H). lia.
      - destruct (chunk_range_last request m k Hle Hm Hl) as (_ & H & _). exact H. }
    cbn [while_chunks seq map trace start_date end_date with_dates].
    destruct (Z.leb_spec (start_date request + Z.of_nat k * m) (end_date request)); [|lia].
    unfold bindM at 1. unfold lift at 1. cbn [fst snd chunk_range].
    destruct (add_days (start_date request + Z.of_nat k * m) (m - 1)) as [upper|e] eqn:Eup.
    2:{ exists (Raise e), world, []. rewrite app_nil_r. split; [reflexivity | now split]. }
    apply add_days_Ok in Eup. subst upper.
    replace (start_date request + Z.of_nat k * m + (m - 1))
      with (start_date request + (Z.of_nat k + 1) * m - 1) by lia.
    set (last := Z.min (start_date request + (Z.of_nat k + 1) * m - 1) (end_date request)).
    assert (Hlast : start_date request + Z.of_nat k * m <= last) by (unfold last; lia).
    unfold bindM at 1. unfold lift at 1.
    rewrite (replace_dates_Ok request _ _ Hlast).
    unfold bindM at 1. unfold agent_generate_plan at 1. cbv beta iota.
    match goal with
    | |- context [generate_plan ?a ?b ?c ?d] =>
      destruct (generate_plan a b c d) as [o world1] eqn:Ecall
    end.
    set (r := with_dates request (start_date request + Z.of_nat k * m, last)) in *.
    destruct o as [res|e].
    2:{ exists (Raise e), world1, [(call_of patient_context r previous, Raise e)].
        split; [reflexivity|]. cbn. auto. }
    unfold bindM at 1. unfold lift at 1.
    destruct (add_days last 1) as [next|e] eqn:Enext.
    2:{ exists (Raise e), world1, [(call_of patient_context r previous, Ok res)].
        split; [reflexivity|]. cbn. auto. }
    apply add_days_Ok in Enext.
    destruct (IH (S k) fuel next (Some (markdown res)) (segments ++ [(r, res)])%list world1
                 (calls0 ++ [(call_of patient_context r previous, Ok res)])%list)
      as (out & world' & calls & Hrun & Htrace).
    + lia.
    + lia.
    + intros Hj. destruct Hcase as [Hin|Hl]; [|lia].
      destruct (chunk_range_inner request m k Hle Hm Hin) as (Hr & _).
      unfold chunk_range in Hr. injection Hr as Hr. fold last in Hr.
      rewrite Nat2Z.inj_succ. lia.
    + intros Hj. destruct Hcase as [Hin|Hl]; [lia|].
      destruct (chunk_range_last request m k Hle Hm Hl) as (Hr & _).
      unfold chunk_range in Hr. injection Hr as Hr. fold last in Hr. lia.
    + exists out, world', ((call_of patient_context r previous, Ok res) :: calls).
      split.
      * rewrite <- app_assoc in Hrun. exact Hrun.
      * split; [reflexivity|]. exact Htrace.
Qed.

Lemma chunk_requests_within (request : MealPlanRequest) (m : Z) (r : MealPlanRequest) :
  start_date request <= end_date request -> 1 <= m ->
  In r (chunk_requests request m) ->
  start_date request <= start_date r /\ start_date r <= end_date r /\
  end_date r <= end_date request.
Proof.
  intros Hle Hm Hin. apply In_nth_error in Hin. destruct Hin as [i Hi].
  rewrite nth_error_chunk_requests in Hi.
  destruct (Nat.ltb_spec i (chunk_count request m)) as [Hlt|]; [|discriminate].
  injection Hi as <-. cbn [start_date end_date with_dates].
  assert (Hcase : (S i < chunk_count request m)%nat \/ S i = chunk_count request m) by lia.
  destruct Hcase as [Hin|Hl].
  - destruct (chunk_range_inner request m i Hle Hm Hin) as (-> & H). cbn [fst snd]. lia.
  - destruct (chunk_range_last request m i Hle Hm Hl) as (-> & H1 & H2). cbn [fst snd]. lia.
Qed.

Lemma section_of_eq (segment : MealPlanRequest * MealPlanResult) :
  section_of segment
  = "### " ++ isoformat (start_date (fst segment)) ++ " ~ "
      ++ isoformat (end_date (fst segment))
      ++ newline ++ newline ++ markdown (snd segment).
Proof.
  destruct segment as [c res]. unfold section_of, join. cbn [concat fst snd].
  rewrite !append_assoc. reflexivity.
Qed.

(** Every run of [_generate_sequence] ends.  A short request is one call with
    the request itself and no previous plan; a long one is a run of the chunk
    loop over the closed-form partition. *)
Lemma _generate_sequence_run (patient_context : string) (request : MealPlanRequest)
  (world : World) :
  let m := Z.max 1 MAX_CHUNK_DAYS in
  start_date request <= end_date request ->
  exists out world' calls,
    _generate_sequence World generate_plan MAX_CHUNK_DAYS patient_context request (world, [])
    = Some (out, (world', calls)) /\
    (duration_days request <= m ->
     calls = [(call_of patient_context request None, out)]) /\
    (m < duration_days request ->
     exists segments_out,
       trace m patient_context None (chunk_requests request m) [] calls segments_out /\
       out = match segments_out with
             | Ok segments => Ok (merged request m segments)
             | Raise e => Raise e
             end).
Proof.
  cbv zeta. intros Hle. unfold _generate_sequence.
  set (m := Z.max 1 MAX_CHUNK_DAYS). assert (Hm : 1 <= m) by (unfold m; lia).
  destruct (Z.leb_spec (duration_days request) m) as [Hshort|Hlong].
  - unfold agent_generate_plan.
    destruct (generate_plan patient_context request None world) as [o world1].
    exists o, world1, [(call_of patient_context request None, o)].
    split; [reflexivity|]. split; [reflexivity | lia].
  - destruct (chunk_count_bounds request m Hle Hm) as (Hn & Hlo & Hhi).
    destruct (while_chunks_trace patient_context request m Hle Hm
                (chunk_count request m) 0 (Z.to_nat (duration_days request))
                (start_date request) None [] world [])
      as (segs & world' & calls & Hrun & Htrace).
    + lia.
    + assert (Z.of_nat (chunk_count request m) - 1 <= (Z.of_nat (chunk_count request m) - 1) * m)
        by nia.
      lia.
    + intros _. cbn. lia.
    + lia.
    + unfold bindM. rewrite Hrun. cbn [app] in *.
      destruct segs as [segments|e].
      * exists (Ok (merged request m segments)), world', calls.
        split; [reflexivity|]. split; [lia|]. intros _.
        exists (Ok segments). split; [exact Htrace | reflexivity].
      * exists (Raise e), world', calls.
        split; [reflexivity|]. split; [lia|]. intros _.
        exists (Raise e). split; [exact Htrace | reflexivity].
Qed.

(** X1. For a request whose end date is at least the chunk span before
    9999-12-31, chunking works as C4 says.  A request no longer than the span
    is one agent call
    with the request itself and no previous plan.  A longer one is cut into
    the closed-form partition, which is a chunking of the period with
    [ceil(duration / span)] chunks (14, 14 and 2 days for 30 days and a span
    of 14); the agent is called on these chunk requests in order, with the
    patient context, the first time with no previous plan and then with the
    markdown the call before returned; nothing is called after a call that
    failed, and when every call is answered every chunk is served and the run
    returns. *)
Theorem _generate_sequence_chunks (patient_context : string) (request : MealPlanRequest)
  (world : World) :
  let m := Z.max 1 MAX_CHUNK_DAYS in
  valid_request request ->
  end_date request + m <= _MAXORDINAL ->
  exists out world' calls,
    _generate_sequence World generate_plan MAX_CHUNK_DAYS patient_context request (world, [])
    = Some (out, (world', calls)) /\
    (duration_days request <= m ->
     calls = [(call_of patient_context request None, out)]) /\
    (m < duration_days request ->
     chunking request m (chunk_requests request m) /\
     List.length (chunk_requests request m)
     = Z.to_nat ((duration_days request + m - 1) / m) /\
     (m = 14 -> duration_days request = 30 ->
      map duration_days (chunk_requests request m) = [14; 14; 2]) /\
     map (fun entry => call_request (fst entry)) calls
     = firstn (List.length calls) (chunk_requests request m) /\
     calls <> [] /\
     Forall (fun entry => call_context (fst entry) = patient_context) calls /\
     threaded None calls /\
     (Forall answered calls ->
      returns out /\
      map (fun entry => call_request (fst entry)) calls = chunk_requests request m)).
Proof.
  cbv zeta. intros (Hs & Hle & He) Hmax.
  set (m := Z.max 1 MAX_CHUNK_DAYS) in *. assert (Hm : 1 <= m) by (unfold m; lia).
  destruct (_generate_sequence_run patient_context request world Hle)
    as (out & world' & calls & Hrun & Hshort & Hlong).
  fold m in Hshort, Hlong.
  exists out, world', calls. split; [exact Hrun|]. split; [exact Hshort|].
  intros Hd. destruct (Hlong Hd) as (segs & Htrace & Hout).
  destruct (trace_requests _ _ _ _ _ _ _ Htrace) as (Hreq & Hctx & Hthr).
  assert (Hsafe : forall r, In r (chunk_requests request m) ->
             returns (add_days (start_date r) (m - 1)) /\
             returns (add_days (end_date r) 1)).
  { intros r Hr. destruct (chunk_requests_within request m r Hle Hm Hr) as (H1 & H2 & H3).
    unfold _MAXORDINAL in *.
    split; eexists; apply add_days_returns; unfold _MAXORDINAL; lia. }
  split; [now apply chunk_requests_chunking|].
  split; [apply length_chunk_requests|].
  split.
  { intros H14 H30. unfold chunk_requests, chunk_count. rewrite H14, H30.
    change (Z.to_nat ((30 + 14 - 1) / 14)) with 3%nat.
    unfold duration_days, days_between in *. cbn. f_equal; [lia|]. f_equal; [lia|].
    f_equal. lia. }
  split; [exact Hreq|].
  split.
  { intros ->. pose proof (length_chunk_requests request m) as Hlen.
    destruct (chunk_count_bounds request m Hle Hm) as (Hn & _).
    destruct (chunk_requests request m) as [|r plan] eqn:Eplan; [cbn in Hlen; lia|].
    cbn [trace] in Htrace.
    destruct (Hsafe r (or_introl eq_refl)) as [[u Hu] _]. rewrite Hu in Htrace.
    exact Htrace. }
  split; [exact Hctx|]. split; [exact Hthr|].
  intros Hall. destruct (trace_returns _ _ _ _ _ _ _ Htrace Hsafe Hall) as [[segments ->] Hlen].
  split; [rewrite Hout; now eexists|].
  rewrite Hreq, Hlen. apply firstn_all.
Qed.

Lemma merged_markdown_eq (segments : list (MealPlanRequest * MealPlanResult)) :
  join (newline ++ newline) (map section_of segments) = merged_markdown segments.
Proof.
  induction segments as [|[chunk answer] segments IH]; [reflexivity|].
  cbn [map merged_markdown]. rewrite section_of_eq. cbn [fst snd]. unfold header.
  change (join (newline ++ newline)
            (("### " ++ isoformat (start_date chunk) ++ " ~ " ++ isoformat (end_date chunk)
                ++ newline ++ newline ++ markdown answer) :: map section_of segments))
    with (match map section_of segments with
          | [] => "### " ++ isoformat (start_date chunk) ++ " ~ "
                    ++ isoformat (end_date chunk) ++ newline ++ newline ++ markdown answer
          | _ :: _ =>
            ("### " ++ isoformat (start_date chunk) ++ " ~ " ++ isoformat (end_date chunk)
               ++ newline ++ newline ++ markdown answer)
              ++ (newline ++ newline) ++ join (newline ++ newline) (map section_of segments)
          end).
  rewrite IH. change (newline ++ newline) with blank_line.
  destruct segments as [|segment segments]; cbn [map].
  - now rewrite !append_assoc, append_empty.
  - now rewrite !append_assoc.
Qed.

(** C9. When a multi-chunk run returns, there is one answered call per chunk
    of the partition, in date order; the merged markdown is the answers'
    markdown in that order, each under the header "### start ~ end" of its
    own chunk followed by an empty line, with an empty line between the
    sections; and the metadata gives the number of chunks and the chunk span
    in decimal. *)
Theorem _generate_sequence_merged (patient_context : string) (request : MealPlanRequest)
  (world world' : World) (calls : list (Call * result MealPlanResult))
  (result : MealPlanResult) :
  let m := Z.max 1 MAX_CHUNK_DAYS in
  m < duration_days request ->
  _generate_sequence World generate_plan MAX_CHUNK_DAYS patient_context request (world, [])
  = Some (Ok result, (world', calls)) ->
  exists results,
    chunking request m (chunk_requests request m) /\
    map (fun entry => call_request (fst entry)) calls = chunk_requests request m /\
    map snd calls = map Ok results /\
    markdown result = merged_markdown (combine (chunk_requests request m) results) /\
    metadata result
    = [("status", "created");
       ("chunks", str (Z.of_nat (List.length (chunk_requests request m))));
       ("chunk_span_days", str m)].
Proof.
  cbv zeta. set (m := Z.max 1 MAX_CHUNK_DAYS). intros Hd Hrun.
  assert (Hm : 1 <= m) by (unfold m; lia).
  assert (Hle : start_date request <= end_date request)
    by (unfold duration_days, days_between in Hd; lia).
  destruct (_generate_sequence_run patient_context request world Hle)
    as (out & w & cs & Hrun' & _ & Hlong).
  rewrite Hrun in Hrun'. injection Hrun' as <- <- <-.
  destruct (Hlong Hd) as (segs & Htrace & Hout). fold m in Htrace, Hout.
  destruct segs as [segments|e]; [|discriminate]. injection Hout as ->.
  destruct (trace_Ok _ _ _ _ _ _ _ Htrace) as (results & Hlen & Hreq & Hsnd & Hseg).
  cbn [app] in Hseg. subst segments.
  exists results. split; [now apply chunk_requests_chunking|].
  split; [exact Hreq|]. split; [exact Hsnd|].
  split.
  - cbn [markdown merged]. apply merged_markdown_eq.
  - cbn [metadata merged]. rewrite length_combine, Hlen, Nat.min_id. reflexivity.
Qed.

(** A call that raised is the last call of the run, and the run raises what
    it raised. *)
Lemma trace_failed_call m ctx previous plan segments calls out i c e :
  trace m ctx previous plan segments calls out ->
  nth_error calls i = Some (c, Raise e) ->
  out = Raise e /\ S i = List.length calls.
Proof.
  revert previous segments calls i.
  induction plan as [|r plan IH]; intros previous segments calls i; cbn [trace].
  - intros [-> _]. destruct i; discriminate.
  - destruct (add_days (start_date r) (m - 1)); [|intros [-> _]; destruct i; discriminate].
    destruct calls as [|[c0 o] calls]; [intros []|].
    intros [-> H] Hi. destruct i as [|i]; cbn [nth_error] in Hi.
    + injection Hi as <- ->. destruct H as [-> ->]. auto.
    + destruct o as [res|e0].
      * destruct (add_days (end_date r) 1);
          [|destruct H as [-> _]; destruct i; discriminate].
        destruct (IH _ _ _ _ H Hi) as [Hout Hlen]. split; [exact Hout|].
        cbn [List.length]. now rewrite Hlen.
      * destruct H as [-> _]. destruct i; discriminate.
Qed.

(** X2. Every run of [_generate_sequence] ends, whatever the agent does. *)
Theorem _generate_sequence_terminates (patient_context : string)
  (request : MealPlanRequest) (world : World) :
  exists out world' calls,
    _generate_sequence World generate_plan MAX_CHUNK_DAYS patient_context request (world, [])
    = Some (out, (world', calls)).
Proof.
  destruct (Z.le_gt_cases (start_date request) (end_date request)) as [Hle|Hgt].
  - destruct (_generate_sequence_run patient_context request world Hle)
      as (out & world' & calls & Hrun & _).
    now exists out, world', calls.
  - unfold _generate_sequence, duration_days, days_between.
    destruct (Z.leb_spec (end_date request - start_date request + 1)
                         (Z.max 1 MAX_CHUNK_DAYS)); [|lia].
    unfold agent_generate_plan.
    destruct (generate_plan patient_context request None world) as [o world1].
    now eexists _, _, _.
Qed.

(** X3. A failed agent call aborts a multi-chunk run: the call that raised is
    the last one made, and [_generate_sequence] raises the same exception
    instead of returning a partly merged plan. *)
Theorem _generate_sequence_aborts (patient_context : string) (request : MealPlanRequest)
  (world world' : World) (calls : list (Call * result MealPlanResult))
  (out : result MealPlanResult) (i : nat) (c : Call) (e : exn) :
  Z.max 1 MAX_CHUNK_DAYS < duration_days request ->
  _generate_sequence World generate_plan MAX_CHUNK_DAYS patient_context request (world, [])
  = Some (out, (world', calls)) ->
  nth_error calls i = Some (c, Raise e) ->
  out = Raise e /\ S i = List.length calls.
Proof.
  intros Hd Hrun Hi.
  assert (Hle : start_date request <= end_date request)
    by (unfold duration_days, days_between in Hd; lia).
  destruct (_generate_sequence_run patient_context request world Hle)
    as (out' & w & cs & Hrun' & _ & Hlong).
  rewrite Hrun in Hrun'. injection Hrun' as <- <- <-.
  destruct (Hlong Hd) as (segs & Htrace & Hout).
  destruct (trace_failed_call _ _ _ _ _ _ _ _ _ _ Htrace Hi) as [-> Hlen].
  split; [exact Hout | exact Hlen].
Qed.

End Chunking.

(** ** The chunked generation on the sample agent *)

Section ChunkingExamples.
Import Text Calendar Requests Counselor.

Lemma _generate_sequence_chunks_witness :
  exists out world' calls,
    _generate_sequence nat Sample.agent 14 "환자 요약" Sample.thirty_days (0%nat, [])
    = Some (out, (world', calls)) /\
    chunking Sample.thirty_days 14 (chunk_requests Sample.thirty_days 14) /\
    map duration_days (chunk_requests Sample.thirty_days 14) = [14; 14; 2] /\
    map (fun entry => call_request (fst entry)) calls = chunk_requests Sample.thirty_days 14 /\
    threaded None calls /\
    returns out.
Proof.
  assert (Hvalid : valid_request Sample.thirty_days) by (cbv; repeat split; discriminate).
  assert (Hmax : end_date Sample.thirty_days + Z.max 1 14 <= _MAXORDINAL) by (cbv; discriminate).
  destruct (_generate_sequence_chunks nat Sample.agent 14 "환자 요약" Sample.thirty_days 0%nat
              Hvalid Hmax)
    as (out & world' & calls & Hrun & _ & Hlong).
  destruct (Hlong ltac:(cbv; reflexivity))
    as (Hchunk & _ & Hlen & Hreq & _ & _ & Hthr & Hall).
  assert (Hanswered : Forall answered calls).
  { vm_compute in Hrun. injection Hrun as _ _ <-.
    repeat constructor; eexists; reflexivity. }
  destruct (Hall Hanswered) as [Hout Hreq'].
  exists out, world', calls.
  split; [exact Hrun|]. split; [exact Hchunk|].
  split; [exact (Hlen eq_refl eq_refl)|].
  split; [exact Hreq'|]. split; [exact Hthr | exact Hout].
Defined.

(** C4 fails at the end of the calendar.  The thirty days up to 9999-12-31
    are a valid request longer than the span of 14 days.  The agent answers
    the calls for 9999-12-02 to 9999-12-15 and 9999-12-16 to 9999-12-29; then
    the span added to 9999-12-30 leaves the range of [date], the run raises
    [OverflowError], and the last two days are never served: the chunks
    served are not a chunking of the period. *)
Theorem last_thirty_days_overflow :
  valid_request Sample.last_thirty_days /\
  Z.max 1 14 < duration_days Sample.last_thirty_days /\
  match _generate_sequence nat Sample.agent 14 "환자 요약" Sample.last_thirty_days
          (0%nat, []) with
  | Some (out, (_, calls)) =>
    out = Raise (OverflowError "date value out of range") /\
    map (fun entry => (isoformat (start_date (call_request (fst entry))),
                       isoformat (end_date (call_request (fst entry))))) calls
    = [("9999-12-02", "9999-12-15"); ("9999-12-16", "9999-12-29")] /\
    Forall answered calls
  | None => False
  end /\
  ~ serves_every_chunk nat Sample.agent 14 "환자 요약" Sample.last_thirty_days 0%nat.
Proof.
  split; [cbv; repeat split; discriminate|]. split; [cbv; reflexivity|]. split.
  - vm_compute. split; [reflexivity|]. split; [reflexivity|].
    repeat constructor; eexists; reflexivity.
  - intros (out & world' & calls & Hrun & H).
    vm_compute in Hrun. injection Hrun as _ _ <-.
    destruct H as [Hchunk _]; [repeat constructor; eexists; reflexivity|].
    destruct (chunking_last _ _ _ Hchunk) as (c & Hc & Hend).
    cbn in Hc. injection Hc as <-. cbn in Hend. discriminate.
Qed.

Lemma _generate_sequence_merged_witness :
  match _generate_sequence nat Sample.agent 14 "환자 요약" Sample.thirty_days (0%nat, []) with
  | Some (Ok result, _) =>
    markdown result
    = "### 2024-05-01 ~ 2024-05-14

plan 0

### 2024-05-15 ~ 2024-05-28

plan 1 after (plan 0)

### 2024-05-29 ~ 2024-05-30

plan 2 after (plan 1 after (plan 0))" /\
    metadata result = [("status", "created"); ("chunks", "3"); ("chunk_span_days", "14")]
  | _ => False
  end.
Proof.
  destruct (_generate_sequence nat Sample.agent 14 "환자 요약" Sample.thirty_days (0%nat, []))
    as [[[result|e] [world' calls]]|] eqn:Hrun.
  - destruct (_generate_sequence_merged nat Sample.agent 14 "환자 요약" Sample.thirty_days
                0%nat world' calls result ltac:(cbv; reflexivity) Hrun)
      as (results & _ & _ & Hsnd & Hmark & Hmeta).
    vm_compute in Hrun. injection Hrun as <- _ <-.
    cbn [map snd] in Hsnd.
    destruct results as [|r1 [|r2 [|r3 [|r4 results]]]]; try discriminate Hsnd.
    injection Hsnd as <- <- <-.
    split; [exact Hmark | exact Hmeta].
  - vm_compute in Hrun. discriminate.
  - vm_compute in Hrun. discriminate.
Defined.

Lemma _generate_sequence_aborts_witness :
  match _generate_sequence nat Sample.failing_agent 14 "환자 요약" Sample.thirty_days (0%nat, []) with
  | Some (out, (_, calls)) =>
    out = Raise (Other "APIConnectionError" "Connection error.") /\
    List.length calls = 2%nat
  | None => False
  end.
Proof.
  destruct (_generate_sequence nat Sample.failing_agent 14 "환자 요약" Sample.thirty_days (0%nat, []))
    as [[out [world' calls]]|] eqn:Hrun; [|vm_compute in Hrun; discriminate].
  destruct (_generate_sequence_aborts nat Sample.failing_agent 14 "환자 요약" Sample.thirty_days
              0%nat world' calls out 1%nat
              (call_of "환자 요약"
                 (with_dates Sample.thirty_days (Sample.may_1st_2024 + 14, Sample.may_1st_2024 + 27))
                 (Some "plan 0"))
              (Other "APIConnectionError" "Connection error.")
              ltac:(cbv; reflexivity) Hrun) as [Hout Hlen].
  - vm_compute in Hrun. injection Hrun as _ _ <-. reflexivity.
  - split; [exact Hout | now rewrite <- Hlen].
Defined.

End ChunkingExamples.
